(** * Format-preserving update engine of the pptx-template-updater skill

    Shallow embedding of [scripts/update_template.py]:
    [update_table_cell], [update_shape_text] and [apply_updates], together
    with the part of the document model (python-pptx) these functions touch,
    of the structure report of [scripts/extract_template_structure.py] and
    of the path validation of [scripts/security_utils.py].

    Python values that the script mutates in place are threaded explicitly:
    a function that mutates its argument returns the new value next to its
    result, and a function that can raise returns an [outcome].

    A Python string is a [string]: its characters are the code points below
    256. *)

From Stdlib Require Import ZArith String Ascii Lia.
From stdpp Require Import base list strings pretty.

Open Scope string_scope.

(** ** Python: exceptions, values read from JSON, strings *)

Module Py.

Inductive exn :=
| IndexError (msg : string)
| ValueError (msg : string)
| TypeError (msg : string)
| OverflowError (msg : string)
| InvalidXmlError (msg : string).

(** [str(e)] *)
Definition str_of_exn (e : exn) : string :=
  match e with
  | IndexError m | ValueError m | TypeError m | OverflowError m
  | InvalidXmlError m => m
  end.

Inductive outcome (A : Type) :=
| Return (a : A)
| Raise (e : exn).
Arguments Return {A} a.
Arguments Raise {A} e.

(** Sequencing: an exception raised by [m] skips [k]. *)
Definition bind {A B} (m : outcome A) (k : A -> outcome B) : outcome B :=
  match m with
  | Return a => k a
  | Raise e => Raise e
  end.

Notation "'let*' x ':=' m 'in' k" := (bind m (fun x => k))
  (at level 10, x pattern, m at level 100, k at level 200).

Definition is_raise {A} (m : outcome A) : Prop :=
  match m with Raise _ => True | Return _ => False end.

(** A float: not a number, an infinity, or the number [m * 2 ^ e]. *)
Inductive float :=
| NaN
| Infinity (negative : bool)
| Finite (m e : Z).

(** What [json.load] yields and [dict.get] hands back for a field of an
    instruction: [PNone] when the key is missing (or JSON null), a boolean,
    an int, a float, a string, an array or an object.  A float comes with
    the text [str] prints for it, an array and an object are kept as that
    text only: of these three nothing else is looked at. *)
Inductive value :=
| PNone
| PBool (b : bool)
| PInt (z : Z)
| PFloat (x : float) (shown : string)
| PStr (s : string)
| PList (shown : string)
| PDict (shown : string).

Definition type_name (v : value) : string :=
  match v with
  | PNone => "NoneType"
  | PBool _ => "bool"
  | PInt _ => "int"
  | PFloat _ _ => "float"
  | PStr _ => "str"
  | PList _ => "list"
  | PDict _ => "dict"
  end.

(** [f"{v}"] *)
Definition str (v : value) : string :=
  match v with
  | PNone => "None"
  | PBool b => if b then "True" else "False"
  | PInt z => pretty z
  | PFloat _ shown => shown
  | PStr s => s
  | PList shown | PDict shown => shown
  end.

(** An int, or a bool, which is the int 0 or 1. *)
Definition as_int (v : value) : option Z :=
  match v with
  | PInt z => Some z
  | PBool b => Some (Z.b2z b)
  | _ => None
  end.

(** A float against an int: Python compares the two numbers exactly, and
    every comparison with NaN is false. *)
Definition float_compare (x : float) (n : Z) : option comparison :=
  match x with
  | NaN => None
  | Infinity negative => Some (if negative then Lt else Gt)
  | Finite m e =>
      Some (if (0 <=? e)%Z then (m * 2 ^ e ?= n)%Z
            else (m ?= n * 2 ^ (- e))%Z)
  end.

Definition float_lt (x : float) (n : Z) : bool :=
  match float_compare x n with Some Lt => true | _ => false end.
Definition float_gt (x : float) (n : Z) : bool :=
  match float_compare x n with Some Gt => true | _ => false end.
Definition float_ge (x : float) (n : Z) : bool :=
  match float_compare x n with Some Gt | Some Eq => true | _ => false end.

Definition not_supported (op : string) (v : value) : exn :=
  TypeError ("'" +:+ op +:+ "' not supported between instances of '"
             +:+ type_name v +:+ "' and 'int'").

(** [v < n], [v > n], [v >= n] against an int: defined on the three kinds
    of number. *)
Definition lt (v : value) (n : Z) : outcome bool :=
  match v with
  | PInt z => Return (z <? n)%Z
  | PBool b => Return (Z.b2z b <? n)%Z
  | PFloat x _ => Return (float_lt x n)
  | _ => Raise (not_supported "<" v)
  end.
Definition gt (v : value) (n : Z) : outcome bool :=
  match v with
  | PInt z => Return (z >? n)%Z
  | PBool b => Return (Z.b2z b >? n)%Z
  | PFloat x _ => Return (float_gt x n)
  | _ => Raise (not_supported ">" v)
  end.
Definition ge (v : value) (n : Z) : outcome bool :=
  match v with
  | PInt z => Return (z >=? n)%Z
  | PBool b => Return (Z.b2z b >=? n)%Z
  | PFloat x _ => Return (float_ge x n)
  | _ => Raise (not_supported ">=" v)
  end.

(** [a or b] on comparisons: [b] is evaluated only when [a] is false. *)
Definition or_else (a : outcome bool) (b : outcome bool) : outcome bool :=
  let* x := a in if x then Return true else b.

(** What is handed to [list.__getitem__]: an int, or a float, of which
    only the type matters there. *)
Inductive index :=
| IntIndex (z : Z)
| FloatIndex.

(** [v] used as it is as the index of a list. *)
Definition as_index (v : value) : outcome index :=
  match v with
  | PInt z => Return (IntIndex z)
  | PBool b => Return (IntIndex (Z.b2z b))
  | PFloat _ _ => Return FloatIndex
  | _ => Raise (TypeError ("list indices must be integers or slices, not "
                           +:+ type_name v))
  end.

(** [v - 1] *)
Definition pred (v : value) : outcome index :=
  match v with
  | PInt z => Return (IntIndex (z - 1))
  | PBool b => Return (IntIndex (Z.b2z b - 1))
  | PFloat _ _ => Return FloatIndex
  | _ => Raise (TypeError ("unsupported operand type(s) for -: '"
                           +:+ type_name v +:+ "' and 'int'"))
  end.

(** [l[i]] on a list, negative [i] counting from the end: the position
    found and the item.  [msg] is the text of the [IndexError]. *)
Definition getitem {A} (l : list A) (i : index) (msg : string)
  : outcome (nat * A) :=
  match i with
  | FloatIndex =>
      Raise (TypeError "list indices must be integers or slices, not float")
  | IntIndex i =>
      let j := if (i <? 0)%Z then (Z.of_nat (length l) + i)%Z else i in
      if (j <? 0)%Z then Raise (IndexError msg)
      else match l !! Z.to_nat j with
           | Some x => Return (Z.to_nat j, x)
           | None => Raise (IndexError msg)
           end
  end.

(** ["%d" % v]: a float is truncated towards zero. *)
Definition percent_d (v : value) : outcome string :=
  match v with
  | PInt z => Return (pretty z)
  | PBool b => Return (pretty (Z.b2z b))
  | PFloat (Finite m e) _ =>
      Return (pretty (if (0 <=? e)%Z then (m * 2 ^ e)%Z
                      else Z.quot m (2 ^ (- e))))
  | PFloat (Infinity _) _ =>
      Raise (OverflowError "cannot convert float infinity to integer")
  | PFloat NaN _ =>
      Raise (ValueError "cannot convert float NaN to integer")
  | _ => Raise (TypeError ("%d format: a real number is required, not "
                           +:+ type_name v))
  end.

(** [len(s)] *)
Definition len (s : string) : Z := Z.of_nat (String.length s).

Definition newline : ascii := "010"%char.

(** ['\n' in s] *)
Fixpoint contains (c : ascii) (s : string) : bool :=
  match s with
  | EmptyString => false
  | String d s' => if Ascii.eqb d c then true else contains c s'
  end.

(** [s.split(c)] for a one-character separator: never the empty list. *)
Fixpoint split (c : ascii) (s : string) : list string :=
  match s with
  | EmptyString => [EmptyString]
  | String d s' =>
      if Ascii.eqb d c then EmptyString :: split c s'
      else match split c s' with
           | [] => [String d EmptyString]
           | l :: ls => String d l :: ls
           end
  end.

(** [sep.join(l)] *)
Fixpoint join (sep : string) (l : list string) : string :=
  match l with
  | [] => EmptyString
  | [x] => x
  | x :: xs => x +:+ sep +:+ join sep xs
  end.

End Py.

Import Py.

(** ** The document model the script works on (python-pptx)

    python-pptx is a dependency of the script, not part of the repository:
    this module states the behaviour of the library the script relies on.
    Only what the three functions read or write is kept: the text of a run,
    the six font properties, the content, the outline level and the default
    font of a paragraph, the paragraphs of a text frame, the cells of a
    table, and the three kinds of shape the dispatcher tells apart.  The
    documents are those that hold the attributes their schema requires; the
    one element without its required attribute that appears is a scheme
    colour without value, which the script itself can leave behind. *)

Module Pptx.

(** *** The text of a run

    [run.text = t] does not store [t] as it is: every control character
    other than tab and line feed (the code points 0 to 8 and 11 to 31) is
    stored as the seven characters ["_x%04X_" % ord(c)]. *)
Definition is_escaped (c : ascii) : bool :=
  let n := nat_of_ascii c in
  (n <=? 8)%nat || ((11 <=? n)%nat && (n <=? 31)%nat).

Definition hex_digit (n : nat) : ascii :=
  match n with
  | 0 => "0" | 1 => "1" | 2 => "2" | 3 => "3" | 4 => "4" | 5 => "5"
  | 6 => "6" | 7 => "7" | 8 => "8" | 9 => "9" | 10 => "A" | 11 => "B"
  | 12 => "C" | 13 => "D" | 14 => "E" | _ => "F"
  end%char.

Definition escape_char (c : ascii) : string :=
  if is_escaped c
  then "_x00" +:+ String (hex_digit (nat_of_ascii c / 16))
                     (String (hex_digit (nat_of_ascii c mod 16)) "_")
  else String c EmptyString.

Fixpoint escape_ctrl_chars (s : string) : string :=
  match s with
  | EmptyString => EmptyString
  | String c s' => escape_char c +:+ escape_ctrl_chars s'
  end.

(** Whether a string holds a character that is escaped. *)
Fixpoint has_ctrl_chars (s : string) : bool :=
  match s with
  | EmptyString => false
  | String c s' => is_escaped c || has_ctrl_chars s'
  end.

(** *** Colours

    [font.color].  [ColorNone] is a colour whose [type] is [None] (nothing
    set, or a solid fill without a colour).  [ColorRGB] is an explicit RGB
    value, [ColorTheme] a scheme colour with the index of its theme colour
    (never 0, which is [NOT_THEME_COLOR] and has no XML value),
    [ColorSchemeEmpty] a scheme colour element without value.  The four
    others are the HSL, preset, scRGB and system colours. *)
Inductive ColorFormat :=
| ColorNone
| ColorRGB (rgb : Z)
| ColorTheme (idx : Z)
| ColorSchemeEmpty
| ColorHSL
| ColorPreset
| ColorScRGB
| ColorSystem.

(** [color.type is not None] *)
Definition color_type_defined (c : ColorFormat) : bool :=
  match c with ColorNone => false | _ => true end.

(** [hasattr(c, 'rgb') and c.rgb]: the RGB value when the colour is an
    explicit RGB colour; reading [rgb] on any other kind raises
    AttributeError, which [hasattr] turns into [False]. *)
Definition rgb_of (c : ColorFormat) : option Z :=
  match c with ColorRGB v => Some v | _ => None end.

(** What [hasattr(c, 'theme_color')] and then [c.theme_color] meet. *)
Inductive attribute (A : Type) :=
| AttributeValue (a : A)
| AttributeMissing
| AttributeRaises (e : exn).
Arguments AttributeValue {A} a.
Arguments AttributeMissing {A}.
Arguments AttributeRaises {A} e.

(** [c.theme_color]: the index of a scheme colour; on a scheme colour
    without value the read raises [InvalidXmlError], which [hasattr] does
    not catch; on a colour without type it raises [AttributeError]; on every
    other kind it is 0 ([NOT_THEME_COLOR]). *)
Definition theme_color_of (c : ColorFormat) : attribute Z :=
  match c with
  | ColorTheme i => AttributeValue i
  | ColorSchemeEmpty =>
      AttributeRaises
        (InvalidXmlError "required 'val' attribute not present on element a:schemeClr")
  | ColorNone => AttributeMissing
  | _ => AttributeValue 0%Z
  end.

(** [font.underline]: [True], [False] or a member of the underline enum. *)
Inductive Underline :=
| UTrue
| UFalse
| UStyle (k : Z).

Record Font := {
  size : option Z;
  name : option string;
  bold : option bool;
  italic : option bool;
  underline : option Underline;
  color : ColorFormat
}.

(** The font of a run or paragraph on which nothing is set. *)
Definition empty_font : Font :=
  {| size := None; name := None; bold := None; italic := None;
     underline := None; color := ColorNone |}.

Definition with_color (c : ColorFormat) (f : Font) : Font :=
  {| size := size f; name := name f; bold := bold f; italic := italic f;
     underline := underline f; color := c |}.

(** What the script assigns to [color.rgb]: an [RGBColor], or (line 103
    and line 256) the colour object itself. *)
Inductive rgb_argument :=
| AnRGBColor (v : Z)
| AColorFormat (c : ColorFormat).

(** [font.color.rgb = x].  Reading [font.color] first turns the fill of
    a font without solid fill into a solid fill with no colour; the setter
    then refuses anything that is not an [RGBColor]. *)
Definition set_rgb (x : rgb_argument) (f : Font) : Font * outcome unit :=
  match x with
  | AnRGBColor v => (with_color (ColorRGB v) f, Return tt)
  | AColorFormat _ =>
      (f, Raise (ValueError "assigned value must be type RGBColor"))
  end.

(** [font.color.theme_color = i].  The colour is switched to a scheme
    colour before the index is written; index 0 has no XML value, so
    writing it raises and leaves a scheme colour without value behind. *)
Definition set_theme_color (i : Z) (f : Font) : Font * outcome unit :=
  if (i =? 0)%Z
  then (with_color ColorSchemeEmpty f,
        Raise (ValueError "NOT_THEME_COLOR has no XML representation"))
  else (with_color (ColorTheme i) f, Return tt).

(** *** Runs, paragraphs, text frames *)

Record Run := { run_text : string; run_font : Font }.

(** What a paragraph holds, in order: runs, line breaks and fields. *)
Inductive Inline :=
| RunElement (r : Run)
| LineBreak
| Field (text : string).

Record Paragraph := {
  para_content : list Inline;
  para_level : nat;
  para_font : Font
}.

Record TextFrame := { paragraphs : list Paragraph }.

(** [paragraph.runs]: the runs among the content, in order. *)
Definition run_of (x : Inline) : option Run :=
  match x with RunElement r => Some r | _ => None end.

Definition para_runs (p : Paragraph) : list Run :=
  omap run_of (para_content p).

Definition vertical_tab : ascii := "011"%char.

(** The text of a run or field; a line break reads as a vertical tab. *)
Definition inline_text (x : Inline) : string :=
  match x with
  | RunElement r => run_text r
  | LineBreak => String vertical_tab EmptyString
  | Field text => text
  end.

(** [paragraph.text] and [text_frame.text] *)
Definition paragraph_text (p : Paragraph) : string :=
  Py.join "" (map inline_text (para_content p)).

Definition text_frame_text (tf : TextFrame) : string :=
  Py.join (String Py.newline EmptyString) (map paragraph_text (paragraphs tf)).

(** [paragraph.clear()] followed by [paragraph.add_run()] and the
    assignments to the new run: the paragraph keeps its properties and
    holds exactly that run. *)
Definition with_single_run (r : Run) (p : Paragraph) : Paragraph :=
  {| para_content := [RunElement r]; para_level := para_level p;
     para_font := para_font p |}.

(** [text_frame.add_paragraph()]: a paragraph with nothing set. *)
Definition fresh_paragraph : Paragraph :=
  {| para_content := []; para_level := 0; para_font := empty_font |}.

(** *** Tables and shapes *)

(** A table is its rows, a row its cells, a cell its text frame. *)
Abbreviation Table := (list (list TextFrame)).

(** [table.rows[row]] and [row.cells[col]]: both collections reject an
    index below 0 or beyond the end with an [IndexError] whose text is
    built with ["%d" % idx], and hand any other index to a list. *)
Definition collection_index (what : string) (n : nat) (idx : value)
  : outcome index :=
  let* outside := Py.or_else (Py.lt idx 0) (Py.ge idx (Z.of_nat n)) in
  if outside
  then let* shown := Py.percent_d idx in
       Raise (IndexError (what +:+ " index [" +:+ shown +:+ "] out of range"))
  else Py.as_index idx.

Definition collection_getitem {A} (what : string) (l : list A) (idx : value)
  : outcome (nat * A) :=
  let* i := collection_index what (length l) idx in
  Py.getitem l i "list index out of range".

(** The closed set of shapes the dispatcher distinguishes: a shape with a
    text frame, a graphic frame holding a table, anything else.  These are
    the shapes for which [shape.shape_type] has an answer.  On a shape
    element that python-pptx cannot type the read raises
    [NotImplementedError]; [apply_updates] reads [shape_type] only for an
    instruction with [table_cells] (line 305), [analyze_shape] for every
    shape (line 100), and the exception ends the run.  Such a shape is not
    in this type. *)
Inductive Shape :=
| TextShape (text_frame : TextFrame)
| TableShape (table : Table)
| OtherShape.

Abbreviation Slide := (list Shape).
Abbreviation Presentation := (list (list Shape)).

End Pptx.

Import Pptx.

(** ** Formatting snapshot (lines 50-83 and 139-172, the same text twice) *)

Record Snapshot := {
  original_font_size : option Z;
  original_font_name : option string;
  original_font_bold : option bool;
  original_font_italic : option bool;
  original_font_underline : option Underline;
  original_font_color : option ColorFormat
}.

Definition no_formatting : Snapshot :=
  {| original_font_size := None; original_font_name := None;
     original_font_bold := None; original_font_italic := None;
     original_font_underline := None; original_font_color := None |}.

(** [if first_para.runs: ...]: the six variables after the first run has
    been looked at. *)
Definition from_first_run (first_para : Paragraph) : Snapshot :=
  match para_runs first_para with
  | [] => no_formatting
  | first_run :: _ =>
      let font := run_font first_run in
      {| original_font_size := size font;
         original_font_name := name font;
         original_font_bold := bold font;
         original_font_italic := italic font;
         original_font_underline := underline font;
         original_font_color :=
           if color_type_defined (color font) then Some (color font) else None |}
  end.

(** [if x is None: x = y] *)
Definition if_none {A} (x y : option A) : option A :=
  match x with None => y | Some _ => x end.

Definition capture_formatting (text_frame : TextFrame) : Snapshot :=
  match paragraphs text_frame with
  | [] => no_formatting
  | first_para :: _ =>
      let s := from_first_run first_para in
      let pfont := para_font first_para in
      {| original_font_size := if_none (original_font_size s) (size pfont);
         original_font_name := if_none (original_font_name s) (name pfont);
         original_font_bold := if_none (original_font_bold s) (bold pfont);
         original_font_italic := if_none (original_font_italic s) (italic pfont);
         original_font_underline :=
           if_none (original_font_underline s) (underline pfont);
         original_font_color := original_font_color s |}
  end.

(** The snapshot as section 4.1 of the specification words it: every one of
    the six fields, colour included, falls back from the first run to the
    first paragraph's font. *)
Definition spec_snapshot (text_frame : TextFrame) : Snapshot :=
  match paragraphs text_frame with
  | [] => no_formatting
  | first_para :: _ =>
      let s := from_first_run first_para in
      let pfont := para_font first_para in
      {| original_font_size := if_none (original_font_size s) (size pfont);
         original_font_name := if_none (original_font_name s) (name pfont);
         original_font_bold := if_none (original_font_bold s) (bold pfont);
         original_font_italic := if_none (original_font_italic s) (italic pfont);
         original_font_underline :=
           if_none (original_font_underline s) (underline pfont);
         original_font_color :=
           if_none (original_font_color s)
                   (if color_type_defined (color pfont)
                    then Some (color pfont) else None) |}
  end.

(** ** Paragraph reconstruction *)

(** The five assignments under "Apply original formatting".  Size and name
    are tested for truth (a size of 0 and an empty name are skipped), the
    three flags for [is not None]. *)
Definition apply_original_formatting (s : Snapshot) (f : Font) : Font :=
  {| size := match original_font_size s with
             | Some z => if (z =? 0)%Z then size f else Some z
             | None => size f
             end;
     name := match original_font_name s with
             | Some n => if String.eqb n "" then name f else Some n
             | None => name f
             end;
     bold := if_none (original_font_bold s) (bold f);
     italic := if_none (original_font_italic s) (italic f);
     underline := if_none (original_font_underline s) (underline f);
     color := color f |}.

(** [run = p.add_run(); run.text = t] and the five assignments: the text
    is stored escaped. *)
Definition new_run (s : Snapshot) (t : string) : Run :=
  {| run_text := escape_ctrl_chars t;
     run_font := apply_original_formatting s empty_font |}.

(** The body of the [try] of lines 203-206 and 231-234. *)
Definition copy_color (original_font_color : ColorFormat) (f : Font)
  : Font * outcome unit :=
  match rgb_of original_font_color with
  | Some v => set_rgb (AnRGBColor v) f
  | None =>
      match theme_color_of original_font_color with
      | AttributeValue i => set_theme_color i f
      | AttributeMissing => (f, Return tt)
      | AttributeRaises e => (f, Raise e)
      end
  end.

(** [try: ... except: pass]: whatever the body raised is dropped; what it
    had already written stays. *)
Definition try_copy_color (original_font_color : option ColorFormat) (r : Run)
  : Run :=
  match original_font_color with
  | None => r
  | Some c =>
      {| run_text := run_text r; run_font := fst (copy_color c (run_font r)) |}
  end.

(** [if original_font_color is not None: run.font.color.rgb =
    original_font_color] (lines 102-103 and 255-256): no [try] around it. *)
Definition assign_color (original_font_color : option ColorFormat) (r : Run)
  : Run * outcome unit :=
  match original_font_color with
  | None => (r, Return tt)
  | Some c =>
      let '(f, o) := set_rgb (AColorFormat c) (run_font r) in
      ({| run_text := run_text r; run_font := f |}, o)
  end.

(** Lines 174-236: the branch taken when [preserve_bullets] holds and
    [new_text] has a line break. *)
Definition bullet_mode (s : Snapshot) (lines : list string) (text_frame : TextFrame)
  : TextFrame * outcome unit :=
  (* while len(text_frame.paragraphs) > 1: remove the last one *)
  let kept := take 1 (paragraphs text_frame) in
  match lines with
  | [] => ({| paragraphs := kept |}, Return tt)
  | line0 :: more =>
      match kept with
      | [] => ({| paragraphs := kept |}, Raise (IndexError "tuple index out of range"))
      | first_para :: _ =>
          let first_para :=
            with_single_run (try_copy_color (original_font_color s) (new_run s line0))
                            first_para in
          let added :=
            map (fun line =>
                   {| para_content :=
                        [RunElement (try_copy_color (original_font_color s)
                                                    (new_run s line))];
                      para_level := para_level first_para;
                      para_font := para_font fresh_paragraph |})
                more in
          ({| paragraphs := first_para :: added |}, Return tt)
      end
  end.

(** Lines 238-256: simple replacement, first paragraph only. *)
Definition single_paragraph_mode (s : Snapshot) (new_text : string)
  (text_frame : TextFrame) : TextFrame * outcome unit :=
  match paragraphs text_frame with
  | [] => (text_frame, Raise (IndexError "tuple index out of range"))
  | first_para :: others =>
      let '(run, o) := assign_color (original_font_color s) (new_run s new_text) in
      ({| paragraphs := with_single_run run first_para :: others |}, o)
  end.

(** ** [update_shape_text] (lines 111-260) *)

(** The dict returned by [update_shape_text]; a key that is not in the dict
    is [None] here. *)
Record UpdateResult := {
  success : bool;
  error : option string;
  result_warnings : list string;
  new_length : option Z;
  original_length : option Z
}.

(** [len(new_text) > original_length * 1.5], as a comparison of integers:
    the product is exact in floating point for any length a string can
    have, and Python compares an int with a float by value. *)
Definition overflows (new_len original_len : Z) : bool :=
  (2 * new_len >? 3 * original_len)%Z.

Definition overflow_warning (new_len original_len : Z) : string :=
  "New text (" +:+ pretty new_len
  +:+ " chars) is significantly longer than original ("
  +:+ pretty original_len +:+ " chars). May overflow shape.".

Definition update_shape_text (shape : Shape) (new_text : string)
  (preserve_bullets warn_on_overflow : bool) : Shape * outcome UpdateResult :=
  match shape with
  | TextShape text_frame =>
      let original_len := Py.len (text_frame_text text_frame) in
      let warnings :=
        if warn_on_overflow && overflows (Py.len new_text) original_len
        then [overflow_warning (Py.len new_text) original_len] else [] in
      let s := capture_formatting text_frame in
      let '(text_frame, o) :=
        if preserve_bullets && Py.contains Py.newline new_text
        then bullet_mode s (Py.split Py.newline new_text) text_frame
        else single_paragraph_mode s new_text text_frame in
      (TextShape text_frame,
       let* _ := o in
       Return {| success := true; error := None; result_warnings := warnings;
                 new_length := Some (Py.len new_text);
                 original_length := Some original_len |})
  | _ =>
      (shape,
       Return {| success := false; error := Some "Shape has no text frame";
                 result_warnings := []; new_length := None;
                 original_length := None |})
  end.

(** ** [update_table_cell] (lines 33-108) *)

Record CellResult := {
  cell_success : bool;
  cell_error : option string;
  cell : string
}.

(** Lines 50-103 on the text frame of the cell: snapshot,
    [text_frame.clear()] (all paragraphs but the first removed, the first
    emptied), one run with the new text. *)
Definition update_cell_text (new_text : string) (text_frame : TextFrame)
  : TextFrame * outcome unit :=
  let s := capture_formatting text_frame in
  match paragraphs text_frame with
  | [] => (text_frame, Raise (IndexError "tuple index out of range"))
  | p :: _ =>
      let '(run, o) := assign_color (original_font_color s) (new_run s new_text) in
      ({| paragraphs := [with_single_run run p] |}, o)
  end.

(** The body of the [try]. *)
Definition update_table_cell_body (table : Table) (row col : value)
  (new_text : string) : Table * outcome unit :=
  match (let* r := collection_getitem "row" table row in
         let* c := collection_getitem "cell" (snd r) col in
         Return (r, c)) with
  | Raise e => (table, Raise e)
  | Return ((i, cells), (j, text_frame)) =>
      let '(text_frame, o) := update_cell_text new_text text_frame in
      (<[i := <[j := text_frame]> cells]> table, o)
  end.

Definition cell_descriptor (row col : value) : string :=
  "(" +:+ Py.str row +:+ "," +:+ Py.str col +:+ ")".

Definition update_table_cell (table : Table) (row col : value)
  (new_text : string) : Table * CellResult :=
  match update_table_cell_body table row col new_text with
  | (table, Return _) =>
      (table, {| cell_success := true; cell_error := None;
                 cell := cell_descriptor row col |})
  | (table, Raise e) =>
      (table, {| cell_success := false; cell_error := Some (Py.str_of_exn e);
                 cell := cell_descriptor row col |})
  end.

(** ** [apply_updates] (lines 263-346) *)

(** One entry of ["table_cells"], a JSON object, after the [.get] calls of
    lines 309-311; its text is a string. *)
Record CellUpdate := {
  cu_row : value;
  cu_column : value;
  cu_text : string
}.

(** One entry of ["updates"], a JSON object, after the [.get] calls of
    lines 279-283 (defaults: text [""], preserve_bullets [True], table_cells
    [[]]); its text is a string, [preserve_bullets] a boolean and
    [table_cells] an array. *)
Record UpdateInstruction := {
  upd_slide : value;
  upd_shape : value;
  upd_text : string;
  upd_preserve_bullets : bool;
  upd_table_cells : list CellUpdate
}.

Record Results := {
  updates_applied : nat;
  errors : list string;
  warnings : list string
}.

Definition no_results : Results :=
  {| updates_applied := 0; errors := []; warnings := [] |}.

Definition applied_one (r : Results) : Results :=
  {| updates_applied := S (updates_applied r); errors := errors r;
     warnings := warnings r |}.

Definition add_error (msg : string) (r : Results) : Results :=
  {| updates_applied := updates_applied r; errors := errors r ++ [msg];
     warnings := warnings r |}.

Definition add_warnings (msgs : list string) (r : Results) : Results :=
  {| updates_applied := updates_applied r; errors := errors r;
     warnings := warnings r ++ msgs |}.

(** [f"{x}"] for the value of [dict.get('error')] *)
Definition str_of_optional (x : option string) : string :=
  match x with Some s => s | None => "None" end.

Definition slide_shape_prefix (slide_num shape_idx : value) : string :=
  "Slide " +:+ Py.str slide_num +:+ ", Shape " +:+ Py.str shape_idx.

Definition invalid_slide_message (slide_num : value) (slides : nat) : string :=
  "Invalid slide number: " +:+ Py.str slide_num +:+ ". Template has "
  +:+ pretty slides +:+ " slides.".

Definition invalid_shape_message (shape_idx slide_num : value) (shapes : nat)
  : string :=
  "Invalid shape index: " +:+ Py.str shape_idx +:+ " on slide "
  +:+ Py.str slide_num +:+ ". Slide has " +:+ pretty shapes +:+ " shapes.".

Definition cell_error_message (slide_num shape_idx : value) (c : CellResult)
  : string :=
  slide_shape_prefix slide_num shape_idx +:+ ", Cell " +:+ cell c +:+ ": "
  +:+ str_of_optional (cell_error c).

(** Lines 308-320: the loop over [table_cells]. *)
Fixpoint update_cells (slide_num shape_idx : value) (table_cells : list CellUpdate)
  (table : Table) (results : Results) : Table * Results :=
  match table_cells with
  | [] => (table, results)
  | cell_update :: more =>
      let '(table, cell_result) :=
        update_table_cell table (cu_row cell_update) (cu_column cell_update)
                          (cu_text cell_update) in
      update_cells slide_num shape_idx more table
        (if cell_success cell_result then applied_one results
         else add_error (cell_error_message slide_num shape_idx cell_result)
                        results)
  end.

(** [v < 1 or v > n] *)
Definition out_of_range (v : value) (n : nat) : outcome bool :=
  Py.or_else (Py.lt v 1) (Py.gt v (Z.of_nat n)).

(** Lines 330-340: merging the result of [update_shape_text]. *)
Definition merge_result (slide_num shape_idx : value) (update_result : UpdateResult)
  (results : Results) : Results :=
  if success update_result
  then add_warnings
         (map (fun warning =>
                 slide_shape_prefix slide_num shape_idx +:+ ": " +:+ warning)
              (result_warnings update_result))
         (applied_one results)
  else add_error (slide_shape_prefix slide_num shape_idx +:+ ": "
                  +:+ str_of_optional (error update_result))
                 results.

(** Lines 304-340: the table branch or the text branch, on the resolved
    shape. *)
Definition dispatch (update : UpdateInstruction) (shape : Shape)
  (results : Results) : outcome (Shape * Results) :=
  let slide_num := upd_slide update in
  let shape_idx := upd_shape update in
  match upd_table_cells update, shape with
  | _ :: _, TableShape table =>
      let '(table, results) :=
        update_cells slide_num shape_idx (upd_table_cells update) table results in
      Return (TableShape table, results)
  | _, _ =>
      let '(shape, o) :=
        update_shape_text shape (upd_text update)
                          (upd_preserve_bullets update) true in
      let* update_result := o in
      Return (shape, merge_result slide_num shape_idx update_result results)
  end.

(** Lines 279-340: the body of the loop, on the presentation and the
    results so far.  The shape is mutated in place, that is, written back
    where it was found. *)
Definition apply_update (update : UpdateInstruction)
  (st : Presentation * Results) : outcome (Presentation * Results) :=
  let '(prs, results) := st in
  let slide_num := upd_slide update in
  let shape_idx := upd_shape update in
  let* bad_slide := out_of_range slide_num (length prs) in
  if bad_slide
  then Return (prs, add_error (invalid_slide_message slide_num (length prs)) results)
  else
    let* i := Py.pred slide_num in
    let* found := Py.getitem prs i "slide index out of range" in
    let slide := snd found in
    let* bad_shape := out_of_range shape_idx (length slide) in
    if bad_shape
    then Return (prs, add_error (invalid_shape_message shape_idx slide_num
                                                      (length slide)) results)
    else
      let* j := Py.pred shape_idx in
      let* found' := Py.getitem slide j "shape index out of range" in
      let* updated := dispatch update (snd found') results in
      Return (<[fst found := <[fst found' := fst updated]> slide]> prs,
              snd updated).

(** The [for] loop: an exception leaves it at once. *)
Fixpoint apply_all (updates : list UpdateInstruction)
  (st : Presentation * Results) : outcome (Presentation * Results) :=
  match updates with
  | [] => Return st
  | update :: more => let* st := apply_update update st in apply_all more st
  end.

(** [apply_updates]: the presentation that is saved and the report, or the
    exception that reaches [main] (nothing is saved then). *)
Definition apply_updates (prs : Presentation) (updates : list UpdateInstruction)
  : outcome (Presentation * Results) :=
  apply_all updates (prs, no_results).

(** ** Reading the document back ([extract_template_structure.py], lines 51-59) *)

Definition extract_text_from_shape (shape : Shape) : string :=
  match shape with
  | TextShape text_frame => text_frame_text text_frame
  | _ => EmptyString
  end.

(** The text of every shape of every slide. *)
Definition extracted_text (prs : Presentation) : list (list string) :=
  fmap (M:=list) (fmap (M:=list) extract_text_from_shape) prs.

(** ** Vocabulary of the statements *)

(** The 0-based position a 1-based index designates among [n] items: the
    index is an int (or a bool, which is 0 or 1) within [1, n]. *)
Definition position (n : nat) (v : value) : option nat :=
  match Py.as_int v with
  | Some z =>
      if ((1 <=? z) && (z <=? Z.of_nat n))%Z then Some (Z.to_nat (z - 1))
      else None
  | None => None
  end.

(** The item a 1-based index designates. *)
Definition index_in_range {A} (l : list A) (v : value) : option A :=
  match position (length l) v with
  | Some i => l !! i
  | None => None
  end.

Definition is_int (v : value) : bool :=
  match v with PInt _ => true | _ => false end.

(** What no update changes: how many slides, how many shapes on each, and
    of which kind each shape is. *)
Inductive ShapeKind := KText | KTable | KOther.

Definition kind_of (shape : Shape) : ShapeKind :=
  match shape with
  | TextShape _ => KText
  | TableShape _ => KTable
  | OtherShape => KOther
  end.

Definition skeleton (prs : Presentation) : list (list ShapeKind) :=
  fmap (M:=list) (fmap (M:=list) kind_of) prs.

(** What an instruction resolves to, in a presentation or in its skeleton. *)
Definition target {A} (prs : list (list A)) (u : UpdateInstruction) : option A :=
  match index_in_range prs (upd_slide u) with
  | Some slide => index_in_range slide (upd_shape u)
  | None => None
  end.

(** An int slide index outside [1, slide_count], or an int shape index
    outside [1, shape_count] on a resolved slide. *)
Definition invalid_index {A} (prs : list (list A)) (u : UpdateInstruction)
  : bool :=
  is_int (upd_slide u) &&
  match index_in_range prs (upd_slide u) with
  | None => true
  | Some slide =>
      is_int (upd_shape u) &&
      match index_in_range slide (upd_shape u) with
      | None => true
      | Some _ => false
      end
  end.

Definition invalid_index_message {A} (prs : list (list A))
  (u : UpdateInstruction) : string :=
  match index_in_range prs (upd_slide u) with
  | None => invalid_slide_message (upd_slide u) (length prs)
  | Some slide => invalid_shape_message (upd_shape u) (upd_slide u) (length slide)
  end.

(** A number of any kind (int, bool, float) outside [1, n]. *)
Definition outside_range (n : nat) (v : value) : bool :=
  match v with
  | PInt z => negb ((1 <=? z) && (z <=? Z.of_nat n))%Z
  | PBool b => negb ((1 <=? Z.b2z b) && (Z.b2z b <=? Z.of_nat n))%Z
  | PFloat x _ => Py.float_lt x 1 || Py.float_gt x (Z.of_nat n)
  | _ => false
  end.

(** A slide field that is a number outside [1, slide_count], or a shape
    field that is a number outside [1, shape_count] on a resolved slide. *)
Definition rejected {A} (prs : list (list A)) (u : UpdateInstruction) : bool :=
  outside_range (length prs) (upd_slide u) ||
  match index_in_range prs (upd_slide u) with
  | Some slide => outside_range (length slide) (upd_shape u)
  | None => false
  end.

(** A field that cannot serve as an index among [n] items and is not
    turned down by the range test either: a value that is no number (the
    key is missing, null, a string, an array, an object), or a float that
    is not outside [1, n] (NaN included). *)
Definition not_an_index (n : nat) (v : value) : bool :=
  match v with
  | PNone | PStr _ | PList _ | PDict _ => true
  | PFloat x _ => negb (Py.float_lt x 1 || Py.float_gt x (Z.of_nat n))
  | PInt _ | PBool _ => false
  end.

(** A slide field that is not an index, or a shape field that is not an
    index on a resolved slide. *)
Definition malformed {A} (prs : list (list A)) (u : UpdateInstruction) : bool :=
  not_an_index (length prs) (upd_slide u) ||
  match index_in_range prs (upd_slide u) with
  | Some slide => not_an_index (length slide) (upd_shape u)
  | None => false
  end.

(** The instruction resolves to a shape without text frame and is not
    routed to the table branch: a shape that is neither text nor table, or
    a table when the instruction has no [table_cells]. *)
Definition targets_no_text_frame (prs : Presentation) (u : UpdateInstruction)
  : bool :=
  match target (skeleton prs) u with
  | Some KOther => true
  | Some KTable =>
      match upd_table_cells u with [] => true | _ :: _ => false end
  | _ => false
  end.

Definition no_text_frame_message (u : UpdateInstruction) : string :=
  slide_shape_prefix (upd_slide u) (upd_shape u) +:+ ": Shape has no text frame".

(** The 0-based index is an int (or a bool) within [0, n). *)
Definition zero_based (n : nat) (v : value) : option nat :=
  match Py.as_int v with
  | Some z => if ((0 <=? z) && (z <? Z.of_nat n))%Z then Some (Z.to_nat z) else None
  | None => None
  end.

(** The number of cells of each row. *)
Definition dimensions (table : Table) : list nat :=
  fmap (M:=list) length table.


(** What one instruction or cell adds to the report. *)
Definition combine (r d : Results) : Results :=
  {| updates_applied := updates_applied r + updates_applied d;
     errors := errors r ++ errors d;
     warnings := warnings r ++ warnings d |}.

(** The report with one more entry inserted in its error list. *)
Definition one_more_error (msg : string) (r r' : Results) : Prop :=
  updates_applied r' = updates_applied r /\
  warnings r' = warnings r /\
  exists e1 e2, errors r = (e1 ++ e2)%list /\ errors r' = (e1 ++ msg :: e2)%list.

(** The branch of [update_shape_text] an update takes. *)
Definition bullet_preserving (preserve_bullets : bool) (new_text : string) : bool :=
  preserve_bullets && Py.contains Py.newline new_text.

(** The colour of a font when its type is defined. *)
Definition defined_color (f : Font) : option ColorFormat :=
  if color_type_defined (color f) then Some (color f) else None.

(** Rule of section 4.1, step 3 for one field. *)
Definition run_then_paragraph {A} (from_run from_paragraph captured : option A)
  : Prop :=
  match from_run with
  | Some v => captured = Some v
  | None => captured = from_paragraph
  end.

(** A property of the font of the first run, [None] without runs. *)
Definition of_first_run {A} (get : Font -> option A) (p : Paragraph) : option A :=
  match para_runs p with
  | r :: _ => get (run_font r)
  | [] => None
  end.

(** A paragraph holds one run, with the given text, and nothing else. *)
Definition single_run_with (t : string) (p : Paragraph) : Prop :=
  exists run, para_content p = [RunElement run] /\ run_text run = t.

(** ** Documents used in the examples *)

Module Fixtures.

Definition lf : string := String Py.newline EmptyString.

(** A carriage return, as in a text with Windows line ends. *)
Definition cr : string := String "013"%char EmptyString.

Definition plain_run (t : string) : Run :=
  {| run_text := t; run_font := empty_font |}.

Definition red : ColorFormat := ColorRGB 16711680.

Definition red_run (t : string) : Run :=
  {| run_text := t; run_font := with_color red empty_font |}.

Definition paragraph_of (runs : list Run) (lvl : nat) : Paragraph :=
  {| para_content := map RunElement runs; para_level := lvl;
     para_font := empty_font |}.

(** One paragraph at level 2, ten characters. *)
Definition title_frame : TextFrame :=
  {| paragraphs := [paragraph_of [plain_run "0123456789"] 2] |}.

(** Two paragraphs, the first run coloured with explicit RGB. *)
Definition red_frame : TextFrame :=
  {| paragraphs := [paragraph_of [red_run "Old"] 1;
                    paragraph_of [plain_run "second"] 0] |}.

(** Two paragraphs, no colour. *)
Definition plain_frame : TextFrame :=
  {| paragraphs := [paragraph_of [plain_run "first"] 1;
                    paragraph_of [plain_run "second"] 0] |}.

(** One paragraph whose first run has a preset colour. *)
Definition preset_frame : TextFrame :=
  {| paragraphs :=
       [paragraph_of [{| run_text := "Old";
                         run_font := with_color ColorPreset empty_font |}] 0] |}.

(** One paragraph: two runs with a line break between them. *)
Definition broken_line_frame : TextFrame :=
  {| paragraphs :=
       [{| para_content := [RunElement (plain_run "ab"); LineBreak;
                            RunElement (plain_run "cd")];
           para_level := 0; para_font := empty_font |}] |}.

(** A paragraph without runs whose default font is bold and red. *)
Definition runless_frame : TextFrame :=
  {| paragraphs :=
       [{| para_content := []; para_level := 0;
           para_font := {| size := None; name := None; bold := Some true;
                           italic := None; underline := None;
                           color := red |} |}] |}.

Definition cell_frame (t : string) : TextFrame :=
  {| paragraphs := [paragraph_of [plain_run t] 0] |}.

(** One row, two columns. *)
Definition small_table : Table := [[cell_frame "a"; cell_frame "b"]].

(** One cell whose first run is red. *)
Definition red_table : Table :=
  [[ {| paragraphs := [paragraph_of [red_run "a"] 0] |} ]].


Definition deck : Presentation :=
  [[TextShape title_frame; TableShape small_table; OtherShape];
   [TextShape red_frame]].

Definition text_update (slide_num shape_idx : value) (t : string)
  : UpdateInstruction :=
  {| upd_slide := slide_num; upd_shape := shape_idx; upd_text := t;
     upd_preserve_bullets := true; upd_table_cells := [] |}.

(** The three lines of the example of section 8. *)
Definition abc : string := "A" +:+ lf +:+ "B" +:+ lf +:+ "C".

(** Two lines with a Windows line end between them. *)
Definition a_crlf_b : string := "A" +:+ cr +:+ lf +:+ "B".

Definition cell_update (r c : Z) (t : string) : CellUpdate :=
  {| cu_row := PInt r; cu_column := PInt c; cu_text := t |}.

(** The floats 1.5 and 99.5. *)
Definition one_and_a_half : value := PFloat (Finite 3 (-1)) "1.5".
Definition ninety_nine_and_a_half : value := PFloat (Finite 199 (-1)) "99.5".

End Fixtures.
(** ** [extract_template_structure.py]: the structure report *)

Module Extract.

(** [c.isspace()] for the code points below 256: tab to carriage return,
    the four separators 28-31, space, NEL and the no-break space. *)
Definition isspace (c : ascii) : bool :=
  let n := nat_of_ascii c in
  ((9 <=? n)%nat && (n <=? 13)%nat) || ((28 <=? n)%nat && (n <=? 32)%nat)
  || (n =? 133)%nat || (n =? 160)%nat.

(** [s.lstrip()], [s.rstrip()], [s.strip()] *)
Fixpoint lstrip (s : string) : string :=
  match s with
  | EmptyString => EmptyString
  | String c s' => if isspace c then lstrip s' else s
  end.

Fixpoint rstrip (s : string) : string :=
  match s with
  | EmptyString => EmptyString
  | String c s' =>
      match rstrip s' with
      | EmptyString => if isspace c then EmptyString else String c EmptyString
      | r => String c r
      end
  end.

Definition strip (s : string) : string := rstrip (lstrip s).

(** The truth value of a string: it is not empty. *)
Definition truthy (s : string) : bool :=
  match s with EmptyString => false | String _ _ => true end.

(** Lines 62-70. *)
Record ParagraphInfo := {
  info_paragraphs : nat;
  info_bullets : nat
}.

(** [p.level > 0 or p.text.strip()] *)
Definition counts_as_bullet (p : Paragraph) : bool :=
  (0 <? para_level p)%nat || truthy (strip (paragraph_text p)).

Definition count_paragraphs_and_bullets (shape : Shape) : ParagraphInfo :=
  match shape with
  | TextShape text_frame =>
      {| info_paragraphs := length (paragraphs text_frame);
         info_bullets :=
           length (List.filter counts_as_bullet (paragraphs text_frame)) |}
  | _ => {| info_paragraphs := 0; info_bullets := 0 |}
  end.

(** Lines 73-92.  [len(table.columns)] is the size of the column grid,
    which a table as a list of rows does not hold: it is passed along. *)
Record CellData := {
  cell_row : nat;
  cell_column : nat;
  cell_text : string;
  cell_character_count : Z
}.

Record TableData := {
  table_rows : nat;
  table_columns : nat;
  table_cells : list CellData
}.

(** The inner loop: the cells of one row that have content. *)
Definition row_cells (row_idx : nat) (row : list TextFrame) : list CellData :=
  omap id
    (imap (fun col_idx cell =>
             let cell_text := text_frame_text cell in
             if truthy cell_text
             then Some {| cell_row := row_idx; cell_column := col_idx;
                          cell_text := cell_text;
                          cell_character_count := Py.len cell_text |}
             else None)
          row).

Definition extract_table_data (columns : nat) (table : Table) : TableData :=
  {| table_rows := length table;
     table_columns := columns;
     table_cells := mjoin (imap row_cells table) |}.

(** Lines 32-48: the names of the shape types. *)
Inductive MSO_SHAPE_TYPE :=
| AUTO_SHAPE | CALLOUT | CHART | COMMENT | FREEFORM | GROUP | LINE | MEDIA
| OLE_CONTROL_OBJECT | PICTURE | PLACEHOLDER | TABLE | TEXT_BOX
| UNLISTED_TYPE.

Definition get_shape_type_name (shape_type : MSO_SHAPE_TYPE) : string :=
  match shape_type with
  | AUTO_SHAPE => "AutoShape"
  | CALLOUT => "Callout"
  | CHART => "Chart"
  | COMMENT => "Comment"
  | FREEFORM => "Freeform"
  | GROUP => "Group"
  | LINE => "Line"
  | MEDIA => "Media"
  | OLE_CONTROL_OBJECT => "OLEControl"
  | PICTURE => "Picture"
  | PLACEHOLDER => "Placeholder"
  | TABLE => "Table"
  | TEXT_BOX => "TextBox"
  | UNLISTED_TYPE => "Unknown"
  end.

(** A shape as [analyze_shape] sees it: the shape of the update engine and
    the attributes the report copies.  [view_type] is [shape.shape_type] of
    a shape that holds no table; [view_placeholder] is
    [str(shape.placeholder_format.type)] of a placeholder; [view_columns] is
    [len(shape.table.columns)] of a table.  [view_raises] holds when one of
    the reads of [analyze_shape] raises an exception that the loop of lines
    155-166 catches ([AttributeError], [KeyError], [IndexError],
    [PythonPptxError]).  An exception of another class ends the run before
    there is a report; a presentation with such a shape has no view. *)
Record ShapeView := {
  view_shape : Shape;
  view_raises : bool;
  view_name : string;
  view_type : MSO_SHAPE_TYPE;
  view_left : option Z;
  view_top : option Z;
  view_width : option Z;
  view_height : option Z;
  view_placeholder : option string;
  view_columns : nat
}.

(** [shape.shape_type]: [TABLE] exactly for the shapes that hold a table. *)
Definition shape_type (v : ShapeView) : MSO_SHAPE_TYPE :=
  match view_shape v with
  | TableShape _ => TABLE
  | _ => view_type v
  end.

Record Position := {
  left : option Z;
  top : option Z;
  width : option Z;
  height : option Z
}.

(** The dict built by [analyze_shape]; [table] and [placeholder_type] are
    [None] when the key is not set. *)
Record ShapeData := {
  index : nat;
  name : string;
  shape_type_name : string;
  position : Position;
  text_content : string;
  character_count : Z;
  paragraphs : nat;
  bullets : nat;
  is_table : bool;
  table : option TableData;
  placeholder_type : option string
}.

(** [sum(cell["character_count"] for cell in cells)] *)
Definition total_character_count (cells : list CellData) : Z :=
  foldr (fun c acc => (cell_character_count c + acc)%Z) 0%Z cells.

(** Lines 95-133: the dict, or [None] for an exception that the caller
    catches. *)
Definition analyze_shape (v : ShapeView) (shape_index : nat)
  : option ShapeData :=
  let pos := {| left := view_left v; top := view_top v;
                width := view_width v; height := view_height v |} in
  if view_raises v then None
  else
    match view_shape v with
    | TableShape tbl =>
        let table_data := extract_table_data (view_columns v) tbl in
        Some {| index := shape_index; name := view_name v;
                shape_type_name := get_shape_type_name (shape_type v);
                position := pos;
                text_content := EmptyString;
                character_count :=
                  total_character_count (table_cells table_data);
                paragraphs := 0; bullets := 0;
                is_table := true; table := Some table_data;
                placeholder_type := view_placeholder v |}
    | shape =>
        let text_content := extract_text_from_shape shape in
        let para_info := count_paragraphs_and_bullets shape in
        Some {| index := shape_index; name := view_name v;
                shape_type_name := get_shape_type_name (shape_type v);
                position := pos;
                text_content := text_content;
                character_count := Py.len text_content;
                paragraphs := info_paragraphs para_info;
                bullets := info_bullets para_info;
                is_table := false; table := None;
                placeholder_type := view_placeholder v |}
    end.

(** Line 159: a shape is listed when it has text, or is a table with a cell
    that has content. *)
Definition listed (shape_data : ShapeData) : bool :=
  truthy (text_content shape_data)
  || (is_table shape_data
      && match table shape_data with
         | Some t => match table_cells t with [] => false | _ :: _ => true end
         | None => false
         end).

Record SlideData := {
  slide_number : nat;
  shapes : list ShapeData
}.

(** Lines 155-166: the loop over the shapes of a slide, indices from 1.  A
    shape whose analysis raises is skipped (the warning goes to stderr); it
    keeps its index. *)
Definition slide_shapes (slide : list ShapeView) : list ShapeData :=
  omap id
    (imap (fun k v =>
             match analyze_shape v (S k) with
             | Some shape_data =>
                 if listed shape_data then Some shape_data else None
             | None => None
             end)
          slide).

(** The presentation as the report reads it. *)
Record PresentationView := {
  view_file_name : string;
  view_slide_width : Z;
  view_slide_height : Z;
  view_slides : list (list ShapeView)
}.

Record Structure := {
  file_name : string;
  total_slides : nat;
  slide_width : Z;
  slide_height : Z;
  slides : list SlideData
}.

(** Lines 136-168, after [Presentation(pptx_path)]. *)
Definition extract_template_structure (prs : PresentationView) : Structure :=
  {| file_name := view_file_name prs;
     total_slides := length (view_slides prs);
     slide_width := view_slide_width prs;
     slide_height := view_slide_height prs;
     slides :=
       imap (fun k slide =>
               {| slide_number := S k; shapes := slide_shapes slide |})
            (view_slides prs) |}.

(** The presentation the update engine works on. *)
Definition presentation_of (prs : PresentationView) : Presentation :=
  fmap (M:=list) (fmap (M:=list) view_shape) (view_slides prs).

(** A shape seen with no attribute set. *)
Definition bare_view (shape : Shape) : ShapeView :=
  {| view_shape := shape; view_raises := false; view_name := EmptyString;
     view_type := AUTO_SHAPE;
     view_left := None; view_top := None; view_width := None;
     view_height := None; view_placeholder := None; view_columns := 0 |}.

End Extract.

(** ** [security_utils.py]: validation of the paths given on the command
      line *)

Module Security.

(** [SecurityError] and its two subclasses, and the built-in exceptions
    that occur: [FileNotFoundError], [OSError] (here: every [OSError] that
    is no [FileNotFoundError], [PermissionError] included), [ValueError]
    and [RuntimeError]. *)
Inductive exn :=
| SecurityError (msg : string)
| PathTraversalError (msg : string)
| FileSizeError (msg : string)
| FileNotFoundError (msg : string)
| OSError (msg : string)
| ValueError (msg : string)
| RuntimeError (msg : string).

(** [str(e)] *)
Definition str (e : exn) : string :=
  match e with
  | SecurityError m | PathTraversalError m | FileSizeError m
  | FileNotFoundError m | OSError m | ValueError m | RuntimeError m => m
  end.

(** [isinstance(e, SecurityError)], [isinstance(e, OSError)],
    [isinstance(e, ValueError)], [isinstance(e, RuntimeError)] *)
Definition is_security_error (e : exn) : bool :=
  match e with
  | SecurityError _ | PathTraversalError _ | FileSizeError _ => true
  | _ => false
  end.

Definition is_os_error (e : exn) : bool :=
  match e with FileNotFoundError _ | OSError _ => true | _ => false end.

Definition is_value_error (e : exn) : bool :=
  match e with ValueError _ => true | _ => false end.

Definition is_runtime_error (e : exn) : bool :=
  match e with RuntimeError _ => true | _ => false end.

Inductive result (A : Type) :=
| Ok (a : A)
| Err (e : exn).
Arguments Ok {A} a.
Arguments Err {A} e.

(** What the module asks of [pathlib] and of the file system; a call that
    touches the file system returns or raises.  A path is the string
    [str(path)].
    - [resolve p]: [Path(p).resolve()];
    - [path_exists], [stat_size]: [path.exists()], [path.stat().st_size];
    - [parts p]: [Path(p).parts];
    - [suffix], [lower]: [path.suffix], [str.lower];
    - [relative_to path base]: [path.relative_to(base)], whose result is
      not used;
    - [mkdir_parent path]: [path.parent.mkdir(parents=True, exist_ok=True)]. *)
Record Platform := {
  resolve : string -> result string;
  path_exists : string -> result bool;
  stat_size : string -> result Z;
  parts : string -> list string;
  suffix : string -> string;
  lower : string -> string;
  relative_to : string -> string -> result unit;
  mkdir_parent : string -> result unit
}.

Definition MAX_FILE_SIZE_MB : Z := 100.
Definition MAX_FILE_SIZE_BYTES : Z := MAX_FILE_SIZE_MB * 1024 * 1024.

(** [x in l] on strings *)
Definition member (x : string) (l : list string) : bool :=
  existsb (String.eqb x) l.

(** [num / den] rounded to the nearest integer, a tie to the even one. *)
Definition round_half_even (num den : Z) : Z :=
  let q := (num / den)%Z in
  let r := (num mod den)%Z in
  if (2 * r <? den)%Z then q
  else if (den <? 2 * r)%Z then (q + 1)%Z
  else if Z.even q then q else (q + 1)%Z.

(** The float nearest to a nonnegative int: the int rounded to 53
    significant bits. *)
Definition nearest_float (a : Z) : Z :=
  let bits := (Z.log2 a + 1)%Z in
  if (bits <=? 53)%Z then a
  else let unit := (2 ^ (bits - 53))%Z in (round_half_even a unit * unit)%Z.

Definition two_digits (n : Z) : string :=
  (if (n <? 10)%Z then "0" else "") +:+ pretty n.

(** [f"{n / (1024 * 1024):.2f}"]: the quotient is the nearest float, which
    division by a power of two does not round again, and the format rounds
    it to two decimals. *)
Definition megabytes (n : Z) : string :=
  let cents := round_half_even (nearest_float (Z.abs n) * 100) (1024 * 1024) in
  (if (n <? 0)%Z then "-" else "") +:+ pretty (cents / 100)%Z +:+ "."
  +:+ two_digits (cents mod 100)%Z.

(** Lines 78-86: [if base_dir: ...]; a missing and an empty [base_dir] skip
    the check.  The [except] clause catches [ValueError] and [OSError]
    only. *)
Definition check_base (os : Platform) (path : string)
  (base_dir : option string) : option exn :=
  match base_dir with
  | None | Some EmptyString => None
  | Some b =>
      let outside :=
        PathTraversalError ("Path outside allowed directory. Path: " +:+ path
                            +:+ ", Base: " +:+ b) in
      let caught e := is_value_error e || is_os_error e in
      match resolve os b with
      | Ok base =>
          match relative_to os path base with
          | Ok _ => None
          | Err e => Some (if caught e then outside else e)
          end
      | Err e => Some (if caught e then outside else e)
      end
  end.

(** Lines 35-95.  [allowed_extensions] is the list, [[]] standing for both
    [None] and the empty list. *)
Definition validate_file_path (os : Platform) (file_path : string)
  (must_exist : bool) (allowed_extensions : list string)
  (base_dir : option string) : result string :=
  match resolve os file_path with
  | Err e =>
      if is_os_error e || is_runtime_error e
      then Err (PathTraversalError ("Invalid path: " +:+ str e))
      else Err e
  | Ok path =>
      (* must_exist and not path.exists() *)
      match (if must_exist then path_exists os path else Ok true) with
      | Err e => Err e
      | Ok false => Err (FileNotFoundError ("File not found: " +:+ file_path))
      | Ok true =>
          if member ".." (parts os file_path)
          then Err (PathTraversalError
                      ("Path traversal attempt detected: " +:+ file_path))
          else match check_base os path base_dir with
               | Some e => Err e
               | None =>
                   match allowed_extensions with
                   | [] => Ok path
                   | _ :: _ =>
                       if member (lower os (suffix os path)) allowed_extensions
                       then Ok path
                       else Err (ValueError
                                   ("Invalid file extension: " +:+ suffix os path
                                    +:+ ". Allowed: "
                                    +:+ Py.join ", " allowed_extensions))
                   end
               end
      end
  end.

(** Lines 98-122. *)
Definition check_file_size (os : Platform) (file_path : string)
  (max_size_bytes : Z) : result unit :=
  match path_exists os file_path with
  | Err e => Err e
  | Ok false => Ok tt
  | Ok true =>
      match stat_size os file_path with
      | Err e => Err e
      | Ok file_size =>
          if (file_size >? max_size_bytes)%Z
          then Err (FileSizeError
                      ("File too large: " +:+ megabytes file_size
                       +:+ "MB exceeds limit of " +:+ megabytes max_size_bytes
                       +:+ "MB"))
          else Ok tt
      end
  end.

(** Lines 125-153. *)
Definition validate_input_file (os : Platform) (file_path : string)
  (allowed_extensions : list string) (max_size_bytes : Z) : result string :=
  match validate_file_path os file_path true allowed_extensions None with
  | Err e => Err e
  | Ok path =>
      match check_file_size os path max_size_bytes with
      | Err e => Err e
      | Ok _ => Ok path
      end
  end.

(** Lines 156-185. *)
Definition validate_output_file (os : Platform) (file_path : string)
  (allowed_extensions : list string) : result string :=
  match validate_file_path os file_path false allowed_extensions None with
  | Err e => Err e
  | Ok path =>
      match mkdir_parent os path with
      | Ok _ => Ok path
      | Err e =>
          if is_os_error e
          then Err (SecurityError ("Cannot create output directory: " +:+ str e))
          else Err e
      end
  end.

(** The [except] clauses around the two validators in [main] of
    [extract_template_structure.py] (lines 202-216): what they catch. *)
Definition caught_by_main (e : exn) : bool :=
  match e with
  | PathTraversalError _ | FileSizeError _ | FileNotFoundError _
  | ValueError _ | SecurityError _ => true
  | OSError _ | RuntimeError _ => false
  end.

(** A platform for the examples: paths resolve to themselves, the parts are
    the pieces between slashes, one file of 100 MB and one of a byte more
    exist, and one name is longer than the file system takes. *)
Definition example_platform : Platform :=
  {| resolve := fun p => Ok p;
     path_exists := fun p =>
       if String.eqb p "/in/too_long.pptx"
       then Err (OSError "[Errno 36] File name too long: '/in/too_long.pptx'")
       else Ok (String.eqb p "/in/deck.pptx" || String.eqb p "/in/big.pptx");
     stat_size := fun p => if String.eqb p "/in/big.pptx"
                           then Ok (MAX_FILE_SIZE_BYTES + 1)%Z
                           else Ok MAX_FILE_SIZE_BYTES;
     parts := fun p => Py.split "/"%char p;
     suffix := fun p => if String.eqb p "/in/notes.txt" then ".txt" else ".pptx";
     lower := fun x => x;
     relative_to := fun _ _ => Ok tt;
     mkdir_parent := fun _ => Ok tt |}.

End Security.

(** ** Vocabulary of the further properties *)



(** The kind of a shape and, for a table, the number of cells of each
    row. *)
Inductive Outline :=
| OText
| OTable (dims : list nat)
| OOther.

Definition outline_of (shape : Shape) : Outline :=
  match shape with
  | TextShape _ => OText
  | TableShape table => OTable (dimensions table)
  | OtherShape => OOther
  end.

Definition outline (prs : Presentation) : list (list Outline) :=
  fmap (M:=list) (fmap (M:=list) outline_of) prs.

(** The number of sub-updates of an instruction: its cell entries when it
    is routed to the table branch, one otherwise. *)
Definition entries (prs : Presentation) (u : UpdateInstruction) : nat :=
  match target (skeleton prs) u, upd_table_cells u with
  | Some KTable, _ :: _ => length (upd_table_cells u)
  | _, _ => 1
  end.


(** The text frame of the cell at 0-based [(i, j)]. *)
Definition cell_frame_at (table : Table) (i j : nat) : option TextFrame :=
  match table !! i with
  | Some cells => cells !! j
  | None => None
  end.

(** The shape with content for the structure report: a text that is not
    empty, or a table with a cell whose text is not empty. *)
Definition has_content (shape : Shape) : Prop :=
  match shape with
  | TextShape tf => text_frame_text tf <> EmptyString
  | TableShape table =>
      exists i j tf, cell_frame_at table i j = Some tf
                     /\ text_frame_text tf <> EmptyString
  | OtherShape => False
  end.

(** The instruction that carries the slide number and the index of an entry
    of the structure report. *)
Definition instruction_for (slide_number index : nat) (t : string)
  : UpdateInstruction :=
  {| upd_slide := PInt (Z.of_nat slide_number);
     upd_shape := PInt (Z.of_nat index);
     upd_text := t; upd_preserve_bullets := true; upd_table_cells := [] |}.

(** The deck of the examples as the structure report reads it. *)
Definition deck_view : Extract.PresentationView :=
  {| Extract.view_file_name := "deck.pptx";
     Extract.view_slide_width := 9144000;
     Extract.view_slide_height := 6858000;
     Extract.view_slides := map (map Extract.bare_view) Fixtures.deck |}.





(** * Properties *)

(** ** Strings *)

Section Strings.
Variable c : ascii.

Lemma split_not_nil (s : string) : Py.split c s <> [].
Proof.
  destruct s as [|d s]; simpl; [discriminate|].
  destruct (Ascii.eqb d c); [discriminate|].
  destruct (Py.split c s); discriminate.
Qed.

(** Joining the pieces with the separator gives the string back. *)
Lemma join_split (s : string) :
  Py.join (String c EmptyString) (Py.split c s) = s.
Proof.
  induction s as [|d s IH]; [reflexivity|].
  simpl. destruct (Ascii.eqb_spec d c) as [->|Hd].
  - pose proof (split_not_nil s) as Hne.
    destruct (Py.split c s) as [|l ls] eqn:E; [congruence|].
    change (Py.join (String c "") (EmptyString :: l :: ls))
      with (String c (Py.join (String c "") (l :: ls))).
    now rewrite IH.
  - pose proof (split_not_nil s) as Hne.
    destruct (Py.split c s) as [|l ls] eqn:E; [congruence|].
    rewrite <- IH. destruct ls; reflexivity.
Qed.

End Strings.

Lemma join_empty_singleton (s : string) : Py.join "" [s] = s.
Proof. reflexivity. Qed.

Lemma string_app_assoc (a b c : string) : (a +:+ b) +:+ c = a +:+ (b +:+ c).
Proof.
  induction a as [|d a IH]; [reflexivity|].
  change (String d ((a +:+ b) +:+ c) = String d (a +:+ (b +:+ c))).
  now rewrite IH.
Qed.

(** ** The text a run stores *)

Lemma escape_app (a b : string) :
  escape_ctrl_chars (a +:+ b) = escape_ctrl_chars a +:+ escape_ctrl_chars b.
Proof.
  induction a as [|d a IH]; [reflexivity|].
  change (escape_ctrl_chars (String d a +:+ b))
    with (escape_char d +:+ escape_ctrl_chars (a +:+ b)).
  change (escape_ctrl_chars (String d a))
    with (escape_char d +:+ escape_ctrl_chars a).
  now rewrite IH, string_app_assoc.
Qed.

(** A string without control characters is stored as it is. *)
Lemma escape_clean (s : string) :
  has_ctrl_chars s = false -> escape_ctrl_chars s = s.
Proof.
  induction s as [|d s IH]; [reflexivity|].
  simpl. intros H. apply orb_false_iff in H. destruct H as [Hd Hs].
  unfold escape_char. rewrite Hd, (IH Hs). reflexivity.
Qed.

Lemma escape_newline :
  escape_ctrl_chars (String Py.newline EmptyString) = String Py.newline EmptyString.
Proof. reflexivity. Qed.

(** Escaping goes through [join]: line feeds are not escaped. *)
Lemma escape_join_lines (l : list string) :
  escape_ctrl_chars (Py.join (String Py.newline EmptyString) l)
  = Py.join (String Py.newline EmptyString) (map escape_ctrl_chars l).
Proof.
  induction l as [|x l IH]; [reflexivity|].
  destruct l as [|y l]; [reflexivity|].
  change (Py.join (String Py.newline "") (x :: y :: l))
    with (x +:+ String Py.newline "" +:+ Py.join (String Py.newline "") (y :: l)).
  rewrite !escape_app, IH. reflexivity.
Qed.

(** The lines of a text, each escaped and joined again, are the escaped
    text. *)
Lemma join_escaped_lines (t : string) :
  Py.join (String Py.newline EmptyString)
          (map escape_ctrl_chars (Py.split Py.newline t))
  = escape_ctrl_chars t.
Proof. now rewrite <- escape_join_lines, join_split. Qed.

(** The lines of a text without control characters have none. *)
Lemma split_clean (c : ascii) (s : string) :
  has_ctrl_chars s = false ->
  Forall (fun l => has_ctrl_chars l = false) (Py.split c s).
Proof.
  induction s as [|d s IH]; [repeat constructor|].
  simpl. intros H. apply orb_false_iff in H. destruct H as [Hd Hs].
  specialize (IH Hs).
  destruct (Ascii.eqb d c); [constructor; [reflexivity | exact IH]|].
  destruct (Py.split c s) as [|l ls]; [repeat constructor; simpl; now rewrite Hd|].
  inversion IH as [|? ? Hl Hls]; subst.
  constructor; [simpl; now rewrite Hd, Hl | exact Hls].
Qed.

Lemma map_escape_clean (l : list string) :
  Forall (fun x => has_ctrl_chars x = false) l -> map escape_ctrl_chars l = l.
Proof.
  induction 1 as [|x l Hx Hl IH]; [reflexivity|].
  cbn [map]. now rewrite (escape_clean x Hx), IH.
Qed.

(** ** Reconstruction: what the two modes leave in the text frame *)

Lemma try_copy_color_text (o : option ColorFormat) (r : Run) :
  run_text (try_copy_color o r) = run_text r.
Proof. destruct o; reflexivity. Qed.

Lemma assign_color_text (o : option ColorFormat) (r : Run) :
  run_text (fst (assign_color o r)) = run_text r.
Proof. destruct o; reflexivity. Qed.

Lemma assign_color_raises (c : ColorFormat) (r : Run) :
  snd (assign_color (Some c) r)
  = Raise (ValueError "assigned value must be type RGBColor").
Proof. reflexivity. Qed.

Lemma assign_color_none (r : Run) : assign_color None r = (r, Return tt).
Proof. reflexivity. Qed.

(** The bullet branch raises only on a text frame without paragraphs. *)
Lemma bullet_mode_returns (s : Snapshot) (lines : list string) (tf : TextFrame) :
  paragraphs tf <> [] -> snd (bullet_mode s lines tf) = Return tt.
Proof.
  intros Hne. unfold bullet_mode.
  destruct (paragraphs tf) as [|p ps]; [congruence|].
  destruct lines; reflexivity.
Qed.

(** Every paragraph the bullet branch leaves holds one run and nothing
    else, with the escaped line as text. *)
Lemma bullet_mode_content (s : Snapshot) (lines : list string) (tf : TextFrame) :
  paragraphs tf <> [] -> lines <> [] ->
  map para_content (paragraphs (fst (bullet_mode s lines tf)))
  = map (fun l => [RunElement (try_copy_color (original_font_color s)
                                              (new_run s l))]) lines.
Proof.
  intros Hp Hl. unfold bullet_mode.
  destruct (paragraphs tf) as [|p ps]; [congruence|].
  destruct lines as [|l0 more]; [congruence|].
  cbn [take fst paragraphs map with_single_run para_content]. f_equal.
  rewrite map_map. reflexivity.
Qed.

Lemma bullet_mode_runs (s : Snapshot) (lines : list string) (tf : TextFrame) :
  paragraphs tf <> [] -> lines <> [] ->
  map (fun p => map run_text (para_runs p))
      (paragraphs (fst (bullet_mode s lines tf)))
  = map (fun l => [escape_ctrl_chars l]) lines.
Proof.
  intros Hp Hl.
  pose proof (bullet_mode_content s lines tf Hp Hl) as H.
  apply (f_equal (map (fun c => map run_text (omap run_of c)))) in H.
  rewrite !map_map in H. unfold para_runs. rewrite H.
  apply map_ext. intros l. cbn. now rewrite try_copy_color_text.
Qed.

Lemma bullet_mode_single_runs (s : Snapshot) (lines : list string)
  (tf : TextFrame) :
  paragraphs tf <> [] -> lines <> [] ->
  Forall2 (fun p line => single_run_with (escape_ctrl_chars line) p)
          (paragraphs (fst (bullet_mode s lines tf))) lines.
Proof.
  intros Hp Hl.
  pose proof (bullet_mode_content s lines tf Hp Hl) as H.
  revert H. generalize (paragraphs (fst (bullet_mode s lines tf))) as ps.
  clear Hp Hl. induction lines as [|l ls IH]; intros ps H.
  - destruct ps; [constructor | discriminate].
  - destruct ps as [|p ps]; [discriminate|]. cbn [map] in H.
    injection H as Hp Hps. constructor; [|now apply IH].
    eexists. split; [exact Hp|]. now rewrite try_copy_color_text.
Qed.

Lemma bullet_mode_levels (s : Snapshot) (lines : list string) (tf : TextFrame)
  (p : Paragraph) (ps : list Paragraph) :
  paragraphs tf = p :: ps -> lines <> [] ->
  Forall (fun q => para_level q = para_level p)
         (paragraphs (fst (bullet_mode s lines tf))).
Proof.
  intros Hp Hl. unfold bullet_mode. rewrite Hp.
  destruct lines as [|l0 more]; [congruence|].
  cbn [take fst paragraphs]. constructor; [reflexivity|].
  apply Forall_forall. intros q Hq.
  apply list_elem_of_In, in_map_iff in Hq. destruct Hq as (l & <- & _). reflexivity.
Qed.

Lemma paragraph_text_single (r : Run) (p : Paragraph) :
  paragraph_text (with_single_run r p) = run_text r.
Proof. reflexivity. Qed.

Lemma bullet_mode_texts (s : Snapshot) (lines : list string) (tf : TextFrame) :
  paragraphs tf <> [] -> lines <> [] ->
  map paragraph_text (paragraphs (fst (bullet_mode s lines tf)))
  = map escape_ctrl_chars lines.
Proof.
  intros Hp Hl.
  pose proof (bullet_mode_content s lines tf Hp Hl) as H.
  apply (f_equal (map (fun c => Py.join "" (map inline_text c)))) in H.
  rewrite !map_map in H. unfold paragraph_text. rewrite H.
  apply map_ext. intros l. cbn. now rewrite try_copy_color_text.
Qed.

Lemma bullet_mode_empty (s : Snapshot) (lines : list string) (tf : TextFrame) :
  paragraphs tf = [] -> fst (bullet_mode s lines tf) = tf.
Proof.
  intros Hp. unfold bullet_mode. rewrite Hp. destruct tf as [ps].
  simpl in Hp. subst ps. destruct lines; reflexivity.
Qed.

Lemma bullet_mode_not_empty (s : Snapshot) (lines : list string) (tf : TextFrame) :
  paragraphs tf <> [] -> paragraphs (fst (bullet_mode s lines tf)) <> [].
Proof.
  intros Hp. unfold bullet_mode.
  destruct (paragraphs tf) as [|p ps]; [congruence|].
  destruct lines; discriminate.
Qed.

(** The simple branch touches the first paragraph only, whether or not the
    colour assignment raises. *)
Lemma single_paragraph_mode_tail (s : Snapshot) (t : string) (tf : TextFrame) :
  drop 1 (paragraphs (fst (single_paragraph_mode s t tf)))
  = drop 1 (paragraphs tf).
Proof.
  unfold single_paragraph_mode.
  destruct (paragraphs tf) as [|p ps] eqn:E; [simpl; now rewrite E|].
  destruct (assign_color _ _). reflexivity.
Qed.

Lemma single_paragraph_mode_head (s : Snapshot) (t : string) (tf : TextFrame)
  (p : Paragraph) (ps : list Paragraph) :
  paragraphs tf = p :: ps ->
  exists r, run_text r = escape_ctrl_chars t /\
    paragraphs (fst (single_paragraph_mode s t tf)) = with_single_run r p :: ps.
Proof.
  intros E. unfold single_paragraph_mode. rewrite E.
  pose proof (assign_color_text (original_font_color s) (new_run s t)) as Ht.
  destruct (assign_color _ _) as [r o]. exists r. split; [exact Ht|reflexivity].
Qed.

Lemma single_paragraph_mode_returns (s : Snapshot) (t : string) (tf : TextFrame) :
  paragraphs tf <> [] -> original_font_color s = None ->
  snd (single_paragraph_mode s t tf) = Return tt.
Proof.
  intros Hp Hc. unfold single_paragraph_mode.
  destruct (paragraphs tf); [congruence|]. rewrite Hc. reflexivity.
Qed.

(** The two components of [update_shape_text] on a shape with text frame. *)
Lemma update_shape_text_frame (tf : TextFrame) (t : string) (pb w : bool) :
  fst (update_shape_text (TextShape tf) t pb w)
  = TextShape (fst (if bullet_preserving pb t
                    then bullet_mode (capture_formatting tf)
                                     (Py.split Py.newline t) tf
                    else single_paragraph_mode (capture_formatting tf) t tf)).
Proof.
  unfold update_shape_text, bullet_preserving.
  destruct (pb && Py.contains Py.newline t).
  - destruct (bullet_mode _ _ _); reflexivity.
  - destruct (single_paragraph_mode _ _ _); reflexivity.
Qed.

Lemma update_shape_text_outcome (tf : TextFrame) (t : string) (pb w : bool) :
  snd (update_shape_text (TextShape tf) t pb w)
  = let* _ := snd (if bullet_preserving pb t
                   then bullet_mode (capture_formatting tf)
                                    (Py.split Py.newline t) tf
                   else single_paragraph_mode (capture_formatting tf) t tf) in
    Return {| success := true; error := None;
              result_warnings :=
                if w && overflows (Py.len t) (Py.len (text_frame_text tf))
                then [overflow_warning (Py.len t) (Py.len (text_frame_text tf))]
                else [];
              new_length := Some (Py.len t);
              original_length := Some (Py.len (text_frame_text tf)) |}.
Proof.
  unfold update_shape_text, bullet_preserving.
  destruct (pb && Py.contains Py.newline t).
  - destruct (bullet_mode _ _ _); reflexivity.
  - destruct (single_paragraph_mode _ _ _); reflexivity.
Qed.

(** ** Bullet-preserving mode *)

(** C1, as the code has it.  With [preserve_bullets] true and a line break
    in [new_text], the update of a shape with text frame (at least one
    paragraph) succeeds and leaves exactly one paragraph per line of
    [new_text.split('\n')], each holding a single run and nothing else.  The
    text of that run is the line as [run.text] stores it: with every control
    character other than tab escaped as [_xHHHH_]; it is the line itself
    when [new_text] has no such character.  Every paragraph after the first
    has the outline level of the rewritten first paragraph. *)
Theorem C1_bullet_mode_one_paragraph_per_line
  (tf : TextFrame) (new_text : string) (w : bool) :
  paragraphs tf <> [] ->
  Py.contains Py.newline new_text = true ->
  exists tf' r,
    update_shape_text (TextShape tf) new_text true w = (TextShape tf', Return r)
    /\ success r = true
    /\ Forall2 (fun p line => single_run_with (escape_ctrl_chars line) p)
               (paragraphs tf') (Py.split Py.newline new_text)
    /\ (has_ctrl_chars new_text = false ->
        Forall2 (fun p line => single_run_with line p)
                (paragraphs tf') (Py.split Py.newline new_text))
    /\ match paragraphs tf' with
       | first_para :: others =>
           Forall (fun p => para_level p = para_level first_para) others
       | [] => False
       end.
Proof.
  intros Hp Hnl.
  pose proof (update_shape_text_frame tf new_text true w) as Hf.
  pose proof (update_shape_text_outcome tf new_text true w) as Ho.
  unfold bullet_preserving in Hf, Ho. rewrite Hnl in Hf, Ho. cbn [andb] in Hf, Ho.
  rewrite bullet_mode_returns in Ho by exact Hp. cbn [Py.bind] in Ho.
  destruct (update_shape_text (TextShape tf) new_text true w) as [sh o].
  cbn [fst snd] in Hf, Ho. subst sh o.
  pose proof (bullet_mode_single_runs (capture_formatting tf)
                (Py.split Py.newline new_text) tf Hp (split_not_nil _ _)) as Hruns.
  eexists _, _. split; [reflexivity|]. split; [reflexivity|].
  split; [exact Hruns|]. split.
  - intros Hclean. pose proof (split_clean Py.newline new_text Hclean) as Hc.
    revert Hruns Hc.
    generalize (paragraphs (fst (bullet_mode (capture_formatting tf)
                                   (Py.split Py.newline new_text) tf))).
    generalize (Py.split Py.newline new_text).
    intros lines ps H. induction H as [|p l ps ls Hpl _ IH]; intros Hc;
      [constructor|].
    inversion Hc as [|? ? Hl Hls]; subst.
    constructor; [now rewrite <- (escape_clean l Hl) | now apply IH].
  - destruct (paragraphs tf) as [|p ps] eqn:E; [congruence|].
    pose proof (bullet_mode_levels (capture_formatting tf)
                  (Py.split Py.newline new_text) tf p ps E
                  (split_not_nil _ _)) as HL.
    pose proof (bullet_mode_not_empty (capture_formatting tf)
                  (Py.split Py.newline new_text) tf) as Hne.
    rewrite E in Hne. specialize (Hne ltac:(discriminate)).
    destruct (paragraphs (fst (bullet_mode _ _ tf))) as [|q qs]; [congruence|].
    inversion HL as [|? ? Hq Hqs]; subst.
    eapply Forall_impl; [exact Hqs|]. intros x Hx. simpl in Hx. congruence.
Qed.

(** The example of section 8: "A\nB\nC" on a shape with one paragraph. *)
Lemma C1_three_lines_witness :
  paragraphs Fixtures.title_frame <> [] /\
  Py.contains Py.newline Fixtures.abc = true /\
  exists tf' r,
    update_shape_text (TextShape Fixtures.title_frame) Fixtures.abc true true
      = (TextShape tf', Return r)
    /\ success r = true
    /\ map (fun p => map run_text (para_runs p)) (paragraphs tf')
       = [["A"]; ["B"]; ["C"]]
    /\ Forall2 (fun p line => single_run_with line p)
               (paragraphs tf') ["A"; "B"; "C"].
Proof.
  split; [discriminate|]. split; [reflexivity|].
  destruct (C1_bullet_mode_one_paragraph_per_line
              Fixtures.title_frame Fixtures.abc true)
    as (tf' & r & Hu & Hs & _ & Hlines & _); [discriminate | reflexivity |].
  exists tf', r. split; [exact Hu|]. split; [exact Hs|].
  split; [|exact (Hlines eq_refl)].
  cbn in Hu. injection Hu as <- _. reflexivity.
Defined.

(** C1 as the specification states it fails on a text with a carriage
    return before the line break: the first of the two lines is "A" followed
    by the carriage return, and the run of the first paragraph holds
    "A_x000D_". *)
Lemma C1_carriage_return_counterexample :
  Py.split Py.newline Fixtures.a_crlf_b = ["A" +:+ Fixtures.cr; "B"]
  /\ ~ exists tf' r,
         update_shape_text (TextShape Fixtures.title_frame) Fixtures.a_crlf_b
                           true true
         = (TextShape tf', Return r)
         /\ map (fun p => map run_text (para_runs p)) (paragraphs tf')
            = map (fun line => [line]) (Py.split Py.newline Fixtures.a_crlf_b).
Proof.
  split; [reflexivity|]. intros (tf' & r & Hu & Hruns).
  cbn in Hu. injection Hu as <- _. discriminate Hruns.
Qed.

Example carriage_return_is_escaped :
  map (fun p => map run_text (para_runs p))
      (match fst (update_shape_text (TextShape Fixtures.title_frame)
                                    Fixtures.a_crlf_b true true) with
       | TextShape tf => paragraphs tf
       | _ => []
       end)
  = [["A_x000D_"]; ["B"]].
Proof. reflexivity. Qed.

(** Colour reapplication inside [try ... except: pass] never makes the
    bullet branch fail, whatever the captured colour is. *)
Lemma bullet_mode_swallows_color_failure
  (tf : TextFrame) (new_text : string) (w : bool) :
  paragraphs tf <> [] ->
  Py.contains Py.newline new_text = true ->
  exists r, snd (update_shape_text (TextShape tf) new_text true w) = Return r
            /\ success r = true.
Proof.
  intros Hp Hnl. rewrite update_shape_text_outcome.
  unfold bullet_preserving. rewrite Hnl. cbn [andb].
  rewrite bullet_mode_returns by exact Hp. eexists. split; reflexivity.
Qed.

(** Explicit RGB is reapplied as RGB, a theme colour as theme colour. *)
Lemma try_copy_color_rgb (v : Z) (r : Run) :
  color (run_font (try_copy_color (Some (ColorRGB v)) r)) = ColorRGB v.
Proof. reflexivity. Qed.

Lemma try_copy_color_theme (i : Z) (r : Run) :
  i <> 0%Z -> color (run_font (try_copy_color (Some (ColorTheme i)) r)) = ColorTheme i.
Proof.
  intros Hi. unfold try_copy_color, copy_color, set_theme_color. cbn.
  destruct (Z.eqb_spec i 0); [contradiction | reflexivity].
Qed.

(** ** Single-paragraph mode *)

(** C7. In single-paragraph mode only the first paragraph is rewritten:
    the text frame keeps its number of paragraphs, and every paragraph
    beyond the first is the one that was there, runs and formatting
    included.  This holds also when the colour assignment raises. *)
Theorem C7_single_paragraph_mode_frame
  (tf : TextFrame) (new_text : string) (pb w : bool) :
  bullet_preserving pb new_text = false ->
  exists tf',
    fst (update_shape_text (TextShape tf) new_text pb w) = TextShape tf'
    /\ length (paragraphs tf') = length (paragraphs tf)
    /\ forall i, (1 <= i)%nat -> paragraphs tf' !! i = paragraphs tf !! i.
Proof.
  intros Hm. rewrite update_shape_text_frame, Hm.
  eexists. split; [reflexivity|].
  pose proof (single_paragraph_mode_tail (capture_formatting tf) new_text tf) as Ht.
  set (tf' := fst (single_paragraph_mode (capture_formatting tf) new_text tf)) in *.
  split.
  - unfold tf', single_paragraph_mode.
    destruct (paragraphs tf) as [|p ps] eqn:E; [simpl; now rewrite E|].
    destruct (assign_color _ _). reflexivity.
  - intros i Hi. destruct i as [|i]; [lia|].
    change (S i) with (1 + i)%nat.
    rewrite <- (lookup_drop (paragraphs tf') 1 i).
    rewrite <- (lookup_drop (paragraphs tf) 1 i). now rewrite Ht.
Qed.

Lemma C7_trailing_paragraph_witness :
  bullet_preserving true "Hi" = false /\
  exists tf',
    fst (update_shape_text (TextShape Fixtures.red_frame) "Hi" true true)
      = TextShape tf'
    /\ length (paragraphs tf') = length (paragraphs Fixtures.red_frame)
    /\ forall i, (1 <= i)%nat ->
         paragraphs tf' !! i = paragraphs Fixtures.red_frame !! i.
Proof.
  split; [reflexivity|].
  apply (C7_single_paragraph_mode_frame Fixtures.red_frame "Hi" true true).
  reflexivity.
Defined.

(** ** Overflow warning *)

Lemma overflows_spec (n m : Z) :
  overflows n m = true <-> (2 * n > 3 * m)%Z.
Proof. unfold overflows. rewrite Z.gtb_gt. lia. Qed.

(** Whenever [update_shape_text] returns on a shape with text frame, its
    warnings are decided by the length test alone. *)
Lemma update_shape_text_warnings (tf : TextFrame) (t : string) (pb w : bool)
  (shape' : Shape) (r : UpdateResult) :
  update_shape_text (TextShape tf) t pb w = (shape', Return r) ->
  result_warnings r
  = if w && overflows (Py.len t) (Py.len (text_frame_text tf))
    then [overflow_warning (Py.len t) (Py.len (text_frame_text tf))] else [].
Proof.
  intros H. pose proof (update_shape_text_outcome tf t pb w) as Ho.
  rewrite H in Ho. cbn [snd] in Ho.
  destruct (snd (if bullet_preserving pb t then _ else _)) as [[]|e];
    cbn [Py.bind] in Ho; [|discriminate].
  injection Ho as ->. reflexivity.
Qed.

Lemma update_shape_text_returns (tf : TextFrame) (t : string) (pb w : bool) :
  paragraphs tf <> [] ->
  bullet_preserving pb t = true
  \/ original_font_color (capture_formatting tf) = None ->
  exists shape' r,
    update_shape_text (TextShape tf) t pb w = (shape', Return r)
    /\ success r = true.
Proof.
  intros Hp Hm. pose proof (update_shape_text_outcome tf t pb w) as Ho.
  assert (snd (if bullet_preserving pb t
               then bullet_mode (capture_formatting tf) (Py.split Py.newline t) tf
               else single_paragraph_mode (capture_formatting tf) t tf)
          = Return tt) as Hs.
  { destruct (bullet_preserving pb t) eqn:Eb.
    - now apply bullet_mode_returns.
    - destruct Hm as [Hm|Hm]; [discriminate|].
      now apply single_paragraph_mode_returns. }
  rewrite Hs in Ho. cbn [Py.bind] in Ho.
  destruct (update_shape_text (TextShape tf) t pb w) as [sh o].
  cbn [snd] in Ho. subst o. eexists _, _. split; reflexivity.
Qed.

(** What the reconstruction raises, and when. *)
Lemma reconstruction_outcome (tf : TextFrame) (t : string) (pb : bool) :
  snd (if bullet_preserving pb t
       then bullet_mode (capture_formatting tf) (Py.split Py.newline t) tf
       else single_paragraph_mode (capture_formatting tf) t tf)
  = match paragraphs tf with
    | [] => Raise (IndexError "tuple index out of range")
    | _ :: _ =>
        if bullet_preserving pb t then Return tt
        else match original_font_color (capture_formatting tf) with
             | Some _ => Raise (ValueError "assigned value must be type RGBColor")
             | None => Return tt
             end
    end.
Proof.
  destruct (paragraphs tf) as [|p ps] eqn:E.
  - destruct (bullet_preserving pb t).
    + unfold bullet_mode. rewrite E.
      pose proof (split_not_nil Py.newline t) as Hne.
      destruct (Py.split Py.newline t); [congruence | reflexivity].
    + unfold single_paragraph_mode. now rewrite E.
  - destruct (bullet_preserving pb t).
    + apply bullet_mode_returns. rewrite E. discriminate.
    + unfold single_paragraph_mode. rewrite E.
      destruct (original_font_color (capture_formatting tf)); reflexivity.
Qed.

(** C5.  The length test is as the specification has it: an update that
    returns carries exactly one overflow warning when [len(new_text)]
    exceeds 1.5 times the original length, that is when
    [2 * len(new_text) > 3 * original_length], and none otherwise.  But not
    every update returns: in single-paragraph mode on a shape whose first
    run has a colour, line 256 raises after the warning was put in the
    result, so no result and no warning come out.  The first part is such
    an update, 16 characters on a text of 10; [apply_updates] raises with
    it.  The second part holds for every update: what a returned result
    holds, what is raised otherwise, and that the update with a captured
    colour in single-paragraph mode does raise. *)
Theorem C5_overflow_warning :
  (Py.len (text_frame_text Fixtures.red_frame) = 10%Z
   /\ Py.len "0123456789abcdef" = 16%Z
   /\ snd (update_shape_text (TextShape Fixtures.red_frame) "0123456789abcdef"
                             true true)
      = Raise (ValueError "assigned value must be type RGBColor")
   /\ apply_updates Fixtures.deck
        [Fixtures.text_update (PInt 2) (PInt 1) "0123456789abcdef"]
      = Raise (ValueError "assigned value must be type RGBColor"))
  /\ forall (tf : TextFrame) (new_text : string) (pb : bool),
       match snd (update_shape_text (TextShape tf) new_text pb true) with
       | Return r =>
           success r = true
           /\ (((2 * Py.len new_text > 3 * Py.len (text_frame_text tf))%Z
                /\ result_warnings r
                   = [overflow_warning (Py.len new_text)
                                       (Py.len (text_frame_text tf))])
               \/ ((2 * Py.len new_text <= 3 * Py.len (text_frame_text tf))%Z
                   /\ result_warnings r = []))
       | Raise e =>
           paragraphs tf = []
           \/ (bullet_preserving pb new_text = false
               /\ original_font_color (capture_formatting tf) <> None
               /\ e = ValueError "assigned value must be type RGBColor")
       end
       /\ (paragraphs tf <> [] ->
           bullet_preserving pb new_text = false ->
           original_font_color (capture_formatting tf) <> None ->
           snd (update_shape_text (TextShape tf) new_text pb true)
           = Raise (ValueError "assigned value must be type RGBColor")).
Proof.
  split; [repeat split; reflexivity|].
  intros tf new_text pb.
  rewrite update_shape_text_outcome, reconstruction_outcome.
  destruct (paragraphs tf) as [|p ps] eqn:E; cbn [Py.bind].
  { split; [now left | congruence]. }
  destruct (bullet_preserving pb new_text) eqn:Eb; cbn [Py.bind andb].
  - split; [|discriminate]. split; [reflexivity|].
    cbn [result_warnings]. destruct (overflows _ _) eqn:Eo.
    + left. apply overflows_spec in Eo. split; [exact Eo | reflexivity].
    + right. split; [|reflexivity].
      destruct (Z_gt_le_dec (2 * Py.len new_text) (3 * Py.len (text_frame_text tf)))
        as [Hgt|Hle]; [|exact Hle].
      apply overflows_spec in Hgt. congruence.
  - destruct (original_font_color (capture_formatting tf)) as [c|] eqn:Ec;
      cbn [Py.bind].
    + split; [|reflexivity]. right. repeat split; congruence.
    + split; [|congruence]. split; [reflexivity|].
      cbn [result_warnings]. destruct (overflows _ _) eqn:Eo.
      * left. apply overflows_spec in Eo. split; [exact Eo | reflexivity].
      * right. split; [|reflexivity].
        destruct (Z_gt_le_dec (2 * Py.len new_text)
                              (3 * Py.len (text_frame_text tf)))
          as [Hgt|Hle]; [|exact Hle].
        apply overflows_spec in Hgt. congruence.
Qed.

Example overflow_sixteen_on_ten :
  snd (update_shape_text (TextShape Fixtures.title_frame) "0123456789abcdef"
                         true true)
  = Return {| success := true; error := None;
              result_warnings :=
                ["New text (16 chars) is significantly longer than original (10 chars). May overflow shape."];
              new_length := Some 16%Z; original_length := Some 10%Z |}.
Proof. reflexivity. Qed.

Example no_overflow_fifteen_on_ten :
  snd (update_shape_text (TextShape Fixtures.title_frame) "0123456789abcde"
                         true true)
  = Return {| success := true; error := None; result_warnings := [];
              new_length := Some 15%Z; original_length := Some 10%Z |}.
Proof. reflexivity. Qed.

(** ** Applying an update twice *)

Lemma text_frame_text_bullet (s : Snapshot) (t : string) (tf : TextFrame) :
  paragraphs tf <> [] ->
  text_frame_text (fst (bullet_mode s (Py.split Py.newline t) tf))
  = escape_ctrl_chars t.
Proof.
  intros Hp. unfold text_frame_text.
  rewrite bullet_mode_texts by (try exact Hp; apply split_not_nil).
  apply join_escaped_lines.
Qed.

Lemma text_frame_text_single (s : Snapshot) (t : string) (tf : TextFrame)
  (p : Paragraph) (ps : list Paragraph) :
  paragraphs tf = p :: ps ->
  map paragraph_text (paragraphs (fst (single_paragraph_mode s t tf)))
  = escape_ctrl_chars t :: map paragraph_text ps.
Proof.
  intros E. destruct (single_paragraph_mode_head s t tf p ps E) as (r & Hr & ->).
  cbn [map]. now rewrite paragraph_text_single, Hr.
Qed.

(** Updating a shape a second time with the same text and the same
    [preserve_bullets] leaves the text that [extract_text_from_shape] reads
    as the first update left it; this is about the shape each call leaves
    behind, whether the call returns or raises. *)
Lemma update_shape_text_twice
  (shape : Shape) (new_text : string) (pb w : bool) :
  let once := fst (update_shape_text shape new_text pb w) in
  let twice := fst (update_shape_text once new_text pb w) in
  extract_text_from_shape twice = extract_text_from_shape once.
Proof.
  destruct shape as [tf| |]; [|reflexivity..].
  cbv zeta. rewrite (update_shape_text_frame tf).
  set (tf1 := fst (if bullet_preserving pb new_text then _ else _)).
  rewrite (update_shape_text_frame tf1). cbn [extract_text_from_shape].
  destruct (paragraphs tf) as [|p ps] eqn:E.
  - (* nothing to rewrite: both updates stop at [paragraphs[0]] *)
    assert (tf1 = tf) as ->.
    { unfold tf1. destruct (bullet_preserving pb new_text).
      - now apply bullet_mode_empty.
      - unfold single_paragraph_mode. now rewrite E. }
    destruct (bullet_preserving pb new_text).
    + now rewrite bullet_mode_empty.
    + unfold single_paragraph_mode. now rewrite E.
  - subst tf1. destruct (bullet_preserving pb new_text).
    + rewrite !text_frame_text_bullet; [reflexivity| |].
      * rewrite E. discriminate.
      * apply bullet_mode_not_empty. rewrite E. discriminate.
    + unfold text_frame_text.
      destruct (single_paragraph_mode_head (capture_formatting tf) new_text tf
                  p ps E) as (r & Hr & E1).
      rewrite (text_frame_text_single _ _ _ _ _ E1).
      now rewrite (text_frame_text_single _ _ _ _ _ E).
Qed.

(** In the bullet branch the text read back is [new_text] as the runs
    store it. *)
Lemma bullet_mode_text_is_new_text (tf : TextFrame) (new_text : string) (w : bool) :
  paragraphs tf <> [] ->
  Py.contains Py.newline new_text = true ->
  extract_text_from_shape
    (fst (update_shape_text (TextShape tf) new_text true w))
  = escape_ctrl_chars new_text.
Proof.
  intros Hp Hnl. rewrite update_shape_text_frame.
  unfold bullet_preserving. rewrite Hnl. cbn [andb extract_text_from_shape].
  now apply text_frame_text_bullet.
Qed.

(** ** Formatting snapshot *)

Lemma of_first_run_snapshot (p : Paragraph) :
  original_font_size (from_first_run p) = of_first_run size p
  /\ original_font_name (from_first_run p) = of_first_run name p
  /\ original_font_bold (from_first_run p) = of_first_run bold p
  /\ original_font_italic (from_first_run p) = of_first_run italic p
  /\ original_font_underline (from_first_run p) = of_first_run underline p
  /\ original_font_color (from_first_run p) = of_first_run defined_color p.
Proof.
  unfold from_first_run, of_first_run.
  destruct (para_runs p); repeat split; reflexivity.
Qed.

Lemma if_none_run_then_paragraph {A} (x y : option A) :
  run_then_paragraph x y (if_none x y).
Proof. destruct x; reflexivity. Qed.

(** C2, as the code has it.  Size, typeface name, bold, italic and
    underline are each taken from the first run of the first paragraph when
    set there and from the paragraph's own font otherwise, one field at a
    time.  The colour is taken from the first run when its type is defined
    and is absent otherwise: the paragraph's font is never consulted for
    it. *)
Theorem C2_snapshot_per_field
  (tf : TextFrame) (p : Paragraph) (ps : list Paragraph) :
  paragraphs tf = p :: ps ->
  let s := capture_formatting tf in
  run_then_paragraph (of_first_run size p) (size (para_font p))
                     (original_font_size s)
  /\ run_then_paragraph (of_first_run name p) (name (para_font p))
                        (original_font_name s)
  /\ run_then_paragraph (of_first_run bold p) (bold (para_font p))
                        (original_font_bold s)
  /\ run_then_paragraph (of_first_run italic p) (italic (para_font p))
                        (original_font_italic s)
  /\ run_then_paragraph (of_first_run underline p) (underline (para_font p))
                        (original_font_underline s)
  /\ original_font_color s = of_first_run defined_color p.
Proof.
  intros E. unfold capture_formatting. rewrite E. cbv zeta.
  destruct (of_first_run_snapshot p) as (Hs & Hn & Hb & Hi & Hu & Hc).
  cbn [original_font_size original_font_name original_font_bold
       original_font_italic original_font_underline original_font_color].
  rewrite Hs, Hn, Hb, Hi, Hu, Hc.
  repeat split; apply if_none_run_then_paragraph.
Qed.

Lemma C2_runless_paragraph_witness :
  paragraphs Fixtures.runless_frame
  = {| para_content := []; para_level := 0;
       para_font := {| size := None; name := None; bold := Some true;
                       italic := None; underline := None;
                       color := Fixtures.red |} |} :: [] /\
  original_font_bold (capture_formatting Fixtures.runless_frame) = Some true /\
  original_font_color (capture_formatting Fixtures.runless_frame) = None.
Proof.
  split; [reflexivity|].
  pose proof (C2_snapshot_per_field Fixtures.runless_frame _ _ eq_refl) as H.
  cbv zeta in H. destruct H as (_ & _ & Hb & _ & _ & Hc).
  split; [exact Hb | exact Hc].
Defined.

(** C2 as the specification states it fails for the colour: a paragraph
    without runs whose own font is red yields a snapshot without colour,
    where the fallback rule asks for the paragraph's red. *)
Lemma C2_color_counterexample :
  let p := {| para_content := []; para_level := 0;
              para_font := {| size := None; name := None; bold := Some true;
                              italic := None; underline := None;
                              color := Fixtures.red |} |} in
  paragraphs Fixtures.runless_frame = [p] /\
  ~ run_then_paragraph (of_first_run defined_color p)
                       (defined_color (para_font p))
                       (original_font_color
                          (capture_formatting Fixtures.runless_frame)).
Proof.
  cbv zeta. split; [reflexivity|]. cbn. discriminate.
Qed.

(** The snapshot of the code and the snapshot of section 4.1 agree on the
    five other fields, on every text frame. *)
Lemma capture_formatting_agrees_with_spec (tf : TextFrame) :
  let s := capture_formatting tf in
  let s' := spec_snapshot tf in
  original_font_size s = original_font_size s'
  /\ original_font_name s = original_font_name s'
  /\ original_font_bold s = original_font_bold s'
  /\ original_font_italic s = original_font_italic s'
  /\ original_font_underline s = original_font_underline s'.
Proof.
  unfold capture_formatting, spec_snapshot.
  destruct (paragraphs tf); repeat split; reflexivity.
Qed.

Lemma spec_snapshot_differs :
  capture_formatting Fixtures.runless_frame
  <> spec_snapshot Fixtures.runless_frame.
Proof. discriminate. Qed.

(** ** Colour reapplication in single-paragraph mode *)

(** A captured colour makes the simple branch raise: line 256 assigns the
    colour object where the setter wants an [RGBColor], outside any [try]. *)
Lemma single_paragraph_mode_color_raises
  (tf : TextFrame) (new_text : string) (pb w : bool) (c : ColorFormat) :
  paragraphs tf <> [] ->
  original_font_color (capture_formatting tf) = Some c ->
  bullet_preserving pb new_text = false ->
  snd (update_shape_text (TextShape tf) new_text pb w)
  = Raise (ValueError "assigned value must be type RGBColor").
Proof.
  intros Hp Hc Hm. rewrite update_shape_text_outcome, Hm.
  unfold single_paragraph_mode.
  destruct (paragraphs tf) as [|p ps]; [congruence|].
  rewrite Hc. reflexivity.
Qed.

(** C3 at its failing input.  The first run of the shape is red (explicit
    RGB).  With a one-line text the update raises [ValueError], and so does
    the whole run: no report is returned.  With a two-line text the same
    colour is reapplied and the update succeeds. *)
Theorem C3_single_paragraph_color_aborts :
  snd (update_shape_text (TextShape Fixtures.red_frame) "Hi" true true)
    = Raise (ValueError "assigned value must be type RGBColor")
  /\ apply_updates Fixtures.deck [Fixtures.text_update (PInt 2) (PInt 1) "Hi"]
     = Raise (ValueError "assigned value must be type RGBColor")
  /\ (exists r,
        snd (update_shape_text (TextShape Fixtures.red_frame)
                               ("Hi" +:+ Fixtures.lf +:+ "there") true true)
        = Return r /\ success r = true)
  /\ map (fun p => map (fun r => color (run_font r)) (para_runs p))
         (match fst (update_shape_text (TextShape Fixtures.red_frame)
                                       ("Hi" +:+ Fixtures.lf +:+ "there")
                                       true true) with
          | TextShape tf => paragraphs tf
          | _ => []
          end)
     = [[Fixtures.red]; [Fixtures.red]].
Proof.
  split; [reflexivity|]. split; [reflexivity|]. split.
  - eexists. split; reflexivity.
  - reflexivity.
Qed.

(** ** The dispatcher: resolving slide and shape *)

(** The range test and [v - 1] on an int or a bool. *)
Lemma out_of_range_as_int (v : value) (z : Z) (n : nat) :
  Py.as_int v = Some z ->
  out_of_range v n = Return (negb ((1 <=? z) && (z <=? Z.of_nat n))%Z)
  /\ Py.pred v = Return (IntIndex (z - 1)).
Proof.
  assert (forall z : Z,
            (let* x := Return (z <? 1)%Z in
             if x then Return true else Return (z >? Z.of_nat n)%Z)
            = Return (negb ((1 <=? z) && (z <=? Z.of_nat n))%Z)) as H.
  { intros k. cbn [Py.bind]. rewrite Z.gtb_ltb.
    destruct (Z.ltb_spec k 1), (Z.leb_spec 1 k), (Z.leb_spec k (Z.of_nat n)),
      (Z.ltb_spec (Z.of_nat n) k); cbn; try reflexivity; lia. }
  destruct v; try discriminate; intros [= <-]; split; try reflexivity; apply H.
Qed.

Lemma position_lt (n : nat) (v : value) (i : nat) :
  position n v = Some i -> i < n.
Proof.
  unfold position. destruct (Py.as_int v) as [z|]; [|discriminate].
  destruct ((1 <=? z) && (z <=? Z.of_nat n))%Z eqn:E; [|discriminate].
  intros [= <-]. apply andb_prop in E. destruct E as [E1 E2].
  apply Z.leb_le in E1, E2. lia.
Qed.

Lemma index_in_range_position {A} (l : list A) (v : value) (x : A) :
  index_in_range l v = Some x ->
  exists i, position (length l) v = Some i /\ l !! i = Some x.
Proof.
  unfold index_in_range.
  destruct (position (length l) v) as [i|]; [|discriminate].
  intros H. now exists i.
Qed.

(** A resolved 1-based index passes the range test and is fetched. *)
Lemma resolve_in_range {A} (l : list A) (v : value) (x : A) (msg : string) :
  index_in_range l v = Some x ->
  exists i k,
    position (length l) v = Some i
    /\ l !! i = Some x
    /\ out_of_range v (length l) = Return false
    /\ Py.pred v = Return k
    /\ Py.getitem l k msg = Return (i, x).
Proof.
  intros H. destruct (index_in_range_position l v x H) as (i & Hp & Hl).
  exists i. unfold position in Hp.
  destruct (Py.as_int v) as [z|] eqn:Ez; [|discriminate].
  destruct (out_of_range_as_int v z (length l) Ez) as [Ho Hpred].
  destruct ((1 <=? z) && (z <=? Z.of_nat (length l)))%Z eqn:E; [|discriminate].
  injection Hp as <-.
  exists (IntIndex (z - 1)). split; [unfold position; now rewrite Ez, E|].
  split; [exact Hl|]. split; [exact Ho|]. split; [exact Hpred|].
  apply andb_prop in E. destruct E as [E1 _]. apply Z.leb_le in E1.
  unfold Py.getitem.
  destruct (Z.ltb_spec (z - 1) 0); [lia|].
  destruct (Z.ltb_spec (z - 1) 0); [lia|]. now rewrite Hl.
Qed.

(** A number outside the range fails the range test. *)
Lemma out_of_range_outside (v : value) (n : nat) :
  outside_range n v = true -> out_of_range v n = Return true.
Proof.
  destruct v as [|b|z|x s| | |]; try discriminate; cbn [outside_range].
  - intros H. destruct (out_of_range_as_int (PBool b) _ n eq_refl) as [-> _].
    now rewrite H.
  - intros H. destruct (out_of_range_as_int (PInt z) _ n eq_refl) as [-> _].
    now rewrite H.
  - intros H. unfold out_of_range, Py.or_else, Py.lt, Py.gt. cbn [Py.bind].
    destruct (Py.float_lt x 1); [reflexivity|]. cbn in H. now rewrite H.
Qed.

(** A value that is not an index: the comparison raises [TypeError], or it
    passes the range test as a float. *)
Lemma out_of_range_not_an_index (v : value) (n : nat) :
  not_an_index n v = true ->
  (exists msg, out_of_range v n = Raise (TypeError msg))
  \/ (out_of_range v n = Return false /\ Py.pred v = Return FloatIndex).
Proof.
  destruct v as [|b|z|x s| | |]; try discriminate; cbn [not_an_index];
    try (intros _; left; eexists; reflexivity).
  intros H. apply negb_true_iff in H. right. split; [|reflexivity].
  unfold out_of_range, Py.or_else, Py.lt, Py.gt. cbn [Py.bind].
  apply orb_false_iff in H. destruct H as [-> ->]. reflexivity.
Qed.

(** Every value is of exactly one of three sorts. *)
Lemma index_cases (n : nat) (v : value) :
  (not_an_index n v = true /\ outside_range n v = false /\ position n v = None)
  \/ (not_an_index n v = false /\ outside_range n v = true /\ position n v = None)
  \/ (not_an_index n v = false /\ outside_range n v = false
      /\ exists i, position n v = Some i).
Proof.
  destruct v as [|b|z|x s| | |]; cbn [not_an_index outside_range position Py.as_int];
    try (left; repeat split; reflexivity).
  - destruct ((1 <=? Z.b2z b) && (Z.b2z b <=? Z.of_nat n))%Z;
      [right; right | right; left]; repeat split; eauto.
  - destruct ((1 <=? z) && (z <=? Z.of_nat n))%Z;
      [right; right | right; left]; repeat split; eauto.
  - destruct (Py.float_lt x 1 || Py.float_gt x (Z.of_nat n));
      [right; left | left]; repeat split; reflexivity.
Qed.

Lemma position_fmap {A B} (f : A -> B) (l : list A) (v : value) :
  position (length (f <$> l)) v = position (length l) v.
Proof. now rewrite length_fmap. Qed.

Lemma index_in_range_fmap {A B} (f : A -> B) (l : list A) (v : value) :
  index_in_range (f <$> l) v = f <$> index_in_range l v.
Proof.
  unfold index_in_range. rewrite length_fmap.
  destruct (position (length l) v); [apply list_lookup_fmap | reflexivity].
Qed.

Lemma index_in_range_length {A} (l : list A) (v : value) :
  index_in_range l v = None <-> position (length l) v = None.
Proof.
  unfold index_in_range. destruct (position (length l) v) as [i|] eqn:E.
  - apply position_lt in E. apply lookup_lt_is_Some_2 in E.
    destruct E as [x ->]. split; discriminate.
  - split; reflexivity.
Qed.

(** On a resolved slide and shape the loop body is [dispatch] followed by
    the write-back. *)
Lemma apply_update_resolved (u : UpdateInstruction) (prs : Presentation)
  (slide : Slide) (shape : Shape) :
  index_in_range prs (upd_slide u) = Some slide ->
  index_in_range slide (upd_shape u) = Some shape ->
  exists i j,
    position (length prs) (upd_slide u) = Some i
    /\ position (length slide) (upd_shape u) = Some j
    /\ prs !! i = Some slide
    /\ slide !! j = Some shape
    /\ forall r,
         apply_update u (prs, r)
         = let* updated := dispatch u shape r in
           Return (<[i := <[j := fst updated]> slide]> prs, snd updated).
Proof.
  intros Hs Hh.
  destruct (resolve_in_range _ _ _ "slide index out of range" Hs)
    as (i & ki & Hpi & Hli & Hoi & Hpredi & Hgi).
  destruct (resolve_in_range _ _ _ "shape index out of range" Hh)
    as (j & kj & Hpj & Hlj & Hoj & Hpredj & Hgj).
  exists i, j. repeat (split; [assumption|]). intros r.
  unfold apply_update. rewrite Hoi. cbn [Py.bind].
  rewrite Hpredi. cbn [Py.bind]. rewrite Hgi. cbn [Py.bind snd fst].
  rewrite Hoj. cbn [Py.bind]. rewrite Hpredj. cbn [Py.bind].
  rewrite Hgj. cbn [Py.bind snd fst]. reflexivity.
Qed.

(** A number out of range: one error entry, nothing else. *)
Lemma apply_update_rejected (u : UpdateInstruction) (prs : Presentation)
  (r : Results) :
  rejected prs u = true ->
  apply_update u (prs, r)
  = Return (prs, add_error (invalid_index_message prs u) r).
Proof.
  unfold rejected, invalid_index_message. intros H.
  destruct (index_cases (length prs) (upd_slide u))
    as [(_ & Ho & Hp)|[(_ & Ho & Hp)|(_ & Ho & i & Hp)]].
  - rewrite Ho in H. cbn [orb] in H.
    apply index_in_range_length in Hp. rewrite Hp in H. discriminate.
  - apply index_in_range_length in Hp. rewrite Hp.
    unfold apply_update. now rewrite (out_of_range_outside _ _ Ho).
  - rewrite Ho in H. cbn [orb] in H.
    destruct (index_in_range prs (upd_slide u)) as [slide|] eqn:Es;
      [|discriminate].
    destruct (resolve_in_range _ _ _ "slide index out of range" Es)
      as (i' & ki & Hpi & Hli & Hoi & Hpredi & Hgi).
    unfold apply_update. rewrite Hoi. cbn [Py.bind].
    rewrite Hpredi. cbn [Py.bind]. rewrite Hgi. cbn [Py.bind snd fst].
    now rewrite (out_of_range_outside _ _ H).
Qed.

Lemma invalid_index_rejected {A} (prs : list (list A)) (u : UpdateInstruction) :
  invalid_index prs u = true -> rejected prs u = true.
Proof.
  unfold invalid_index, rejected. intros H.
  apply andb_prop in H. destruct H as [Hi H].
  assert (forall {B} (l : list B) v,
            is_int v = true -> index_in_range l v = None ->
            outside_range (length l) v = true) as Hout.
  { intros B l v Hv Hn. apply index_in_range_length in Hn.
    destruct v; try discriminate. cbn in Hn |- *.
    now destruct ((1 <=? z) && (z <=? Z.of_nat (length l)))%Z. }
  destruct (index_in_range prs (upd_slide u)) as [slide|] eqn:Es.
  - apply andb_prop in H. destruct H as [Hj H].
    destruct (index_in_range slide (upd_shape u)) eqn:Eh; [discriminate|].
    rewrite (Hout _ slide _ Hj Eh). apply orb_true_r.
  - now rewrite (Hout _ prs _ Hi Es).
Qed.

(** An int index out of range: one error entry, nothing else. *)
Lemma apply_update_invalid_index (u : UpdateInstruction) (prs : Presentation)
  (r : Results) :
  invalid_index prs u = true ->
  apply_update u (prs, r)
  = Return (prs, add_error (invalid_index_message prs u) r).
Proof. intros H. now apply apply_update_rejected, invalid_index_rejected. Qed.

(** A slide or shape field that is not an index: [TypeError]. *)
Lemma apply_update_malformed (u : UpdateInstruction) (prs : Presentation) :
  malformed prs u = true ->
  exists msg, forall r, apply_update u (prs, r) = Raise (TypeError msg).
Proof.
  unfold malformed. intros H.
  destruct (not_an_index (length prs) (upd_slide u)) eqn:Ei.
  - destruct (out_of_range_not_an_index _ _ Ei) as [(msg & Ho)|[Ho Hp]].
    + exists msg. intros r. unfold apply_update. now rewrite Ho.
    + eexists. intros r. unfold apply_update. rewrite Ho. cbn [Py.bind].
      rewrite Hp. reflexivity.
  - cbn [orb] in H.
    destruct (index_in_range prs (upd_slide u)) as [slide|] eqn:Es;
      [|discriminate].
    destruct (resolve_in_range _ _ _ "slide index out of range" Es)
      as (i & ki & Hpi & Hli & Hoi & Hpredi & Hgi).
    destruct (out_of_range_not_an_index _ _ H) as [(msg & Ho)|[Ho Hp]].
    + exists msg. intros r. unfold apply_update. rewrite Hoi. cbn [Py.bind].
      rewrite Hpredi. cbn [Py.bind]. rewrite Hgi. cbn [Py.bind snd fst].
      now rewrite Ho.
    + eexists. intros r. unfold apply_update. rewrite Hoi. cbn [Py.bind].
      rewrite Hpredi. cbn [Py.bind]. rewrite Hgi. cbn [Py.bind snd fst].
      rewrite Ho. cbn [Py.bind]. rewrite Hp. reflexivity.
Qed.

(** Every instruction is of exactly one of three sorts. *)
Lemma instruction_cases {A} (prs : list (list A)) (u : UpdateInstruction) :
  malformed prs u = true
  \/ rejected prs u = true
  \/ exists slide shape,
       index_in_range prs (upd_slide u) = Some slide
       /\ index_in_range slide (upd_shape u) = Some shape.
Proof.
  unfold malformed, rejected.
  destruct (index_cases (length prs) (upd_slide u))
    as [(-> & _)|[(_ & -> & _)|(-> & -> & i & Hp)]];
    [left; reflexivity | right; left; reflexivity |].
  cbn [orb]. unfold index_in_range at 1 2 3. rewrite Hp.
  destruct (lookup_lt_is_Some_2 prs i (position_lt _ _ _ Hp)) as [slide Hs].
  rewrite Hs.
  destruct (index_cases (length slide) (upd_shape u))
    as [(-> & _)|[(_ & -> & _)|(_ & _ & j & Hq)]];
    [left; reflexivity | right; left; reflexivity |].
  right. right. exists slide.
  destruct (lookup_lt_is_Some_2 slide j (position_lt _ _ _ Hq)) as [shape Hh].
  exists shape. split; [reflexivity|]. unfold index_in_range. now rewrite Hq.
Qed.

(** The three sorts exclude one another. *)
Lemma instruction_sorts_exclusive {A} (prs : list (list A))
  (u : UpdateInstruction) :
  (malformed prs u = true -> rejected prs u = false /\ target prs u = None)
  /\ (rejected prs u = true -> target prs u = None).
Proof.
  unfold malformed, rejected, target.
  destruct (index_cases (length prs) (upd_slide u))
    as [(-> & -> & Hp)|[(-> & -> & Hp)|(-> & -> & i & Hp)]]; cbn [orb].
  - apply index_in_range_length in Hp. rewrite Hp. now repeat split.
  - apply index_in_range_length in Hp. rewrite Hp. now repeat split.
  - destruct (index_in_range prs (upd_slide u)) as [slide|];
      [|split; [discriminate | reflexivity]].
    destruct (index_cases (length slide) (upd_shape u))
      as [(-> & -> & Hq)|[(-> & -> & Hq)|(-> & -> & j & Hq)]];
      try (apply index_in_range_length in Hq; rewrite Hq; now repeat split).
    split; discriminate.
Qed.

(** The three sorts are read off the skeleton. *)
Lemma malformed_skeleton (prs : Presentation) (u : UpdateInstruction) :
  malformed (skeleton prs) u = malformed prs u.
Proof.
  unfold malformed, skeleton. rewrite index_in_range_fmap, length_fmap.
  destruct (index_in_range prs (upd_slide u)); [|reflexivity].
  cbn [fmap option_fmap option_map]. now rewrite length_fmap.
Qed.

Lemma rejected_skeleton (prs : Presentation) (u : UpdateInstruction) :
  rejected (skeleton prs) u = rejected prs u.
Proof.
  unfold rejected, skeleton. rewrite index_in_range_fmap, length_fmap.
  destruct (index_in_range prs (upd_slide u)); [|reflexivity].
  cbn [fmap option_fmap option_map]. now rewrite length_fmap.
Qed.

Lemma invalid_index_skeleton (prs : Presentation) (u : UpdateInstruction) :
  invalid_index (skeleton prs) u = invalid_index prs u.
Proof.
  unfold invalid_index, skeleton. rewrite index_in_range_fmap.
  destruct (index_in_range prs (upd_slide u)) as [slide|]; [|reflexivity].
  cbn [fmap option_fmap option_map]. rewrite index_in_range_fmap.
  destruct (index_in_range slide (upd_shape u)); reflexivity.
Qed.

Lemma invalid_index_message_skeleton (prs : Presentation) (u : UpdateInstruction) :
  invalid_index_message (skeleton prs) u = invalid_index_message prs u.
Proof.
  unfold invalid_index_message, skeleton.
  rewrite index_in_range_fmap, length_fmap.
  destruct (index_in_range prs (upd_slide u)) as [slide|]; [|reflexivity].
  cbn [fmap option_fmap option_map]. now rewrite length_fmap.
Qed.

Lemma target_skeleton (prs : Presentation) (u : UpdateInstruction) :
  target (skeleton prs) u = kind_of <$> target prs u.
Proof.
  unfold target, skeleton. rewrite index_in_range_fmap.
  destruct (index_in_range prs (upd_slide u)) as [slide|]; [|reflexivity].
  cbn [fmap option_fmap option_map]. apply index_in_range_fmap.
Qed.


(** ** The dispatcher: what an update never changes *)

Lemma update_shape_text_kind (shape : Shape) (t : string) (pb w : bool) :
  kind_of (fst (update_shape_text shape t pb w)) = kind_of shape.
Proof.
  destruct shape; [rewrite update_shape_text_frame|..]; reflexivity.
Qed.

Lemma dispatch_kind (u : UpdateInstruction) (shape : Shape) (r : Results)
  (updated : Shape * Results) :
  dispatch u shape r = Return updated -> kind_of (fst updated) = kind_of shape.
Proof.
  unfold dispatch. intros H.
  assert (forall o : outcome UpdateResult,
            (let* update_result := o in
             Return (fst (update_shape_text shape (upd_text u)
                                            (upd_preserve_bullets u) true),
                     merge_result (upd_slide u) (upd_shape u) update_result r))
            = Return updated ->
            kind_of (fst updated) = kind_of shape) as Htext.
  { intros [ur|e]; cbn [Py.bind]; [|discriminate].
    intros [= <-]. apply update_shape_text_kind. }
  destruct (upd_table_cells u) as [|c cs].
  - destruct (update_shape_text shape _ _ _) as [s o] eqn:E.
    apply (Htext o). exact H.
  - destruct shape as [tf|table|].
    + destruct (update_shape_text (TextShape tf) _ _ _) as [s o] eqn:E.
      apply (Htext o). exact H.
    + destruct (update_cells _ _ _ _ _) as [t r']. now injection H as <-.
    + destruct (update_shape_text OtherShape _ _ _) as [s o] eqn:E.
      apply (Htext o). exact H.
Qed.

Lemma skeleton_store (prs : Presentation) (i j : nat) (slide : Slide)
  (shape shape' : Shape) :
  prs !! i = Some slide -> slide !! j = Some shape ->
  kind_of shape' = kind_of shape ->
  skeleton (<[i := <[j := shape']> slide]> prs) = skeleton prs.
Proof.
  intros Hi Hj Hk. unfold skeleton.
  rewrite !list_fmap_insert. apply list_insert_id.
  rewrite list_lookup_fmap, Hi. cbn. f_equal. symmetry. apply list_insert_id.
  rewrite list_lookup_fmap, Hj. cbn. now rewrite Hk.
Qed.

Lemma apply_update_skeleton (u : UpdateInstruction) (prs : Presentation)
  (r : Results) (st : Presentation * Results) :
  apply_update u (prs, r) = Return st -> skeleton (fst st) = skeleton prs.
Proof.
  intros H.
  destruct (instruction_cases prs u) as [Hm|[Hv|(slide & shape & Hs & Hh)]].
  - destruct (apply_update_malformed u prs Hm) as (msg & Hr).
    rewrite Hr in H. discriminate.
  - rewrite (apply_update_rejected u prs r Hv) in H. now injection H as <-.
  - destruct (apply_update_resolved u prs slide shape Hs Hh)
      as (i & j & _ & _ & Hi & Hj & Hr).
    rewrite Hr in H. destruct (dispatch u shape r) as [updated|e] eqn:Ed;
      cbn [Py.bind] in H; [|discriminate].
    injection H as <-. cbn [fst].
    eapply skeleton_store; eauto using dispatch_kind.
Qed.

(** ** The report only grows *)

Lemma combine_no_results (r : Results) : combine r no_results = r.
Proof.
  destruct r as [n e w]. unfold combine, no_results. cbn.
  now rewrite Nat.add_0_r, !app_nil_r.
Qed.

Lemma combine_applied_one (r d : Results) :
  applied_one (combine r d) = combine r (applied_one d).
Proof. unfold applied_one, combine. cbn. now rewrite Nat.add_succ_r. Qed.

Lemma combine_add_error (msg : string) (r d : Results) :
  add_error msg (combine r d) = combine r (add_error msg d).
Proof. unfold add_error, combine. cbn. now rewrite app_assoc. Qed.

Lemma combine_add_warnings (msgs : list string) (r d : Results) :
  add_warnings msgs (combine r d) = combine r (add_warnings msgs d).
Proof. unfold add_warnings, combine. cbn. now rewrite app_assoc. Qed.

Lemma one_more_error_combine (msg : string) (r d : Results) :
  one_more_error msg (combine r d) (combine (add_error msg r) d).
Proof.
  unfold one_more_error, combine, add_error. cbn.
  split; [reflexivity|]. split; [reflexivity|].
  exists (errors r), (errors d). split; [reflexivity|].
  now rewrite <- app_assoc.
Qed.

(** The table and the outcome of the cell loop do not depend on the report
    it started from; the report is extended. *)
Lemma update_cells_delta (s h : value) (cells : list CellUpdate) :
  forall (table : Table) (r d : Results),
    update_cells s h cells table (combine r d)
    = (fst (update_cells s h cells table d),
       combine r (snd (update_cells s h cells table d))).
Proof.
  induction cells as [|c cs IH]; intros table r d; [reflexivity|].
  cbn [update_cells].
  destruct (update_table_cell table (cu_row c) (cu_column c) (cu_text c))
    as [table' cr].
  destruct (cell_success cr).
  - rewrite combine_applied_one. apply IH.
  - rewrite combine_add_error. apply IH.
Qed.

Lemma merge_result_delta (s h : value) (ur : UpdateResult) (r d : Results) :
  merge_result s h ur (combine r d) = combine r (merge_result s h ur d).
Proof.
  unfold merge_result. destruct (success ur).
  - now rewrite combine_applied_one, combine_add_warnings.
  - apply combine_add_error.
Qed.

Lemma dispatch_delta (u : UpdateInstruction) (shape : Shape) (r d : Results) :
  dispatch u shape (combine r d)
  = let* x := dispatch u shape d in Return (fst x, combine r (snd x)).
Proof.
  unfold dispatch.
  assert (forall sh : Shape,
    (let '(shape, o) :=
       update_shape_text sh (upd_text u) (upd_preserve_bullets u) true in
     let* update_result := o in
     Return (shape, merge_result (upd_slide u) (upd_shape u) update_result
                                 (combine r d)))
    = let* x :=
        (let '(shape, o) :=
           update_shape_text sh (upd_text u) (upd_preserve_bullets u) true in
         let* update_result := o in
         Return (shape, merge_result (upd_slide u) (upd_shape u)
                                     update_result d)) in
      Return (fst x, combine r (snd x))) as Htext.
  { intros sh. destruct (update_shape_text sh _ _ _) as [s [ur|e]];
      cbn [Py.bind fst snd]; [|reflexivity].
    now rewrite merge_result_delta. }
  destruct (upd_table_cells u) as [|c cs]; [apply Htext|].
  destruct shape as [tf|table|]; [apply Htext| |apply Htext].
  rewrite update_cells_delta.
  destruct (update_cells _ _ _ _ d) as [t d']. reflexivity.
Qed.

Lemma apply_update_delta (u : UpdateInstruction) (prs : Presentation)
  (r d : Results) :
  apply_update u (prs, combine r d)
  = let* x := apply_update u (prs, d) in Return (fst x, combine r (snd x)).
Proof.
  destruct (instruction_cases prs u) as [Hm|[Hv|(slide & shape & Hs & Hh)]].
  - destruct (apply_update_malformed u prs Hm) as (msg & Hr).
    now rewrite !Hr.
  - rewrite !(apply_update_rejected u prs _ Hv). cbn [Py.bind fst snd].
    now rewrite combine_add_error.
  - destruct (apply_update_resolved u prs slide shape Hs Hh)
      as (i & j & _ & _ & Hi & Hj & Hr).
    rewrite !Hr, dispatch_delta.
    destruct (dispatch u shape d) as [x|e]; reflexivity.
Qed.

(** ** The loop *)

Lemma apply_all_app (us vs : list UpdateInstruction)
  (st : Presentation * Results) :
  apply_all (us ++ vs) st = let* st' := apply_all us st in apply_all vs st'.
Proof.
  revert st. induction us as [|u us IH]; intros st; [reflexivity|].
  cbn [app apply_all]. destruct (apply_update u st) as [st'|e];
    cbn [Py.bind]; [apply IH | reflexivity].
Qed.

Lemma apply_all_delta (us : list UpdateInstruction) :
  forall (prs : Presentation) (r d : Results),
    apply_all us (prs, combine r d)
    = let* x := apply_all us (prs, d) in Return (fst x, combine r (snd x)).
Proof.
  induction us as [|u us IH]; intros prs r d; [reflexivity|].
  cbn [apply_all]. rewrite apply_update_delta.
  destruct (apply_update u (prs, d)) as [[p1 d1]|e]; cbn [Py.bind fst snd];
    [apply IH | reflexivity].
Qed.

Lemma apply_all_from_no_results (us : list UpdateInstruction)
  (prs : Presentation) (r : Results) :
  apply_all us (prs, r)
  = let* x := apply_all us (prs, no_results) in
    Return (fst x, combine r (snd x)).
Proof. rewrite <- apply_all_delta. now rewrite combine_no_results. Qed.

Lemma apply_all_skeleton (us : list UpdateInstruction) :
  forall (prs : Presentation) (r : Results) (st : Presentation * Results),
    apply_all us (prs, r) = Return st -> skeleton (fst st) = skeleton prs.
Proof.
  induction us as [|u us IH]; intros prs r st H.
  - now injection H as <-.
  - cbn [apply_all] in H.
    destruct (apply_update u (prs, r)) as [[p1 r1]|e] eqn:E;
      cbn [Py.bind] in H; [|discriminate].
    rewrite (IH _ _ _ H). apply (apply_update_skeleton _ _ _ _ E).
Qed.

(** An instruction that, on every presentation with the skeleton of [prs],
    only records [msg] is isolated in any batch: with or without it the
    same presentation is saved and the same report is returned, up to that
    one entry; and if the batch raises without it, it raises with it. *)
Lemma skipped_instruction_isolated (prs : Presentation) (u : UpdateInstruction)
  (msg : string) (before after : list UpdateInstruction) :
  (forall p r, skeleton p = skeleton prs ->
               apply_update u (p, r) = Return (p, add_error msg r)) ->
  match apply_updates prs (before ++ after) with
  | Return (p, r) =>
      exists r', apply_updates prs (before ++ u :: after) = Return (p, r')
                 /\ one_more_error msg r r'
  | Raise e => apply_updates prs (before ++ u :: after) = Raise e
  end.
Proof.
  intros Hskip. unfold apply_updates. rewrite !apply_all_app.
  destruct (apply_all before (prs, no_results)) as [[p1 r1]|e] eqn:Eb;
    cbn [Py.bind]; [|reflexivity].
  cbn [apply_all].
  rewrite (Hskip p1 r1 (apply_all_skeleton _ _ _ _ Eb)). cbn [Py.bind].
  rewrite (apply_all_from_no_results after p1 r1).
  rewrite (apply_all_from_no_results after p1 (add_error msg r1)).
  destruct (apply_all after (p1, no_results)) as [[p2 d]|e];
    cbn [Py.bind fst snd]; [|reflexivity].
  eexists. split; [reflexivity|]. apply one_more_error_combine.
Qed.

(** A number out of range is isolated in any batch. *)
Lemma rejected_instruction_isolated (prs : Presentation) (u : UpdateInstruction)
  (before after : list UpdateInstruction) :
  rejected prs u = true ->
  match apply_updates prs (before ++ after) with
  | Return (p, r) =>
      exists r', apply_updates prs (before ++ u :: after) = Return (p, r')
                 /\ one_more_error (invalid_index_message prs u) r r'
  | Raise e => apply_updates prs (before ++ u :: after) = Raise e
  end.
Proof.
  intros Hv. apply skipped_instruction_isolated. intros p r Hp.
  rewrite <- (invalid_index_message_skeleton prs), <- Hp,
    invalid_index_message_skeleton.
  apply apply_update_rejected.
  now rewrite <- rejected_skeleton, Hp, rejected_skeleton.
Qed.

(** ** Instructions that are rejected *)

(** C4. An instruction whose slide index is an int outside
    [1, slide_count], or whose shape index is an int outside
    [1, shape_count] of its slide, leaves the presentation as it is and adds
    exactly one error entry and nothing else to the report; in any batch,
    the other instructions are processed as if it were not there: the same
    presentation is saved, [updates_applied] and the warnings are the same,
    the errors are the same but for that one entry. *)
Theorem C4_invalid_index_isolated (prs : Presentation) (u : UpdateInstruction)
  (before after : list UpdateInstruction) :
  invalid_index prs u = true ->
  (forall r, apply_update u (prs, r)
             = Return (prs, add_error (invalid_index_message prs u) r))
  /\ match apply_updates prs (before ++ after) with
     | Return (p, r) =>
         exists r', apply_updates prs (before ++ u :: after) = Return (p, r')
                    /\ one_more_error (invalid_index_message prs u) r r'
     | Raise e => apply_updates prs (before ++ u :: after) = Raise e
     end.
Proof.
  intros Hv. split.
  - intros r. now apply apply_update_invalid_index.
  - now apply rejected_instruction_isolated, invalid_index_rejected.
Qed.

(** Slide 3 of a two-slide deck, between two valid updates. *)
Lemma C4_slide_three_of_two_witness :
  invalid_index Fixtures.deck (Fixtures.text_update (PInt 3) (PInt 1) "x") = true
  /\ (forall r,
        apply_update (Fixtures.text_update (PInt 3) (PInt 1) "x")
                     (Fixtures.deck, r)
        = Return (Fixtures.deck,
                  add_error "Invalid slide number: 3. Template has 2 slides." r))
  /\ match apply_updates Fixtures.deck
             ([Fixtures.text_update (PInt 1) (PInt 1) "one"]
              ++ [Fixtures.text_update (PInt 1) (PInt 1) "two"]) with
     | Return (p, r) =>
         exists r',
           apply_updates Fixtures.deck
             ([Fixtures.text_update (PInt 1) (PInt 1) "one"]
              ++ Fixtures.text_update (PInt 3) (PInt 1) "x"
                 :: [Fixtures.text_update (PInt 1) (PInt 1) "two"])
           = Return (p, r')
           /\ one_more_error "Invalid slide number: 3. Template has 2 slides."
                             r r'
     | Raise e =>
         apply_updates Fixtures.deck
           ([Fixtures.text_update (PInt 1) (PInt 1) "one"]
            ++ Fixtures.text_update (PInt 3) (PInt 1) "x"
               :: [Fixtures.text_update (PInt 1) (PInt 1) "two"])
         = Raise e
     end.
Proof.
  split; [reflexivity|].
  apply (C4_invalid_index_isolated Fixtures.deck
           (Fixtures.text_update (PInt 3) (PInt 1) "x")
           [Fixtures.text_update (PInt 1) (PInt 1) "one"]
           [Fixtures.text_update (PInt 1) (PInt 1) "two"]).
  reflexivity.
Defined.

Example invalid_indices_report :
  apply_updates Fixtures.deck
    [Fixtures.text_update (PInt 0) (PInt 1) "x";
     Fixtures.text_update (PInt 1) (PInt 4) "x";
     Fixtures.text_update (PInt 1) (PInt 1) "0123456789"]
  = Return ([[TextShape Fixtures.title_frame;
              TableShape Fixtures.small_table; OtherShape];
             [TextShape Fixtures.red_frame]],
            {| updates_applied := 1;
               errors := ["Invalid slide number: 0. Template has 2 slides.";
                          "Invalid shape index: 4 on slide 1. Slide has 3 shapes."];
               warnings := [] |}).
Proof. reflexivity. Qed.

(** A shape without text frame: the loop body records the failure of
    [update_shape_text] and writes the untouched shape back. *)
Lemma apply_update_no_text_frame (u : UpdateInstruction) (prs : Presentation)
  (r : Results) :
  targets_no_text_frame prs u = true ->
  apply_update u (prs, r) = Return (prs, add_error (no_text_frame_message u) r).
Proof.
  unfold targets_no_text_frame. rewrite target_skeleton. unfold target.
  destruct (index_in_range prs (upd_slide u)) as [slide|] eqn:Es;
    [|discriminate].
  destruct (index_in_range slide (upd_shape u)) as [shape|] eqn:Eh;
    [|discriminate].
  destruct (apply_update_resolved u prs slide shape Es Eh)
    as (i & j & _ & _ & Hi & Hj & Hr).
  rewrite Hr. clear Hr. intros Hk.
  assert (dispatch u shape r
          = Return (shape, add_error (no_text_frame_message u) r)) as ->.
  { unfold dispatch. destruct shape as [tf|table|]; cbn in Hk.
    - discriminate.
    - destruct (upd_table_cells u); [reflexivity | discriminate].
    - destruct (upd_table_cells u); reflexivity. }
  cbn [Py.bind fst snd]. now rewrite (list_insert_id slide), (list_insert_id prs).
Qed.

Lemma targets_no_text_frame_skeleton (p prs : Presentation)
  (u : UpdateInstruction) :
  skeleton p = skeleton prs ->
  targets_no_text_frame p u = targets_no_text_frame prs u.
Proof. unfold targets_no_text_frame. now intros ->. Qed.

(** C10. When an instruction resolves to a shape without text frame (a
    shape that is neither text nor table, or a table while the instruction
    has no [table_cells]), [update_shape_text] fails with "Shape has no text
    frame" and leaves the shape alone; the report gets the one entry "Slide
    N, Shape M: Shape has no text frame", [updates_applied] is not
    incremented, and the rest of the batch is processed as if the
    instruction were not there. *)
Theorem C10_no_text_frame_recorded (prs : Presentation) (u : UpdateInstruction)
  (before after : list UpdateInstruction) :
  targets_no_text_frame prs u = true ->
  (exists shape,
     target prs u = Some shape
     /\ update_shape_text shape (upd_text u) (upd_preserve_bullets u) true
        = (shape,
           Return {| success := false; error := Some "Shape has no text frame";
                     result_warnings := []; new_length := None;
                     original_length := None |}))
  /\ (forall r, apply_update u (prs, r)
                = Return (prs, add_error (no_text_frame_message u) r))
  /\ match apply_updates prs (before ++ after) with
     | Return (p, r) =>
         exists r', apply_updates prs (before ++ u :: after) = Return (p, r')
                    /\ one_more_error (no_text_frame_message u) r r'
     | Raise e => apply_updates prs (before ++ u :: after) = Raise e
     end.
Proof.
  intros Ht. split; [|split].
  - unfold targets_no_text_frame in Ht. rewrite target_skeleton in Ht.
    destruct (target prs u) as [shape|]; [|discriminate].
    exists shape. split; [reflexivity|].
    destruct shape; [discriminate | reflexivity | reflexivity].
  - intros r. now apply apply_update_no_text_frame.
  - apply skipped_instruction_isolated. intros p r Hp.
    apply apply_update_no_text_frame.
    now rewrite (targets_no_text_frame_skeleton p prs u Hp).
Qed.

(** Shape 2 of slide 1 is a table and the instruction has no
    [table_cells]. *)
Lemma C10_table_without_cells_witness :
  targets_no_text_frame Fixtures.deck
    (Fixtures.text_update (PInt 1) (PInt 2) "x") = true
  /\ apply_updates Fixtures.deck
       [Fixtures.text_update (PInt 1) (PInt 2) "x";
        Fixtures.text_update (PInt 1) (PInt 3) "y";
        Fixtures.text_update (PInt 1) (PInt 1) "0123456789"]
     = Return (Fixtures.deck,
               {| updates_applied := 1;
                  errors := ["Slide 1, Shape 2: Shape has no text frame";
                             "Slide 1, Shape 3: Shape has no text frame"];
                  warnings := [] |})
  /\ forall r,
       apply_update (Fixtures.text_update (PInt 1) (PInt 2) "x")
                    (Fixtures.deck, r)
       = Return (Fixtures.deck,
                 add_error "Slide 1, Shape 2: Shape has no text frame" r).
Proof.
  split; [reflexivity|]. split; [reflexivity|].
  apply (C10_no_text_frame_recorded Fixtures.deck
           (Fixtures.text_update (PInt 1) (PInt 2) "x") [] []).
  reflexivity.
Defined.

(** ** Instructions that are malformed *)

(** C9 as stated fails: a batch whose first instruction has no slide field
    returns no report at all, the second instruction is never reached. *)
Lemma C9_missing_slide_counterexample :
  ~ exists (p : Presentation) (r : Results),
      apply_updates Fixtures.deck
        [Fixtures.text_update PNone (PInt 1) "x";
         Fixtures.text_update (PInt 1) (PInt 1) "y"]
      = Return (p, r).
Proof. intros (p & r & H). discriminate H. Qed.

Example missing_slide_raises :
  apply_updates Fixtures.deck
    [Fixtures.text_update PNone (PInt 1) "x";
     Fixtures.text_update (PInt 1) (PInt 1) "y"]
  = Raise (TypeError "'<' not supported between instances of 'NoneType' and 'int'").
Proof. reflexivity. Qed.

(** A float within the range passes the range test and fails as an index. *)
Example float_slide_raises :
  apply_updates Fixtures.deck
    [Fixtures.text_update Fixtures.one_and_a_half (PInt 1) "x";
     Fixtures.text_update (PInt 1) (PInt 1) "y"]
  = Raise (TypeError "list indices must be integers or slices, not float").
Proof. reflexivity. Qed.

(** A float and [False] outside the range are recorded like an int, and
    [True] is slide 1 and shape 1. *)
Example numbers_out_of_range_are_recorded :
  apply_updates Fixtures.deck
    [Fixtures.text_update Fixtures.ninety_nine_and_a_half (PInt 1) "x";
     Fixtures.text_update (PInt 1) (PBool false) "x";
     Fixtures.text_update (PBool true) (PBool true) "0123456789"]
  = Return (Fixtures.deck,
            {| updates_applied := 1;
               errors := ["Invalid slide number: 99.5. Template has 2 slides.";
                          "Invalid shape index: False on slide 1. Slide has 3 shapes."];
               warnings := [] |}).
Proof. reflexivity. Qed.

(** C9, as the code has it.  Of a slide or shape field that is not an int
    within its range, two things can become.  A field that is no number (the
    key is missing, null, a string, an array, an object) and a float that
    passes the range test (a float within the range, or NaN) make the batch
    raise: no report is returned and nothing is saved; when the
    instructions before it go through, what is raised is a [TypeError].  A
    number outside the range, of any kind (int, float, boolean), is recorded
    as one error entry, the presentation is not touched and the batch goes
    on as if the instruction were not there.  Every instruction of neither
    sort resolves to a shape. *)
Theorem C9_malformed_instruction_aborts (prs : Presentation)
  (u : UpdateInstruction) (before after : list UpdateInstruction) :
  (malformed prs u = true ->
   Py.is_raise (apply_updates prs (before ++ u :: after))
   /\ (forall st, apply_updates prs before = Return st ->
         exists msg,
           apply_updates prs (before ++ u :: after) = Raise (TypeError msg)))
  /\ (rejected prs u = true ->
      (forall r, apply_update u (prs, r)
                 = Return (prs, add_error (invalid_index_message prs u) r))
      /\ match apply_updates prs (before ++ after) with
         | Return (p, r) =>
             exists r', apply_updates prs (before ++ u :: after) = Return (p, r')
                        /\ one_more_error (invalid_index_message prs u) r r'
         | Raise e => apply_updates prs (before ++ u :: after) = Raise e
         end)
  /\ (malformed prs u = true \/ rejected prs u = true
      \/ exists shape, target prs u = Some shape).
Proof.
  split; [|split].
  - intros Hm. unfold apply_updates. rewrite apply_all_app.
    destruct (apply_all before (prs, no_results)) as [[p1 r1]|e] eqn:Eb;
      cbn [Py.bind].
    + assert (malformed p1 u = true) as Hm1.
      { rewrite <- malformed_skeleton.
        rewrite (apply_all_skeleton _ _ _ _ Eb : skeleton p1 = skeleton prs).
        now rewrite malformed_skeleton. }
      destruct (apply_update_malformed u p1 Hm1) as (msg & Hr).
      cbn [apply_all]. rewrite Hr. cbn [Py.bind].
      split; [exact I|]. intros st _. now exists msg.
    + split; [exact I|]. intros st H. discriminate H.
  - intros Hv. split.
    + intros r. now apply apply_update_rejected.
    + now apply rejected_instruction_isolated.
  - destruct (instruction_cases prs u) as [Hm|[Hv|(slide & shape & Hs & Hh)]];
      [now left | now right; left |].
    right. right. exists shape. unfold target. now rewrite Hs.
Qed.

(** A string as shape index raises; the float 99.5 as slide number is
    recorded. *)
Lemma C9_string_shape_witness :
  (malformed Fixtures.deck (Fixtures.text_update (PInt 1) (PStr "2") "x") = true
   /\ Py.is_raise
        (apply_updates Fixtures.deck
           ([Fixtures.text_update (PInt 1) (PInt 1) "y"]
            ++ Fixtures.text_update (PInt 1) (PStr "2") "x"
               :: [Fixtures.text_update (PInt 1) (PInt 1) "z"])))
  /\ (rejected Fixtures.deck
        (Fixtures.text_update Fixtures.ninety_nine_and_a_half (PInt 1) "x") = true
      /\ forall r,
           apply_update
             (Fixtures.text_update Fixtures.ninety_nine_and_a_half (PInt 1) "x")
             (Fixtures.deck, r)
           = Return (Fixtures.deck,
                     add_error
                       "Invalid slide number: 99.5. Template has 2 slides." r)).
Proof.
  split.
  - split; [reflexivity|].
    apply (proj1 (C9_malformed_instruction_aborts Fixtures.deck
                    (Fixtures.text_update (PInt 1) (PStr "2") "x")
                    [Fixtures.text_update (PInt 1) (PInt 1) "y"]
                    [Fixtures.text_update (PInt 1) (PInt 1) "z"])).
    reflexivity.
  - split; [reflexivity|].
    apply (proj1 (proj2 (C9_malformed_instruction_aborts Fixtures.deck
                           (Fixtures.text_update
                              Fixtures.ninety_nine_and_a_half (PInt 1) "x")
                           [] []))).
    reflexivity.
Defined.

(** ** Table cells *)

Lemma zero_based_lt (n : nat) (v : value) (i : nat) :
  zero_based n v = Some i -> i < n /\ Py.as_int v = Some (Z.of_nat i).
Proof.
  unfold zero_based. destruct (Py.as_int v) as [z|]; [|discriminate].
  destruct ((0 <=? z) && (z <? Z.of_nat n))%Z eqn:E; [|discriminate].
  intros [= <-]. apply andb_prop in E. destruct E as [E1 E2].
  apply Z.leb_le in E1. apply Z.ltb_lt in E2.
  split; [lia|]. now rewrite Z2Nat.id.
Qed.

(** The index a collection hands to its list is a valid one or a float. *)
Lemma collection_index_Return (what : string) (n : nat) (v : value) (k : index) :
  collection_index what n v = Return k ->
  match k with
  | IntIndex z =>
      (0 <= z < Z.of_nat n)%Z /\ zero_based n v = Some (Z.to_nat z)
  | FloatIndex => zero_based n v = None
  end.
Proof.
  unfold collection_index, Py.or_else, zero_based.
  destruct v as [|b|z|x shown|s|shown|shown]; cbn; try discriminate.
  - destruct (Z.ltb_spec (Z.b2z b) 0); cbn; [destruct b; discriminate|].
    destruct (Z.geb_spec (Z.b2z b) (Z.of_nat n)); cbn; [destruct b; discriminate|].
    intros [= <-]. split; [lia|].
    destruct (Z.leb_spec 0 (Z.b2z b)), (Z.ltb_spec (Z.b2z b) (Z.of_nat n));
      try lia; reflexivity.
  - destruct (Z.ltb_spec z 0); cbn; [discriminate|].
    destruct (Z.geb_spec z (Z.of_nat n)); cbn; [discriminate|].
    intros [= <-]. split; [lia|].
    destruct (Z.leb_spec 0 z), (Z.ltb_spec z (Z.of_nat n)); try lia; reflexivity.
  - destruct (Py.float_lt x 0); cbn.
    + destruct x as [|neg|m e]; discriminate.
    + destruct (Py.float_ge x (Z.of_nat n)); cbn.
      * destruct x as [|neg|m e]; discriminate.
      * now intros [= <-].
Qed.

Lemma collection_index_zero_based (what : string) (n : nat) (v : value) (i : nat) :
  zero_based n v = Some i ->
  collection_index what n v = Return (IntIndex (Z.of_nat i)).
Proof.
  intros H. destruct (zero_based_lt _ _ _ H) as [Hlt Hv].
  unfold collection_index, Py.or_else.
  destruct v as [|b|z|x shown|s|shown|shown]; try discriminate;
    cbn in Hv; injection Hv as Hv; cbn; rewrite Hv.
  - destruct (Z.ltb_spec (Z.of_nat i) 0); [lia|]. cbn.
    destruct (Z.geb_spec (Z.of_nat i) (Z.of_nat n)); [lia|]. reflexivity.
  - destruct (Z.ltb_spec (Z.of_nat i) 0); [lia|]. cbn.
    destruct (Z.geb_spec (Z.of_nat i) (Z.of_nat n)); [lia|]. reflexivity.
Qed.

(** [collection[v]] returns exactly at the valid indices. *)
Lemma collection_getitem_cases {A} (what : string) (l : list A) (v : value) :
  match collection_getitem what l v with
  | Return (i, x) => zero_based (length l) v = Some i /\ l !! i = Some x
  | Raise _ => zero_based (length l) v = None
  end.
Proof.
  unfold collection_getitem.
  destruct (collection_index what (length l) v) as [k|e] eqn:E; cbn [Py.bind].
  - apply collection_index_Return in E. destruct k as [z|]; cbn [Py.getitem].
    + destruct E as [Hz E]. destruct (Z.ltb_spec z 0); [lia|].
      destruct (Z.ltb_spec z 0); [lia|].
      destruct (l !! Z.to_nat z) as [x|] eqn:Hx; [now split|].
      apply lookup_ge_None in Hx. lia.
    + exact E.
  - destruct (zero_based (length l) v) as [i|] eqn:Ez; [|reflexivity].
    rewrite (collection_index_zero_based what _ _ _ Ez) in E. discriminate.
Qed.

Lemma collection_getitem_Return {A} (what : string) (l : list A) (v : value)
  (i : nat) (x : A) :
  collection_getitem what l v = Return (i, x) ->
  l !! i = Some x /\ zero_based (length l) v = Some i.
Proof.
  intros H. pose proof (collection_getitem_cases what l v) as Hc.
  rewrite H in Hc. tauto.
Qed.

Lemma collection_getitem_valid {A} (what : string) (l : list A) (v : value)
  (i : nat) :
  zero_based (length l) v = Some i ->
  exists x, l !! i = Some x /\ collection_getitem what l v = Return (i, x).
Proof.
  intros E. pose proof (collection_getitem_cases what l v) as Hc.
  destruct (collection_getitem what l v) as [[k x]|e].
  - destruct Hc as [Hk Hx]. rewrite E in Hk. injection Hk as <-. now exists x.
  - congruence.
Qed.













Lemma update_table_cell_dimensions (table : Table) (row col : value)
  (t : string) :
  dimensions (fst (update_table_cell table row col t)) = dimensions table.
Proof.
  unfold update_table_cell, update_table_cell_body.
  destruct (collection_getitem "row" table row) as [[i cells]|e] eqn:Er;
    cbn [Py.bind snd]; [|reflexivity].
  destruct (collection_getitem "cell" cells col) as [[j tf]|e] eqn:Ec;
    cbn [Py.bind]; [|reflexivity].
  apply collection_getitem_Return in Er, Ec.
  destruct Er as [Hi _], Ec as [Hj _].
  destruct (update_cell_text t tf) as [tf' o].
  assert (dimensions (<[i := <[j := tf']> cells]> table) = dimensions table).
  { unfold dimensions. rewrite list_fmap_insert, length_insert.
    apply list_insert_id. now rewrite list_lookup_fmap, Hi. }
  destruct o; assumption.
Qed.



Lemma update_cells_dimensions (s h : value) (cs : list CellUpdate) :
  forall (table : Table) (r : Results),
    dimensions (fst (update_cells s h cs table r)) = dimensions table.
Proof.
  induction cs as [|c cs IH]; intros table r; [reflexivity|].
  cbn [update_cells].
  pose proof (update_table_cell_dimensions table (cu_row c) (cu_column c)
                (cu_text c)) as Hd.
  destruct (update_table_cell table _ _ _) as [t cr]. cbn [fst] in Hd.
  now rewrite IH.
Qed.

Lemma update_cells_from_no_results (s h : value) (cs : list CellUpdate)
  (table : Table) (r : Results) :
  update_cells s h cs table r
  = (fst (update_cells s h cs table no_results),
     combine r (snd (update_cells s h cs table no_results))).
Proof. rewrite <- update_cells_delta. now rewrite combine_no_results. Qed.

(** One step of the loop over [table_cells]. *)
Lemma update_cells_cons (s h : value) (c : CellUpdate) (cs : list CellUpdate)
  (table : Table) (r : Results) :
  let step := update_table_cell table (cu_row c) (cu_column c) (cu_text c) in
  update_cells s h (c :: cs) table r
  = (fst (update_cells s h cs (fst step) no_results),
     combine (if cell_success (snd step) then applied_one r
              else add_error (cell_error_message s h (snd step)) r)
             (snd (update_cells s h cs (fst step) no_results))).
Proof.
  cbv zeta. cbn [update_cells].
  destruct (update_table_cell table _ _ _) as [t cr]. cbn [fst snd].
  apply update_cells_from_no_results.
Qed.

(** Whatever [update_table_cell] catches, the fan-out goes on: every entry
    yields exactly one count or one error entry. *)
Lemma update_cells_accounts_for_every_entry (s h : value)
  (cs : list CellUpdate) :
  forall (table : Table),
    let d := snd (update_cells s h cs table no_results) in
    updates_applied d + length (errors d) = length cs /\ warnings d = [].
Proof.
  induction cs as [|c cs IH]; intros table; [split; reflexivity|].
  cbv zeta. rewrite update_cells_cons. cbn [snd].
  destruct (IH (fst (update_table_cell table (cu_row c) (cu_column c)
                       (cu_text c)))) as [Hn Hw].
  cbv zeta in Hn, Hw.
  destruct (cell_success _); unfold combine; cbn; rewrite Hw;
    (split; [|reflexivity]); lia.
Qed.




(** The example of section 8: column 5 of a two-column table, next to a
    valid entry. *)
Example bad_column_then_sibling :
  update_cells (PInt 1) (PInt 2)
    [Fixtures.cell_update 0 5 "bad"; Fixtures.cell_update 0 1 "good"]
    Fixtures.small_table no_results
  = ([[Fixtures.cell_frame "a"; Fixtures.cell_frame "good"]],
     {| updates_applied := 1;
        errors := ["Slide 1, Shape 2, Cell (0,5): cell index [5] out of range"];
        warnings := [] |}).
Proof. reflexivity. Qed.

(** The same two entries through [apply_updates]. *)
Example table_fan_out_report :
  apply_updates Fixtures.deck
    [{| upd_slide := PInt 1; upd_shape := PInt 2; upd_text := "";
        upd_preserve_bullets := true;
        upd_table_cells := [Fixtures.cell_update 0 5 "bad";
                            Fixtures.cell_update 0 1 "good"] |}]
  = Return ([[TextShape Fixtures.title_frame;
              TableShape [[Fixtures.cell_frame "a"; Fixtures.cell_frame "good"]];
              OtherShape];
             [TextShape Fixtures.red_frame]],
            {| updates_applied := 1;
               errors := ["Slide 1, Shape 2, Cell (0,5): cell index [5] out of range"];
               warnings := [] |}).
Proof. reflexivity. Qed.

(** Line 103 has the assignment of line 256, inside the [try]: a cell whose
    first run has a colour is rewritten and then reported as failed. *)
Example colored_cell_reported_as_failed :
  update_table_cell Fixtures.red_table (PInt 0) (PInt 0) "new"
  = ([[ {| paragraphs :=
             [Fixtures.paragraph_of [Fixtures.plain_run "new"] 0] |} ]],
     {| cell_success := false;
        cell_error := Some "assigned value must be type RGBColor";
        cell := "(0,0)" |}).
Proof. reflexivity. Qed.

(** A row given as a float or as a string is caught as well. *)
Example float_row_reported_as_failed :
  snd (update_table_cell Fixtures.small_table Fixtures.one_and_a_half (PInt 0) "x")
  = {| cell_success := false;
       cell_error := Some "row index [1] out of range";
       cell := "(1.5,0)" |}
  /\ snd (update_table_cell Fixtures.small_table (PStr "0") (PInt 0) "x")
     = {| cell_success := false;
          cell_error := Some "'<' not supported between instances of 'str' and 'int'";
          cell := "(0,0)" |}.
Proof. split; reflexivity. Qed.

(** ** Applying an instruction twice *)

Lemma new_run_color (s : Snapshot) (t : string) :
  color (run_font (new_run s t)) = ColorNone.
Proof. reflexivity. Qed.

(** A second update of the same shape returns when the first one did. *)
Lemma update_shape_text_again_returns (shape : Shape) (t : string) (pb w : bool)
  (ur : UpdateResult) :
  snd (update_shape_text shape t pb w) = Return ur ->
  exists ur',
    snd (update_shape_text (fst (update_shape_text shape t pb w)) t pb w)
    = Return ur'.
Proof.
  destruct shape as [tf| |]; [|intros _; eexists; reflexivity..].
  rewrite update_shape_text_frame, update_shape_text_outcome.
  intros H. rewrite update_shape_text_outcome.
  destruct (bullet_preserving pb t).
  - destruct (paragraphs tf) as [|p ps] eqn:E.
    + unfold bullet_mode in H. rewrite E in H.
      pose proof (split_not_nil Py.newline t) as Hne.
      destruct (Py.split Py.newline t); [congruence | discriminate].
    + rewrite bullet_mode_returns; [eexists; reflexivity|].
      apply bullet_mode_not_empty. rewrite E. discriminate.
  - unfold single_paragraph_mode in *.
    destruct (paragraphs tf) as [|p ps] eqn:E; [discriminate|].
    destruct (original_font_color (capture_formatting tf)) as [c|] eqn:Ec;
      [discriminate|].
    cbn. eexists. reflexivity.
Qed.

Lemma extracted_text_store (prs : Presentation) (i j : nat) (slide : Slide)
  (shape shape' : Shape) :
  prs !! i = Some slide -> slide !! j = Some shape ->
  extract_text_from_shape shape' = extract_text_from_shape shape ->
  extracted_text (<[i := <[j := shape']> slide]> prs) = extracted_text prs.
Proof.
  intros Hi Hj Hk. unfold extracted_text.
  rewrite !list_fmap_insert. apply list_insert_id.
  rewrite list_lookup_fmap, Hi. cbn. f_equal. symmetry. apply list_insert_id.
  rewrite list_lookup_fmap, Hj. cbn. now rewrite Hk.
Qed.

Lemma index_in_range_insert {A} (l : list A) (v : value) (i : nat) (y : A) :
  position (length l) v = Some i ->
  index_in_range (<[i := y]> l) v = Some y.
Proof.
  intros Hp. unfold index_in_range. rewrite length_insert, Hp.
  apply list_lookup_insert_eq. now apply position_lt in Hp.
Qed.

(** [dispatch] a second time, on the shape the first call left. *)
Lemma dispatch_twice (u : UpdateInstruction) (shape : Shape) (r r' : Results)
  (updated : Shape * Results) :
  dispatch u shape r = Return updated ->
  exists updated',
    dispatch u (fst updated) r' = Return updated'
    /\ extract_text_from_shape (fst updated')
       = extract_text_from_shape (fst updated).
Proof.
  assert (forall sh : Shape,
    (let '(shape, o) :=
       update_shape_text sh (upd_text u) (upd_preserve_bullets u) true in
     let* update_result := o in
     Return (shape, merge_result (upd_slide u) (upd_shape u) update_result r))
    = Return updated ->
    exists updated',
      (let '(shape, o) :=
         update_shape_text (fst updated) (upd_text u)
                           (upd_preserve_bullets u) true in
       let* update_result := o in
       Return (shape, merge_result (upd_slide u) (upd_shape u)
                                   update_result r'))
      = Return updated'
      /\ extract_text_from_shape (fst updated')
         = extract_text_from_shape (fst updated)) as Htext.
  { clear. intros sh H.
    pose proof (update_shape_text_again_returns sh (upd_text u)
                  (upd_preserve_bullets u) true) as Hagain.
    pose proof (update_shape_text_twice sh (upd_text u)
                  (upd_preserve_bullets u) true) as Htwice.
    cbv zeta in Htwice.
    destruct (update_shape_text sh _ _ _) as [s1 [ur|e]];
      cbn [Py.bind fst snd] in *; [|discriminate].
    injection H as <-. cbn [fst].
    destruct (Hagain ur eq_refl) as (ur' & Hur').
    destruct (update_shape_text s1 _ _ _) as [s2 o2].
    cbn [fst snd] in *. subst o2. cbn [Py.bind].
    eexists. split; [reflexivity | exact Htwice]. }
  intros H. pose proof (dispatch_kind u shape r updated H) as Hk.
  unfold dispatch in *.
  destruct (upd_table_cells u) as [|c cs]; [exact (Htext shape H)|].
  destruct updated as [s1 r1]. cbn [fst] in Hk |- *.
  destruct shape as [tf|table|].
  - destruct s1; try discriminate Hk. exact (Htext (TextShape tf) H).
  - destruct s1 as [|t1|]; try discriminate Hk.
    destruct (update_cells _ _ _ t1 r') as [t2 r2].
    eexists. split; reflexivity.
  - destruct s1; try discriminate Hk. exact (Htext OtherShape H).
Qed.

Lemma apply_update_twice (u : UpdateInstruction) (prs : Presentation)
  (r : Results) (st : Presentation * Results) :
  apply_update u (prs, r) = Return st ->
  exists st',
    apply_update u st = Return st'
    /\ extracted_text (fst st') = extracted_text (fst st).
Proof.
  intros H.
  destruct (instruction_cases prs u) as [Hm|[Hv|(slide & shape & Hs & Hh)]].
  - destruct (apply_update_malformed u prs Hm) as (msg & Hr).
    rewrite Hr in H. discriminate.
  - rewrite (apply_update_rejected u prs r Hv) in H. injection H as <-.
    rewrite (apply_update_rejected u prs _ Hv).
    eexists. split; reflexivity.
  - destruct (apply_update_resolved u prs slide shape Hs Hh)
      as (i & j & Hpi & Hpj & Hi & Hj & Hr).
    rewrite Hr in H. destruct (dispatch u shape r) as [[shape1 r1]|e] eqn:Ed;
      cbn [Py.bind] in H; [|discriminate].
    injection H as <-. cbn [fst snd].
    set (slide1 := <[j := shape1]> slide).
    assert (index_in_range (<[i := slide1]> prs) (upd_slide u) = Some slide1)
      as Hs1 by (now apply index_in_range_insert).
    assert (index_in_range slide1 (upd_shape u) = Some shape1)
      as Hh1 by (now apply index_in_range_insert).
    destruct (apply_update_resolved u _ slide1 shape1 Hs1 Hh1)
      as (i' & j' & Hpi' & Hpj' & Hi1 & Hj1 & Hr1).
    rewrite length_insert in Hpi'. unfold slide1 in Hpj'.
    rewrite length_insert in Hpj'.
    assert (i' = i) as -> by congruence. assert (j' = j) as -> by congruence.
    rewrite Hr1.
    destruct (dispatch_twice u shape r r1 _ Ed) as ([shape2 r2] & Hd2 & Ht).
    cbn [fst snd] in Hd2, Ht. rewrite Hd2. cbn [Py.bind fst snd].
    eexists. split; [reflexivity|]. cbn [fst].
    now apply (extracted_text_store _ _ _ slide1 shape1).
Qed.

(** C8. Applying the same instruction twice gives the text of applying it
    once.  On a single shape: whatever the text and the flags, the text
    read back after a second [update_shape_text] is the text after the
    first (the second call replaces, it does not append).  Through the
    dispatcher: when a batch with the instruction once returns, the batch
    with the instruction twice returns too, and every shape of every slide
    reads the same text in both saved presentations. *)
Theorem C8_same_instruction_twice (prs : Presentation) (u : UpdateInstruction) :
  (forall shape pb w,
     extract_text_from_shape
       (fst (update_shape_text (fst (update_shape_text shape (upd_text u) pb w))
                               (upd_text u) pb w))
     = extract_text_from_shape
         (fst (update_shape_text shape (upd_text u) pb w)))
  /\ (forall p1 r1,
        apply_updates prs [u] = Return (p1, r1) ->
        exists p2 r2,
          apply_updates prs [u; u] = Return (p2, r2)
          /\ extracted_text p2 = extracted_text p1).
Proof.
  split.
  - intros shape pb w. apply update_shape_text_twice.
  - intros p1 r1 H. unfold apply_updates in *. cbn [apply_all] in *.
    destruct (apply_update u (prs, no_results)) as [st|e] eqn:E;
      cbn [Py.bind] in *; [|discriminate].
    injection H as ->.
    destruct (apply_update_twice u prs no_results _ E) as ([p2 r2] & E2 & Ht).
    rewrite E2. now exists p2, r2.
Qed.

Example same_instruction_twice :
  apply_updates Fixtures.deck
    [Fixtures.text_update (PInt 1) (PInt 1) Fixtures.abc;
     Fixtures.text_update (PInt 1) (PInt 1) Fixtures.abc]
  = (let* st :=
       apply_updates Fixtures.deck
         [Fixtures.text_update (PInt 1) (PInt 1) Fixtures.abc] in
     Return (fst st, applied_one (snd st))).
Proof. reflexivity. Qed.

(** The three-line text applied twice to the title of slide 1. *)
Lemma C8_three_lines_twice_witness :
  exists p1 r1,
    apply_updates Fixtures.deck
      [Fixtures.text_update (PInt 1) (PInt 1) Fixtures.abc] = Return (p1, r1)
    /\ exists p2 r2,
         apply_updates Fixtures.deck
           [Fixtures.text_update (PInt 1) (PInt 1) Fixtures.abc;
            Fixtures.text_update (PInt 1) (PInt 1) Fixtures.abc]
         = Return (p2, r2)
         /\ extracted_text p2 = extracted_text p1.
Proof.
  eexists _, _. split; [reflexivity|].
  eapply (proj2 (C8_same_instruction_twice Fixtures.deck
                  (Fixtures.text_update (PInt 1) (PInt 1) Fixtures.abc))).
  reflexivity.
Defined.

(** * Further properties of the update engine *)

(** ** The text an update leaves *)

Lemma contains_append (c : ascii) (a b : string) :
  Py.contains c (a +:+ b) = Py.contains c a || Py.contains c b.
Proof.
  induction a as [|d a IH]; [reflexivity|].
  simpl. destruct (Ascii.eqb d c); [reflexivity | exact IH].
Qed.

Lemma join_two_contains (c : ascii) (x y : string) (l : list string) :
  Py.contains c (Py.join (String c EmptyString) (x :: y :: l)) = true.
Proof.
  change (Py.join (String c "") (x :: y :: l))
    with (x +:+ String c "" +:+ Py.join (String c "") (y :: l)).
  rewrite !contains_append. cbn. rewrite Ascii.eqb_refl.
  now rewrite orb_true_r.
Qed.

(** X1. Writing back the text a shape already has, with [preserve_bullets]
    on, leaves the text of the shape as it was, however many paragraphs the
    shape has, provided the text has none of the control characters that a
    run stores escaped (a line break inside a paragraph reads as one of
    them, the vertical tab). *)
Theorem X1_text_round_trip (tf : TextFrame) (w : bool) :
  has_ctrl_chars (text_frame_text tf) = false ->
  extract_text_from_shape
    (fst (update_shape_text (TextShape tf) (text_frame_text tf) true w))
  = text_frame_text tf.
Proof.
  intros Hclean.
  rewrite update_shape_text_frame. unfold bullet_preserving. cbn [andb].
  cbn [extract_text_from_shape].
  destruct (Py.contains Py.newline (text_frame_text tf)) eqn:E.
  - rewrite text_frame_text_bullet; [now apply escape_clean|].
    intros Hp. unfold text_frame_text in E. rewrite Hp in E. discriminate.
  - destruct (paragraphs tf) as [|p ps] eqn:Ep.
    + unfold single_paragraph_mode. now rewrite Ep.
    + destruct ps as [|q qs].
      * unfold text_frame_text at 1.
        rewrite (text_frame_text_single _ _ _ _ _ Ep).
        rewrite (escape_clean _ Hclean). reflexivity.
      * unfold text_frame_text in E. rewrite Ep in E. cbn [map] in E.
        fold Py.newline in E.
        now rewrite (join_two_contains Py.newline) in E.
Qed.

Lemma X1_two_paragraphs_witness :
  has_ctrl_chars (text_frame_text Fixtures.plain_frame) = false
  /\ extract_text_from_shape
       (fst (update_shape_text (TextShape Fixtures.plain_frame)
                               (text_frame_text Fixtures.plain_frame) true true))
     = "first" +:+ Fixtures.lf +:+ "second".
Proof.
  split; [reflexivity|].
  exact (X1_text_round_trip Fixtures.plain_frame true eq_refl).
Defined.

(** A line break inside a paragraph does not survive the round trip: it is
    read as a vertical tab and written back escaped. *)
Example line_break_round_trip :
  text_frame_text Fixtures.broken_line_frame
    = "ab" +:+ String vertical_tab "cd"
  /\ extract_text_from_shape
       (fst (update_shape_text (TextShape Fixtures.broken_line_frame)
               (text_frame_text Fixtures.broken_line_frame) true true))
     = "ab_x000B_cd".
Proof. split; reflexivity. Qed.

(** X2. The text read back from a shape with paragraphs after an update.
    What is stored is [new_text] with its control characters escaped.  In
    the bullet branch the text is that; in the simple branch it is that
    followed by the text of the paragraphs that were behind the first one,
    so it is the stored [new_text] alone exactly when the shape had one
    paragraph. *)
Theorem X2_text_after_update (tf : TextFrame) (new_text : string) (pb w : bool)
  (p : Paragraph) (ps : list Paragraph) :
  paragraphs tf = p :: ps ->
  extract_text_from_shape (fst (update_shape_text (TextShape tf) new_text pb w))
  = if bullet_preserving pb new_text then escape_ctrl_chars new_text
    else Py.join (String Py.newline EmptyString)
                 (escape_ctrl_chars new_text :: map paragraph_text ps).
Proof.
  intros Ep. rewrite update_shape_text_frame. cbn [extract_text_from_shape].
  destruct (bullet_preserving pb new_text).
  - apply text_frame_text_bullet. rewrite Ep. discriminate.
  - unfold text_frame_text. now rewrite (text_frame_text_single _ _ _ _ _ Ep).
Qed.

(** A two-paragraph shape without colour: the update returns, and the
    second paragraph is still read after the new text. *)
Lemma X2_trailing_text_witness :
  paragraphs Fixtures.plain_frame
  = Fixtures.paragraph_of [Fixtures.plain_run "first"] 1
    :: [Fixtures.paragraph_of [Fixtures.plain_run "second"] 0]
  /\ snd (update_shape_text (TextShape Fixtures.plain_frame) "Hi" false true)
     = Return {| success := true; error := None; result_warnings := [];
                 new_length := Some 2%Z; original_length := Some 12%Z |}
  /\ extract_text_from_shape
       (fst (update_shape_text (TextShape Fixtures.plain_frame) "Hi" false true))
     = "Hi" +:+ Fixtures.lf +:+ "second".
Proof.
  split; [reflexivity|]. split; [reflexivity|].
  exact (X2_text_after_update Fixtures.plain_frame "Hi" false true _ _ eq_refl).
Defined.

(** ** The formatting an update leaves *)














(** A preset colour is captured, cannot be copied, and leaves a scheme
    colour without value on every new run: that is what the next update
    captures. *)
Example preset_color_not_recaptured :
  original_font_color (capture_formatting Fixtures.preset_frame)
    = Some ColorPreset
  /\ match fst (update_shape_text (TextShape Fixtures.preset_frame)
                                  Fixtures.abc true true) with
     | TextShape tf' =>
         original_font_color (capture_formatting tf') = Some ColorSchemeEmpty
     | _ => False
     end.
Proof. split; reflexivity. Qed.

(** ** A cell update on a cell of the table *)

Lemma zero_based_of_nat (n i : nat) :
  i < n -> zero_based n (PInt (Z.of_nat i)) = Some i.
Proof.
  intros Hi. cbn [zero_based Py.as_int].
  destruct (Z.leb_spec 0 (Z.of_nat i)); [|lia].
  destruct (Z.ltb_spec (Z.of_nat i) (Z.of_nat n)); [|lia].
  cbn [andb]. now rewrite Nat2Z.id.
Qed.

Lemma collection_getitem_at {A} (what : string) (l : list A) (i : nat) (x : A) :
  l !! i = Some x ->
  collection_getitem what l (PInt (Z.of_nat i)) = Return (i, x).
Proof.
  intros Hx.
  destruct (collection_getitem_valid what l (PInt (Z.of_nat i)) i)
    as (y & Hy & ->); [apply zero_based_of_nat; now apply lookup_lt_Some in Hx|].
  congruence.
Qed.

(** On a cell of the table, [update_table_cell] is [update_cell_text] on the
    text frame of that cell, written back in place. *)
Lemma update_table_cell_at (table : Table) (i j : nat) (cells : list TextFrame)
  (tf : TextFrame) (t : string) :
  table !! i = Some cells -> cells !! j = Some tf ->
  update_table_cell_body table (PInt (Z.of_nat i)) (PInt (Z.of_nat j)) t
  = (<[i := <[j := fst (update_cell_text t tf)]> cells]> table,
     snd (update_cell_text t tf)).
Proof.
  intros Hi Hj. unfold update_table_cell_body.
  rewrite (collection_getitem_at "row" table i cells Hi). cbn [Py.bind snd].
  rewrite (collection_getitem_at "cell" cells j tf Hj). cbn [Py.bind].
  destruct (update_cell_text t tf). reflexivity.
Qed.

Lemma cell_frame_at_store_eq (table : Table) (i j : nat)
  (cells : list TextFrame) (tf tf' : TextFrame) :
  table !! i = Some cells -> cells !! j = Some tf ->
  cell_frame_at (<[i := <[j := tf']> cells]> table) i j = Some tf'.
Proof.
  intros Hi Hj. unfold cell_frame_at.
  rewrite list_lookup_insert_eq by (now apply lookup_lt_Some in Hi).
  apply list_lookup_insert_eq. now apply lookup_lt_Some in Hj.
Qed.

Lemma cell_frame_at_store_ne (table : Table) (i j i' j' : nat)
  (cells : list TextFrame) (tf' : TextFrame) :
  table !! i = Some cells -> (i', j') <> (i, j) ->
  cell_frame_at (<[i := <[j := tf']> cells]> table) i' j'
  = cell_frame_at table i' j'.
Proof.
  intros Hi Hne. unfold cell_frame_at.
  destruct (decide (i = i')) as [<-|Hii].
  - rewrite list_lookup_insert_eq by (now apply lookup_lt_Some in Hi).
    rewrite Hi. apply list_lookup_insert_ne. congruence.
  - now rewrite list_lookup_insert_ne.
Qed.

(** X5. A cell update on an existing cell whose text frame has a paragraph
    and whose first run carries no colour succeeds; afterwards the cell
    holds exactly one paragraph, whose content is one run that holds the new
    text, control characters escaped, whatever the cell held before; every
    other cell of the table is the cell it was. *)
Theorem X5_cell_update_rewrites_one_cell (table : Table) (i j : nat) (tf : TextFrame)
  (t : string) :
  cell_frame_at table i j = Some tf ->
  paragraphs tf <> [] ->
  original_font_color (capture_formatting tf) = None ->
  exists table' tf' p,
    update_table_cell table (PInt (Z.of_nat i)) (PInt (Z.of_nat j)) t
    = (table', {| cell_success := true; cell_error := None;
                  cell := cell_descriptor (PInt (Z.of_nat i))
                                          (PInt (Z.of_nat j)) |})
    /\ cell_frame_at table' i j = Some tf'
    /\ paragraphs tf' = [p]
    /\ single_run_with (escape_ctrl_chars t) p
    /\ text_frame_text tf' = escape_ctrl_chars t
    /\ forall i' j', (i', j') <> (i, j) ->
         cell_frame_at table' i' j' = cell_frame_at table i' j'.
Proof.
  unfold cell_frame_at at 1. intros Hc Hp Hcol.
  destruct (table !! i) as [cells|] eqn:Hi; [|discriminate].
  unfold update_table_cell.
  rewrite (update_table_cell_at table i j cells tf t Hi Hc).
  unfold update_cell_text. rewrite Hcol.
  destruct (paragraphs tf) as [|p ps]; [congruence|].
  cbn [assign_color fst snd].
  eexists _, _, _. split; [reflexivity|].
  split; [now apply (cell_frame_at_store_eq table i j cells tf)|].
  split; [reflexivity|].
  split; [eexists; split; reflexivity|].
  split; [reflexivity|].
  intros i' j' Hne. now apply cell_frame_at_store_ne.
Qed.

Lemma X5_second_column_witness :
  cell_frame_at Fixtures.small_table 0 1 = Some (Fixtures.cell_frame "b")
  /\ paragraphs (Fixtures.cell_frame "b") <> []
  /\ original_font_color (capture_formatting (Fixtures.cell_frame "b")) = None
  /\ exists table' tf' p,
       update_table_cell Fixtures.small_table (PInt (Z.of_nat 0))
                         (PInt (Z.of_nat 1)) "good"
       = (table', {| cell_success := true; cell_error := None;
                     cell := cell_descriptor (PInt (Z.of_nat 0))
                                             (PInt (Z.of_nat 1)) |})
       /\ cell_frame_at table' 0 1 = Some tf'
       /\ paragraphs tf' = [p]
       /\ single_run_with (escape_ctrl_chars "good") p
       /\ text_frame_text tf' = escape_ctrl_chars "good"
       /\ forall i' j', (i', j') <> (0, 1) ->
            cell_frame_at table' i' j' = cell_frame_at Fixtures.small_table i' j'.
Proof.
  split; [reflexivity|]. split; [discriminate|]. split; [reflexivity|].
  apply (X5_cell_update_rewrites_one_cell Fixtures.small_table 0 1
           (Fixtures.cell_frame "b") "good");
    [reflexivity | discriminate | reflexivity].
Defined.

(** X6. A cell update on an existing cell whose first run has a colour is
    reported as failed, with the message of the colour setter, although the
    cell has been rewritten by then: it holds the new text, control
    characters escaped, and the colour is gone.  No other cell is
    touched. *)
Theorem X6_colored_cell_rewritten_and_failed (table : Table) (i j : nat)
  (tf : TextFrame) (t : string) (c : ColorFormat) :
  cell_frame_at table i j = Some tf ->
  original_font_color (capture_formatting tf) = Some c ->
  exists table' tf',
    update_table_cell table (PInt (Z.of_nat i)) (PInt (Z.of_nat j)) t
    = (table', {| cell_success := false;
                  cell_error := Some "assigned value must be type RGBColor";
                  cell := cell_descriptor (PInt (Z.of_nat i))
                                          (PInt (Z.of_nat j)) |})
    /\ cell_frame_at table' i j = Some tf'
    /\ text_frame_text tf' = escape_ctrl_chars t
    /\ original_font_color (capture_formatting tf') = None
    /\ forall i' j', (i', j') <> (i, j) ->
         cell_frame_at table' i' j' = cell_frame_at table i' j'.
Proof.
  unfold cell_frame_at at 1. intros Hc Hcol.
  destruct (table !! i) as [cells|] eqn:Hi; [|discriminate].
  unfold update_table_cell.
  rewrite (update_table_cell_at table i j cells tf t Hi Hc).
  unfold update_cell_text. rewrite Hcol.
  destruct (paragraphs tf) as [|p ps] eqn:Ep.
  { unfold capture_formatting in Hcol. rewrite Ep in Hcol. discriminate. }
  cbn [assign_color set_rgb fst snd].
  eexists _, _. split; [reflexivity|].
  split; [now apply (cell_frame_at_store_eq table i j cells tf)|].
  split; [reflexivity|]. split; [reflexivity|].
  intros i' j' Hne. now apply cell_frame_at_store_ne.
Qed.

Lemma X6_red_cell_witness :
  cell_frame_at Fixtures.red_table 0 0
  = Some {| paragraphs := [Fixtures.paragraph_of [Fixtures.red_run "a"] 0] |}
  /\ original_font_color
       (capture_formatting
          {| paragraphs := [Fixtures.paragraph_of [Fixtures.red_run "a"] 0] |})
     = Some Fixtures.red
  /\ exists table' tf',
       update_table_cell Fixtures.red_table (PInt (Z.of_nat 0))
                         (PInt (Z.of_nat 0)) "new"
       = (table', {| cell_success := false;
                     cell_error := Some "assigned value must be type RGBColor";
                     cell := cell_descriptor (PInt (Z.of_nat 0))
                                             (PInt (Z.of_nat 0)) |})
       /\ cell_frame_at table' 0 0 = Some tf'
       /\ text_frame_text tf' = escape_ctrl_chars "new"
       /\ original_font_color (capture_formatting tf') = None
       /\ forall i' j', (i', j') <> (0, 0) ->
            cell_frame_at table' i' j' = cell_frame_at Fixtures.red_table i' j'.
Proof.
  split; [reflexivity|]. split; [reflexivity|].
  apply (X6_colored_cell_rewritten_and_failed Fixtures.red_table 0 0
           {| paragraphs := [Fixtures.paragraph_of [Fixtures.red_run "a"] 0] |}
           "new" Fixtures.red); reflexivity.
Defined.

(** ** The report of a batch *)

Lemma update_shape_text_at_most_one_warning (shape shape' : Shape) (t : string)
  (pb w : bool) (ur : UpdateResult) :
  update_shape_text shape t pb w = (shape', Return ur) ->
  length (result_warnings ur) <= 1.
Proof.
  destruct shape as [tf| |]; try (intros [= _ <-]; cbn; lia).
  intros H. rewrite (update_shape_text_warnings _ _ _ _ _ _ H).
  destruct (w && overflows _ _); cbn; lia.
Qed.

Lemma dispatch_accounting (u : UpdateInstruction) (shape : Shape)
  (r : Results) (updated : Shape * Results) :
  dispatch u shape r = Return updated ->
  updates_applied (snd updated) + length (errors (snd updated))
  = updates_applied r + length (errors r)
    + match kind_of shape, upd_table_cells u with
      | KTable, _ :: _ => length (upd_table_cells u)
      | _, _ => 1
      end
  /\ length (warnings (snd updated)) + updates_applied r
     <= length (warnings r) + updates_applied (snd updated).
Proof.
  unfold dispatch.
  assert (forall sh : Shape,
    (let '(shape, o) :=
       update_shape_text sh (upd_text u) (upd_preserve_bullets u) true in
     let* update_result := o in
     Return (shape, merge_result (upd_slide u) (upd_shape u) update_result r))
    = Return updated ->
    updates_applied (snd updated) + length (errors (snd updated))
    = updates_applied r + length (errors r) + 1
    /\ length (warnings (snd updated)) + updates_applied r
       <= length (warnings r) + updates_applied (snd updated)) as Htext.
  { intros sh H.
    pose proof (fun s' => update_shape_text_at_most_one_warning sh s'
                  (upd_text u) (upd_preserve_bullets u) true) as Hw.
    destruct (update_shape_text sh _ _ _) as [s1 [ur|e]];
      cbn [Py.bind] in H; [|discriminate].
    injection H as <-. specialize (Hw s1 ur eq_refl).
    unfold merge_result. destruct (success ur); cbn.
    - rewrite length_app, length_map. lia.
    - rewrite length_app. cbn. lia. }
  intros H. destruct (upd_table_cells u) as [|c cs] eqn:Ec.
  - destruct (kind_of shape); exact (Htext shape H).
  - destruct shape as [tf|table|]; cbn [kind_of];
      [exact (Htext (TextShape tf) H) | | exact (Htext OtherShape H)].
    clear Htext.
    pose proof (update_cells_from_no_results (upd_slide u) (upd_shape u)
                  (c :: cs) table r) as Hd.
    pose proof (update_cells_accounts_for_every_entry (upd_slide u)
                  (upd_shape u) (c :: cs) table) as Ha.
    cbv zeta in Ha.
    destruct (update_cells (upd_slide u) (upd_shape u) (c :: cs) table
                           no_results) as [t0 d0].
    rewrite Hd in H. injection H as <-. cbn [fst snd] in *.
    destruct Ha as [Hn Hwn].
    unfold combine. cbn [updates_applied errors warnings].
    rewrite Hwn, app_nil_r, length_app. lia.
Qed.

Lemma entries_skeleton (p prs : Presentation) (u : UpdateInstruction) :
  skeleton p = skeleton prs -> entries p u = entries prs u.
Proof. unfold entries. now intros ->. Qed.

Lemma apply_update_accounting (u : UpdateInstruction) (prs : Presentation)
  (r : Results) (st : Presentation * Results) :
  apply_update u (prs, r) = Return st ->
  updates_applied (snd st) + length (errors (snd st))
  = updates_applied r + length (errors r) + entries prs u
  /\ length (warnings (snd st)) + updates_applied r
     <= length (warnings r) + updates_applied (snd st).
Proof.
  intros H. unfold entries. rewrite target_skeleton.
  destruct (instruction_cases prs u) as [Hm|[Hv|(slide & shape & Hs & Hh)]].
  - destruct (apply_update_malformed u prs Hm) as (msg & Hr).
    rewrite Hr in H. discriminate.
  - rewrite (apply_update_rejected u prs r Hv) in H. injection H as <-.
    rewrite (proj2 (instruction_sorts_exclusive prs u) Hv).
    cbn. rewrite length_app. cbn. lia.
  - destruct (apply_update_resolved u prs slide shape Hs Hh)
      as (i & j & _ & _ & Hi & Hj & Hr).
    rewrite Hr in H. destruct (dispatch u shape r) as [updated|e] eqn:Ed;
      cbn [Py.bind] in H; [|discriminate].
    injection H as <-. cbn [snd].
    assert (target prs u = Some shape) as -> by (unfold target; now rewrite Hs).
    cbn [fmap option_fmap option_map].
    pose proof (dispatch_accounting u shape r updated Ed) as Ha.
    destruct (kind_of shape); exact Ha.
Qed.

(** X7. In the report of a batch that returns, every instruction is
    accounted for exactly once: [updates_applied] plus the number of error
    entries is the number of instructions, an instruction routed to the
    table branch counting for each of its cell entries; and there are never
    more warnings than applied updates. *)
Theorem X7_report_accounts_for_every_instruction (prs p : Presentation)
  (updates : list UpdateInstruction) (r : Results) :
  apply_updates prs updates = Return (p, r) ->
  updates_applied r + length (errors r) = sum_list (map (entries prs) updates)
  /\ length (warnings r) <= updates_applied r.
Proof.
  unfold apply_updates.
  assert (forall us p0 r0 st,
            skeleton p0 = skeleton prs ->
            apply_all us (p0, r0) = Return st ->
            updates_applied (snd st) + length (errors (snd st))
            = updates_applied r0 + length (errors r0)
              + sum_list (map (entries prs) us)
            /\ length (warnings (snd st)) + updates_applied r0
               <= length (warnings r0) + updates_applied (snd st)) as Hgen.
  { induction us as [|u us IH]; intros p0 r0 st Hsk H.
    - injection H as <-. cbn. lia.
    - cbn [apply_all] in H.
      destruct (apply_update u (p0, r0)) as [[p1 r1]|e] eqn:E;
        cbn [Py.bind] in H; [|discriminate].
      pose proof (apply_update_accounting _ _ _ _ E) as [Ha Hw].
      pose proof (apply_update_skeleton _ _ _ _ E) as Hsk1.
      cbn [fst snd] in *.
      destruct (IH p1 r1 st) as [Ha' Hw']; [congruence | exact H |].
      rewrite (entries_skeleton p0 prs u Hsk) in Ha.
      change (sum_list (map (entries prs) (u :: us)))
        with (entries prs u + sum_list (map (entries prs) us)).
      split; lia. }
  intros H. destruct (Hgen updates prs no_results (p, r) eq_refl H) as [Ha Hw].
  cbn in Ha, Hw. split; lia.
Qed.

Lemma X7_mixed_batch_witness :
  exists p r,
    apply_updates Fixtures.deck
      [Fixtures.text_update (PInt 1) (PInt 1) "0123456789abcdef";
       Fixtures.text_update (PInt 3) (PInt 1) "x";
       {| upd_slide := PInt 1; upd_shape := PInt 2; upd_text := "";
          upd_preserve_bullets := true;
          upd_table_cells := [Fixtures.cell_update 0 5 "bad";
                              Fixtures.cell_update 0 1 "good"] |}]
    = Return (p, r)
    /\ (updates_applied r, length (errors r), length (warnings r)) = (2, 2, 1)
    /\ updates_applied r + length (errors r)
       = sum_list
           (map (entries Fixtures.deck)
              [Fixtures.text_update (PInt 1) (PInt 1) "0123456789abcdef";
               Fixtures.text_update (PInt 3) (PInt 1) "x";
               {| upd_slide := PInt 1; upd_shape := PInt 2; upd_text := "";
                  upd_preserve_bullets := true;
                  upd_table_cells := [Fixtures.cell_update 0 5 "bad";
                                      Fixtures.cell_update 0 1 "good"] |}])
    /\ length (warnings r) <= updates_applied r.
Proof.
  eexists _, _. split; [reflexivity|]. split; [reflexivity|].
  eapply X7_report_accounts_for_every_instruction. reflexivity.
Defined.

(** ** What a batch leaves alone *)

Lemma update_cells_outline (s h : value) (cs : list CellUpdate) (table : Table)
  (r : Results) :
  outline_of (TableShape (fst (update_cells s h cs table r)))
  = outline_of (TableShape table).
Proof. cbn [outline_of]. now rewrite update_cells_dimensions. Qed.

Lemma dispatch_outline (u : UpdateInstruction) (shape : Shape) (r : Results)
  (updated : Shape * Results) :
  dispatch u shape r = Return updated ->
  outline_of (fst updated) = outline_of shape.
Proof.
  intros H. pose proof (dispatch_kind u shape r updated H) as Hk.
  unfold dispatch in H.
  assert (forall sh : Shape,
    (let '(shape, o) :=
       update_shape_text sh (upd_text u) (upd_preserve_bullets u) true in
     let* update_result := o in
     Return (shape, merge_result (upd_slide u) (upd_shape u) update_result r))
    = Return updated ->
    outline_of (fst updated) = outline_of sh) as Htext.
  { clear. intros sh H.
    destruct sh as [tf|table|].
    - pose proof (update_shape_text_kind (TextShape tf) (upd_text u)
                    (upd_preserve_bullets u) true) as Hk.
      destruct (update_shape_text (TextShape tf) _ _ _) as [s1 [ur|e]];
        cbn [Py.bind] in H; [|discriminate].
      injection H as <-. cbn [fst] in *. now destruct s1.
    - cbn in H. now injection H as <-.
    - cbn in H. now injection H as <-. }
  destruct (upd_table_cells u) as [|c cs]; [exact (Htext shape H)|].
  destruct shape as [tf|table|];
    [exact (Htext (TextShape tf) H) | | exact (Htext OtherShape H)].
  pose proof (update_cells_outline (upd_slide u) (upd_shape u) (c :: cs)
                table r) as Ho.
  destruct (update_cells _ _ (c :: cs) table r) as [t1 r1].
  injection H as <-. exact Ho.
Qed.

Lemma outline_store (prs : Presentation) (i j : nat) (slide : Slide)
  (shape shape' : Shape) :
  prs !! i = Some slide -> slide !! j = Some shape ->
  outline_of shape' = outline_of shape ->
  outline (<[i := <[j := shape']> slide]> prs) = outline prs.
Proof.
  intros Hi Hj Hk. unfold outline.
  rewrite !list_fmap_insert. apply list_insert_id.
  rewrite list_lookup_fmap, Hi. cbn. f_equal. symmetry. apply list_insert_id.
  rewrite list_lookup_fmap, Hj. cbn. now rewrite Hk.
Qed.

Lemma apply_update_outline (u : UpdateInstruction) (prs : Presentation)
  (r : Results) (st : Presentation * Results) :
  apply_update u (prs, r) = Return st -> outline (fst st) = outline prs.
Proof.
  intros H.
  destruct (instruction_cases prs u) as [Hm|[Hv|(slide & shape & Hs & Hh)]].
  - destruct (apply_update_malformed u prs Hm) as (msg & Hr).
    rewrite Hr in H. discriminate.
  - rewrite (apply_update_rejected u prs r Hv) in H. now injection H as <-.
  - destruct (apply_update_resolved u prs slide shape Hs Hh)
      as (i & j & _ & _ & Hi & Hj & Hr).
    rewrite Hr in H. destruct (dispatch u shape r) as [updated|e] eqn:Ed;
      cbn [Py.bind] in H; [|discriminate].
    injection H as <-. cbn [fst].
    eapply outline_store; eauto using dispatch_outline.
Qed.

(** X8. A batch that returns never changes the layout of the presentation:
    the saved presentation has the same slides, the same shapes on each
    slide, each of the kind it was (text, table, other), and every table
    keeps its rows and the number of cells of each row. *)
Theorem X8_batch_keeps_layout (prs p : Presentation)
  (updates : list UpdateInstruction) (r : Results) :
  apply_updates prs updates = Return (p, r) ->
  outline p = outline prs.
Proof.
  unfold apply_updates. generalize no_results as r0. revert prs.
  induction updates as [|u us IH]; intros prs r0 H.
  - now injection H as <-.
  - cbn [apply_all] in H.
    destruct (apply_update u (prs, r0)) as [[p1 r1]|e] eqn:E;
      cbn [Py.bind] in H; [|discriminate].
    rewrite (IH _ _ H). exact (apply_update_outline _ _ _ _ E).
Qed.

Lemma X8_layout_witness :
  exists p r,
    apply_updates Fixtures.deck
      [Fixtures.text_update (PInt 1) (PInt 1) Fixtures.abc;
       {| upd_slide := PInt 1; upd_shape := PInt 2; upd_text := "";
          upd_preserve_bullets := true;
          upd_table_cells := [Fixtures.cell_update 0 1 "good"] |}]
    = Return (p, r)
    /\ outline p = outline Fixtures.deck.
Proof.
  eexists _, _. split; [reflexivity|].
  eapply (X8_batch_keeps_layout Fixtures.deck _
            [Fixtures.text_update (PInt 1) (PInt 1) Fixtures.abc;
             {| upd_slide := PInt 1; upd_shape := PInt 2; upd_text := "";
                upd_preserve_bullets := true;
                upd_table_cells := [Fixtures.cell_update 0 1 "good"] |}]).
  reflexivity.
Defined.





(** ** An instruction that goes through *)

Lemma dispatch_text_only (u : UpdateInstruction) (shape : Shape) (r : Results) :
  upd_table_cells u = [] ->
  dispatch u shape r
  = let '(shape, o) :=
      update_shape_text shape (upd_text u) (upd_preserve_bullets u) true in
    let* update_result := o in
    Return (shape, merge_result (upd_slide u) (upd_shape u) update_result r).
Proof. unfold dispatch. now intros ->. Qed.

(** X10. An instruction without cell entries that resolves to a shape with
    text frame (with a paragraph; bullet branch, or no colour captured) is
    applied and counted exactly once: the batch made of it returns with
    [updates_applied] 1, no error and at most one warning, and in the saved
    presentation the same slide and shape index designate the shape
    [update_shape_text] produced. *)
Theorem X10_text_instruction_applied_once (prs : Presentation)
  (u : UpdateInstruction) (tf : TextFrame) :
  upd_table_cells u = [] ->
  target prs u = Some (TextShape tf) ->
  paragraphs tf <> [] ->
  bullet_preserving (upd_preserve_bullets u) (upd_text u) = true
  \/ original_font_color (capture_formatting tf) = None ->
  exists p r,
    apply_updates prs [u] = Return (p, r)
    /\ updates_applied r = 1
    /\ errors r = []
    /\ length (warnings r) <= 1
    /\ target p u
       = Some (fst (update_shape_text (TextShape tf) (upd_text u)
                                      (upd_preserve_bullets u) true)).
Proof.
  unfold target at 1. intros Hcells Ht Hp Hm.
  destruct (index_in_range prs (upd_slide u)) as [slide|] eqn:Hs;
    [|discriminate].
  destruct (apply_update_resolved u prs slide _ Hs Ht)
    as (i & j & Hpi & Hpj & Hi & Hj & Hr).
  unfold apply_updates. cbn [apply_all].
  rewrite Hr, (dispatch_text_only u _ _ Hcells).
  destruct (update_shape_text_returns tf (upd_text u) (upd_preserve_bullets u)
              true Hp Hm) as (shape' & ur & Hu & Hok).
  pose proof (update_shape_text_at_most_one_warning _ _ _ _ _ _ Hu) as Hw.
  rewrite Hu. cbn [Py.bind fst snd].
  eexists _, _. split; [reflexivity|].
  unfold merge_result. rewrite Hok. cbn.
  split; [reflexivity|]. split; [reflexivity|].
  split; [now rewrite length_map|].
  unfold target.
  rewrite (index_in_range_insert prs (upd_slide u) i _ Hpi).
  exact (index_in_range_insert slide (upd_shape u) j _ Hpj).
Qed.

Lemma X10_title_witness :
  upd_table_cells (Fixtures.text_update (PInt 1) (PInt 1) Fixtures.abc) = []
  /\ target Fixtures.deck (Fixtures.text_update (PInt 1) (PInt 1) Fixtures.abc)
     = Some (TextShape Fixtures.title_frame)
  /\ paragraphs Fixtures.title_frame <> []
  /\ (bullet_preserving true Fixtures.abc = true
      \/ original_font_color (capture_formatting Fixtures.title_frame) = None)
  /\ exists p r,
       apply_updates Fixtures.deck
         [Fixtures.text_update (PInt 1) (PInt 1) Fixtures.abc] = Return (p, r)
       /\ updates_applied r = 1
       /\ errors r = []
       /\ length (warnings r) <= 1
       /\ target p (Fixtures.text_update (PInt 1) (PInt 1) Fixtures.abc)
          = Some (fst (update_shape_text (TextShape Fixtures.title_frame)
                                         Fixtures.abc true true)).
Proof.
  split; [reflexivity|].
  split; [reflexivity|]. split; [discriminate|]. split; [left; reflexivity|].
  apply (X10_text_instruction_applied_once Fixtures.deck
           (Fixtures.text_update (PInt 1) (PInt 1) Fixtures.abc)
           Fixtures.title_frame);
    [reflexivity | reflexivity | discriminate | left; reflexivity].
Defined.

(** * The structure report *)

(** ** Paragraph and bullet counts *)

Lemma filter_length_map {A B} (h : A -> B) (g : B -> bool) (l : list A) :
  length (List.filter (fun x => g (h x)) l) = length (List.filter g (map h l)).
Proof.
  induction l as [|x l IH]; [reflexivity|].
  cbn. destruct (g (h x)); cbn; now rewrite IH.
Qed.

Lemma bullet_mode_levels_and_texts (s : Snapshot) (lines : list string)
  (tf : TextFrame) (p : Paragraph) (ps : list Paragraph) :
  paragraphs tf = p :: ps -> lines <> [] ->
  map (fun q => (para_level q, paragraph_text q))
      (paragraphs (fst (bullet_mode s lines tf)))
  = map (fun l => (para_level p, escape_ctrl_chars l)) lines.
Proof.
  intros Ep Hl.
  assert (paragraphs tf <> []) as Hp by (rewrite Ep; discriminate).
  pose proof (bullet_mode_levels s lines tf p ps Ep Hl) as Hlev.
  pose proof (bullet_mode_texts s lines tf Hp Hl) as Htxt.
  revert Hlev Htxt. generalize (paragraphs (fst (bullet_mode s lines tf))).
  clear. intros qs. revert lines.
  induction qs as [|q qs IH]; intros lines Hlev Htxt;
    destruct lines as [|l ls]; try discriminate; [reflexivity|].
  inversion Hlev as [|? ? Hq Hqs]; subst. cbn [map] in *.
  injection Htxt as Ht Hts. rewrite Hq, Ht. f_equal. now apply IH.
Qed.

(** X11. After an update in the bullet branch, the structure report counts
    as many paragraphs as [new_text] has lines; it counts as bullets all of
    them when the shape's first paragraph was indented, and otherwise the
    lines that are not blank as they are stored, that is, with their
    control characters escaped (a line made of the separators 28 to 31,
    which are white space, is stored as visible text).  Texts are strings
    of code points below 256. *)
Theorem X11_counts_after_bullet_update (tf : TextFrame) (new_text : string)
  (w : bool) (p : Paragraph) (ps : list Paragraph) :
  paragraphs tf = p :: ps ->
  Py.contains Py.newline new_text = true ->
  let info :=
    Extract.count_paragraphs_and_bullets
      (fst (update_shape_text (TextShape tf) new_text true w)) in
  Extract.info_paragraphs info = length (Py.split Py.newline new_text)
  /\ Extract.info_bullets info
     = length (List.filter
                 (fun line =>
                    (0 <? para_level p)%nat
                    || Extract.truthy (Extract.strip (escape_ctrl_chars line)))
                 (Py.split Py.newline new_text)).
Proof.
  intros Ep Hnl. cbv zeta. rewrite update_shape_text_frame.
  unfold bullet_preserving. rewrite Hnl. cbn [andb].
  cbn [Extract.count_paragraphs_and_bullets Extract.info_paragraphs
       Extract.info_bullets].
  pose proof (bullet_mode_levels_and_texts (capture_formatting tf)
                (Py.split Py.newline new_text) tf p ps Ep
                (split_not_nil _ _)) as H.
  split.
  - apply (f_equal (@length _)) in H. now rewrite !length_map in H.
  - unfold Extract.counts_as_bullet.
    rewrite (filter_length_map
               (fun q => (para_level q, paragraph_text q))
               (fun x => (0 <? fst x)%nat
                         || Extract.truthy (Extract.strip (snd x)))).
    rewrite H.
    now rewrite <- (filter_length_map
                      (fun l => (para_level p, escape_ctrl_chars l))
                      (fun x => (0 <? fst x)%nat
                                || Extract.truthy (Extract.strip (snd x)))).
Qed.

(** Three lines, the second of blanks, the third of one separator: the
    separator is white space but is stored escaped, so the third line
    counts. *)
Lemma X11_blank_line_witness :
  paragraphs (Fixtures.cell_frame "a")
  = Fixtures.paragraph_of [Fixtures.plain_run "a"] 0 :: []
  /\ Py.contains Py.newline
       ("A" +:+ Fixtures.lf +:+ "  " +:+ Fixtures.lf +:+ String "028"%char "")
     = true
  /\ Extract.count_paragraphs_and_bullets
       (fst (update_shape_text (TextShape (Fixtures.cell_frame "a"))
               ("A" +:+ Fixtures.lf +:+ "  " +:+ Fixtures.lf
                +:+ String "028"%char "") true true))
     = {| Extract.info_paragraphs := 3; Extract.info_bullets := 2 |}.
Proof.
  split; [reflexivity|]. split; [reflexivity|].
  pose proof (X11_counts_after_bullet_update (Fixtures.cell_frame "a")
                ("A" +:+ Fixtures.lf +:+ "  " +:+ Fixtures.lf
                 +:+ String "028"%char "") true
                _ _ eq_refl eq_refl) as [H1 H2].
  destruct (Extract.count_paragraphs_and_bullets _) as [n m].
  cbn in H1, H2. now subst.
Defined.

(** ** The cells of a table in the report *)

Lemma truthy_not_empty (s : string) :
  Extract.truthy s = true <-> s <> EmptyString.
Proof. destruct s; cbn; split; congruence. Qed.

Lemma elem_of_row_cells (i : nat) (row : list TextFrame) (cd : Extract.CellData) :
  cd ∈ Extract.row_cells i row
  <-> exists j tf,
        row !! j = Some tf
        /\ text_frame_text tf <> EmptyString
        /\ cd = {| Extract.cell_row := i; Extract.cell_column := j;
                   Extract.cell_text := text_frame_text tf;
                   Extract.cell_character_count :=
                     Py.len (text_frame_text tf) |}.
Proof.
  unfold Extract.row_cells. rewrite list_elem_of_omap. split.
  - intros (o & Ho & Hid). cbn in Hid. subst o.
    apply elem_of_lookup_imap in Ho. destruct Ho as (j & tf & Heq & Hj).
    cbv zeta in Heq.
    destruct (Extract.truthy (text_frame_text tf)) eqn:Et; [|discriminate].
    injection Heq as ->. exists j, tf. split; [exact Hj|].
    split; [now apply truthy_not_empty | reflexivity].
  - intros (j & tf & Hj & Ht & ->). eexists. split; [|reflexivity].
    apply elem_of_lookup_imap. exists j, tf. split; [|exact Hj].
    cbv zeta. apply truthy_not_empty in Ht. now rewrite Ht.
Qed.

(** Membership in the cell list of [extract_table_data]. *)
Lemma elem_of_extracted_cells (columns : nat) (table : Table)
  (cd : Extract.CellData) :
  cd ∈ Extract.table_cells (Extract.extract_table_data columns table)
  <-> exists tf,
        cell_frame_at table (Extract.cell_row cd) (Extract.cell_column cd)
        = Some tf
        /\ Extract.cell_text cd = text_frame_text tf
        /\ Extract.cell_text cd <> EmptyString
        /\ Extract.cell_character_count cd = Py.len (Extract.cell_text cd).
Proof.
  cbn [Extract.extract_table_data Extract.table_cells].
  rewrite list_elem_of_join. split.
  - intros (l & Hcd & Hl).
    apply elem_of_lookup_imap in Hl. destruct Hl as (i & row & -> & Hi).
    apply elem_of_row_cells in Hcd. destruct Hcd as (j & tf & Hj & Ht & ->).
    exists tf. cbn. unfold cell_frame_at. rewrite Hi.
    repeat split; assumption.
  - intros (tf & Hc & Htx & Hne & Hlen). unfold cell_frame_at in Hc.
    destruct (table !! Extract.cell_row cd) as [row|] eqn:Hi; [|discriminate].
    exists (Extract.row_cells (Extract.cell_row cd) row). split.
    + apply elem_of_row_cells. exists (Extract.cell_column cd), tf.
      split; [exact Hc|]. split; [congruence|].
      destruct cd as [r c t n]. cbn in *. now subst.
    + apply elem_of_lookup_imap. now exists (Extract.cell_row cd), row.
Qed.

(** X12. The cells listed for a table are exactly the cells whose text is
    not empty, each under its 0-based row and column, with its text and the
    length of its text: nothing is listed that is not in the table, and no
    cell with text is left out. *)
Theorem X12_listed_cells_are_the_cells_with_text (columns : nat) (table : Table)
  (cd : Extract.CellData) :
  cd ∈ Extract.table_cells (Extract.extract_table_data columns table)
  <-> exists tf,
        cell_frame_at table (Extract.cell_row cd) (Extract.cell_column cd)
        = Some tf
        /\ Extract.cell_text cd = text_frame_text tf
        /\ Extract.cell_text cd <> EmptyString
        /\ Extract.cell_character_count cd = Py.len (Extract.cell_text cd).
Proof. apply elem_of_extracted_cells. Qed.

Lemma text_needs_paragraph (tf : TextFrame) :
  text_frame_text tf <> EmptyString -> paragraphs tf <> [].
Proof. intros Ht Hp. apply Ht. unfold text_frame_text. now rewrite Hp. Qed.

Lemma update_cell_text_text (t : string) (tf : TextFrame) :
  paragraphs tf <> [] ->
  text_frame_text (fst (update_cell_text t tf)) = escape_ctrl_chars t
  /\ snd (update_cell_text t tf)
     = match original_font_color (capture_formatting tf) with
       | None => Return tt
       | Some _ => Raise (ValueError "assigned value must be type RGBColor")
       end.
Proof.
  intros Hp. unfold update_cell_text.
  destruct (paragraphs tf) as [|p ps]; [congruence|].
  destruct (original_font_color (capture_formatting tf)); split; reflexivity.
Qed.

(** X13. The row and column under which a cell is listed are coordinates
    [update_table_cell] accepts: updating at a listed cell never fails on
    the index, the cell reads the new text afterwards, control characters
    escaped, and the update is reported as a success exactly when the first
    run of the cell had no colour. *)
Theorem X13_listed_cell_can_be_updated (columns : nat) (table : Table)
  (cd : Extract.CellData) (t : string) :
  cd ∈ Extract.table_cells (Extract.extract_table_data columns table) ->
  exists tf table' tf',
    cell_frame_at table (Extract.cell_row cd) (Extract.cell_column cd) = Some tf
    /\ fst (update_table_cell table (PInt (Z.of_nat (Extract.cell_row cd)))
                              (PInt (Z.of_nat (Extract.cell_column cd))) t)
       = table'
    /\ cell_frame_at table' (Extract.cell_row cd) (Extract.cell_column cd)
       = Some tf'
    /\ text_frame_text tf' = escape_ctrl_chars t
    /\ cell_success
         (snd (update_table_cell table
                 (PInt (Z.of_nat (Extract.cell_row cd)))
                 (PInt (Z.of_nat (Extract.cell_column cd))) t))
       = match original_font_color (capture_formatting tf) with
         | None => true
         | Some _ => false
         end.
Proof.
  intros Hcd. apply elem_of_extracted_cells in Hcd.
  destruct Hcd as (tf & Hc & Htx & Hne & _).
  assert (paragraphs tf <> []) as Hp
    by (apply text_needs_paragraph; congruence).
  exists tf. pose proof Hc as Hc'. unfold cell_frame_at in Hc'.
  destruct (table !! Extract.cell_row cd) as [cells|] eqn:Hi; [|discriminate].
  unfold update_table_cell.
  rewrite (update_table_cell_at table _ _ cells tf t Hi Hc').
  destruct (update_cell_text_text t tf Hp) as [Ht Ho].
  eexists _, (fst (update_cell_text t tf)).
  split; [exact Hc|]. rewrite Ho.
  destruct (original_font_color (capture_formatting tf)); cbn [fst snd cell_success];
    (split; [reflexivity|];
     split; [now apply (cell_frame_at_store_eq table _ _ cells tf)|];
     split; [exact Ht | reflexivity]).
Qed.

Lemma X13_listed_cell_witness :
  {| Extract.cell_row := 0; Extract.cell_column := 1; Extract.cell_text := "b";
     Extract.cell_character_count := 1 |}
  ∈ Extract.table_cells (Extract.extract_table_data 2 Fixtures.small_table)
  /\ exists tf table' tf',
       cell_frame_at Fixtures.small_table 0 1 = Some tf
       /\ fst (update_table_cell Fixtures.small_table (PInt (Z.of_nat 0))
                                 (PInt (Z.of_nat 1)) "good") = table'
       /\ cell_frame_at table' 0 1 = Some tf'
       /\ text_frame_text tf' = escape_ctrl_chars "good"
       /\ cell_success
            (snd (update_table_cell Fixtures.small_table (PInt (Z.of_nat 0))
                                    (PInt (Z.of_nat 1)) "good"))
          = match original_font_color (capture_formatting tf) with
            | None => true
            | Some _ => false
            end.
Proof.
  assert ({| Extract.cell_row := 0; Extract.cell_column := 1;
             Extract.cell_text := "b"; Extract.cell_character_count := 1 |}
          ∈ Extract.table_cells
              (Extract.extract_table_data 2 Fixtures.small_table)) as Hin
    by (vm_compute; apply list_elem_of_In; right; left; reflexivity).
  split; [exact Hin|].
  exact (X13_listed_cell_can_be_updated 2 Fixtures.small_table _ "good" Hin).
Defined.


(** ** Slide numbers and shape indices of the report *)

Lemma imap_slide_numbers (n : nat) (l : list (list Extract.ShapeView)) :
  map Extract.slide_number
      (imap (fun k slide =>
               {| Extract.slide_number := n + k;
                  Extract.shapes := Extract.slide_shapes slide |}) l)
  = seq n (length l).
Proof.
  revert n. induction l as [|x l IH]; intros n; [reflexivity|].
  rewrite imap_cons. cbn [map length seq Extract.slide_number].
  rewrite Nat.add_0_r. f_equal.
  rewrite <- (IH (S n)). f_equal. apply imap_ext. intros k y _. cbn.
  now rewrite Nat.add_succ_r.
Qed.

Lemma index_in_range_succ {A} (l : list A) (k : nat) (x : A) :
  l !! k = Some x -> index_in_range l (PInt (Z.of_nat (S k))) = Some x.
Proof.
  intros Hx. pose proof (lookup_lt_Some _ _ _ Hx) as Hlt.
  unfold index_in_range, position. cbn [Py.as_int].
  destruct (Z.leb_spec 1 (Z.of_nat (S k))); [|lia].
  destruct (Z.leb_spec (Z.of_nat (S k)) (Z.of_nat (length l))); [|lia].
  cbn [andb]. replace (Z.to_nat (Z.of_nat (S k) - 1)) with k by lia.
  exact Hx.
Qed.

(** What [analyze_shape] returns when it returns. *)
Lemma analyze_shape_Some (v : Extract.ShapeView) (k : nat)
  (d : Extract.ShapeData) :
  Extract.analyze_shape v k = Some d ->
  Extract.view_raises v = false
  /\ Extract.index d = k
  /\ Extract.text_content d = extract_text_from_shape (Extract.view_shape v)
  /\ (Extract.is_table d = true <-> kind_of (Extract.view_shape v) = KTable)
  /\ (Extract.listed d = true <-> has_content (Extract.view_shape v)).
Proof.
  unfold Extract.analyze_shape.
  destruct (Extract.view_raises v); [discriminate|].
  intros H. split; [reflexivity|].
  destruct (Extract.view_shape v) as [tf|tbl|]; injection H as <-;
    unfold Extract.listed;
    cbn [Extract.index Extract.text_content Extract.is_table Extract.table
         extract_text_from_shape kind_of has_content Extract.truthy orb andb];
    (split; [reflexivity|]); (split; [reflexivity|]).
  - split; [split; congruence|]. rewrite orb_false_r. apply truthy_not_empty.
  - split; [split; congruence|]. split.
    + intros H.
      destruct (Extract.table_cells
                  (Extract.extract_table_data (Extract.view_columns v) tbl))
        as [|cd cds] eqn:E; [discriminate|].
      assert (cd ∈ Extract.table_cells
                     (Extract.extract_table_data (Extract.view_columns v) tbl))
        as Hin by (rewrite E; left).
      apply elem_of_extracted_cells in Hin.
      destruct Hin as (tf & Hc & Htx & Hne & _).
      exists (Extract.cell_row cd), (Extract.cell_column cd), tf.
      split; [exact Hc | congruence].
    + intros (i & j & tf & Hc & Hne).
      assert ({| Extract.cell_row := i; Extract.cell_column := j;
                 Extract.cell_text := text_frame_text tf;
                 Extract.cell_character_count := Py.len (text_frame_text tf) |}
              ∈ Extract.table_cells
                  (Extract.extract_table_data (Extract.view_columns v) tbl))
        as Hin.
      { apply elem_of_extracted_cells. exists tf. cbn. now repeat split. }
      destruct (Extract.table_cells _); [inversion Hin | reflexivity].
  - split; [split; congruence|]. split; [discriminate | contradiction].
Qed.

Lemma analyze_shape_returns (v : Extract.ShapeView) (k : nat) :
  Extract.view_raises v = false ->
  exists d, Extract.analyze_shape v k = Some d.
Proof.
  unfold Extract.analyze_shape. intros ->.
  destruct (Extract.view_shape v); eexists; reflexivity.
Qed.

Lemma elem_of_slide_shapes (slide : list Extract.ShapeView)
  (d : Extract.ShapeData) :
  d ∈ Extract.slide_shapes slide
  <-> exists j v, slide !! j = Some v
                  /\ Extract.analyze_shape v (S j) = Some d
                  /\ Extract.listed d = true.
Proof.
  unfold Extract.slide_shapes. rewrite list_elem_of_omap. split.
  - intros (o & Ho & Hid). cbn in Hid. subst o.
    apply elem_of_lookup_imap in Ho. destruct Ho as (j & v & Heq & Hj).
    destruct (Extract.analyze_shape v (S j)) as [d'|] eqn:Ea; [|discriminate].
    destruct (Extract.listed d') eqn:El; [|discriminate].
    injection Heq as ->. now exists j, v.
  - intros (j & v & Hj & Ha & Hl). eexists. split; [|reflexivity].
    apply elem_of_lookup_imap. exists j, v. split; [|exact Hj].
    now rewrite Ha, Hl.
Qed.

(** The report has one entry per slide, numbered 1, 2, ... in the
    order of the slides, also for slides none of whose shapes is listed,
    and [total_slides] is their number. *)
Lemma slides_numbered_from_one (prs : Extract.PresentationView) :
  map Extract.slide_number
      (Extract.slides (Extract.extract_template_structure prs))
  = seq 1 (length (Extract.view_slides prs))
  /\ Extract.total_slides (Extract.extract_template_structure prs)
     = length (Extract.slides (Extract.extract_template_structure prs)).
Proof.
  cbn [Extract.extract_template_structure Extract.slides Extract.total_slides].
  split.
  - apply (imap_slide_numbers 1).
  - now rewrite length_imap.
Qed.

(** X14. The slide number and the index under which the report lists a shape
    are the 1-based numbers [apply_updates] resolves to that very shape: an
    instruction carrying them is neither malformed nor out of range, and
    the text the report gives is the text of the shape the instruction
    targets. *)
Theorem X14_reported_indices_resolve (prs : Extract.PresentationView)
  (sd : Extract.SlideData) (d : Extract.ShapeData) (t : string) :
  sd ∈ Extract.slides (Extract.extract_template_structure prs) ->
  d ∈ Extract.shapes sd ->
  exists shape,
    target (Extract.presentation_of prs)
           (instruction_for (Extract.slide_number sd) (Extract.index d) t)
    = Some shape
    /\ invalid_index (Extract.presentation_of prs)
         (instruction_for (Extract.slide_number sd) (Extract.index d) t)
       = false
    /\ malformed (Extract.presentation_of prs)
         (instruction_for (Extract.slide_number sd) (Extract.index d) t)
       = false
    /\ Extract.text_content d = extract_text_from_shape shape
    /\ (Extract.is_table d = true <-> kind_of shape = KTable).
Proof.
  cbn [Extract.extract_template_structure Extract.slides].
  intros Hsd Hd. apply elem_of_lookup_imap in Hsd.
  destruct Hsd as (k & slide & -> & Hk). cbn [Extract.shapes] in Hd.
  cbn [Extract.slide_number].
  apply elem_of_slide_shapes in Hd. destruct Hd as (j & v & Hj & Ha & _).
  destruct (analyze_shape_Some v (S j) d Ha) as (_ & -> & Htext & Htable & _).
  exists (Extract.view_shape v).
  assert (index_in_range (Extract.presentation_of prs)
                         (PInt (Z.of_nat (S k)))
          = Some (Extract.view_shape <$> slide)) as Hs.
  { apply index_in_range_succ. unfold Extract.presentation_of.
    now rewrite list_lookup_fmap, Hk. }
  assert (index_in_range (Extract.view_shape <$> slide)
                         (PInt (Z.of_nat (S j)))
          = Some (Extract.view_shape v)) as Hh.
  { apply index_in_range_succ. now rewrite list_lookup_fmap, Hj. }
  unfold target, invalid_index, malformed, instruction_for.
  cbn [upd_slide upd_shape is_int andb negb orb not_an_index]. rewrite Hs, Hh.
  repeat split; try reflexivity; try assumption; apply Htable.
Qed.

Lemma X14_title_entry_witness :
  {| Extract.slide_number := 1;
     Extract.shapes :=
       Extract.slide_shapes
         (map Extract.bare_view
              [TextShape Fixtures.title_frame;
               TableShape Fixtures.small_table; OtherShape]) |}
  ∈ Extract.slides (Extract.extract_template_structure deck_view)
  /\ (exists d,
        Extract.analyze_shape
          (Extract.bare_view (TextShape Fixtures.title_frame)) 1 = Some d
        /\ d ∈ Extract.slide_shapes
                 (map Extract.bare_view
                      [TextShape Fixtures.title_frame;
                       TableShape Fixtures.small_table; OtherShape]))
  /\ exists shape,
       target (Extract.presentation_of deck_view) (instruction_for 1 1 "new")
       = Some shape
       /\ extract_text_from_shape shape = "0123456789".
Proof.
  assert ({| Extract.slide_number := 1;
             Extract.shapes :=
               Extract.slide_shapes
                 (map Extract.bare_view
                      [TextShape Fixtures.title_frame;
                       TableShape Fixtures.small_table; OtherShape]) |}
          ∈ Extract.slides (Extract.extract_template_structure deck_view))
    as Hsd by (apply list_elem_of_In; left; reflexivity).
  destruct (analyze_shape_returns
              (Extract.bare_view (TextShape Fixtures.title_frame)) 1 eq_refl)
    as (d & Ha).
  assert (d ∈ Extract.shapes
              {| Extract.slide_number := 1;
                 Extract.shapes :=
                   Extract.slide_shapes
                     (map Extract.bare_view
                          [TextShape Fixtures.title_frame;
                           TableShape Fixtures.small_table; OtherShape]) |})
    as Hd.
  { injection Ha as <-. apply list_elem_of_In. left. reflexivity. }
  split; [exact Hsd|]. split; [now exists d|].
  destruct (X14_reported_indices_resolve deck_view _ _ "new" Hsd Hd)
    as (shape & Ht & _ & _ & Htext & _).
  exists shape. injection Ha as <-. split; [exact Ht|]. now rewrite <- Htext.
Defined.

(** X15. In a report that is produced (no shape ends the run with an
    exception that the loop does not catch), a slide has an entry with the
    index of a shape exactly when the analysis of that shape raises no
    exception and the shape has content: a text that is not empty, or a
    table with a cell whose text is not empty.  A text shape whose text is
    empty, and a shape that is neither text nor table, are never listed,
    although the first is a valid target of an update; nor is a shape whose
    analysis raises an exception that the loop catches. *)
Theorem X15_listed_exactly_when_content (slide : list Extract.ShapeView)
  (j : nat) (v : Extract.ShapeView) :
  slide !! j = Some v ->
  ((exists d, d ∈ Extract.slide_shapes slide /\ Extract.index d = S j)
   <-> Extract.view_raises v = false /\ has_content (Extract.view_shape v)).
Proof.
  intros Hj. split.
  - intros (d & Hd & Hidx). apply elem_of_slide_shapes in Hd.
    destruct Hd as (j' & v' & Hj' & Ha & Hl).
    destruct (analyze_shape_Some v' (S j') d Ha) as (Hr & Hi & _ & _ & Hc).
    assert (j' = j) as -> by congruence.
    assert (v' = v) as -> by congruence.
    split; [exact Hr | now apply Hc].
  - intros [Hr Hc]. destruct (analyze_shape_returns v (S j) Hr) as (d & Ha).
    destruct (analyze_shape_Some v (S j) d Ha) as (_ & Hi & _ & _ & Hl).
    exists d. split; [|exact Hi].
    apply elem_of_slide_shapes. exists j, v.
    split; [exact Hj|]. split; [exact Ha | now apply Hl].
Qed.

(** A placeholder without text before the title: it has no entry, and the
    title keeps index 2. *)
Lemma X15_empty_placeholder_witness :
  [Extract.bare_view (TextShape {| paragraphs := [Fixtures.paragraph_of [] 0] |});
   Extract.bare_view (TextShape Fixtures.title_frame)] !! 0
  = Some (Extract.bare_view
            (TextShape {| paragraphs := [Fixtures.paragraph_of [] 0] |}))
  /\ map Extract.index
       (Extract.slide_shapes
          [Extract.bare_view
             (TextShape {| paragraphs := [Fixtures.paragraph_of [] 0] |});
           Extract.bare_view (TextShape Fixtures.title_frame)])
     = [2]
  /\ ~ exists d,
         d ∈ Extract.slide_shapes
               [Extract.bare_view
                  (TextShape {| paragraphs := [Fixtures.paragraph_of [] 0] |});
                Extract.bare_view (TextShape Fixtures.title_frame)]
         /\ Extract.index d = 1.
Proof.
  split; [reflexivity|]. split; [reflexivity|]. intros Hin.
  apply (X15_listed_exactly_when_content
           [Extract.bare_view
              (TextShape {| paragraphs := [Fixtures.paragraph_of [] 0] |});
            Extract.bare_view (TextShape Fixtures.title_frame)] 0 _ eq_refl)
    in Hin.
  destruct Hin as [_ Hc]. now apply Hc.
Defined.

(** A shape whose analysis raises is skipped and keeps its index. *)
Example raising_shape_skipped :
  map Extract.index
    (Extract.slide_shapes
       [{| Extract.view_shape := TextShape Fixtures.title_frame;
           Extract.view_raises := true; Extract.view_name := "";
           Extract.view_type := Extract.AUTO_SHAPE;
           Extract.view_left := None; Extract.view_top := None;
           Extract.view_width := None; Extract.view_height := None;
           Extract.view_placeholder := None; Extract.view_columns := 0 |};
        Extract.bare_view (TextShape Fixtures.title_frame)])
  = [2].
Proof. reflexivity. Qed.

(** * Path validation *)

Section PathValidation.
Variable os : Security.Platform.

Lemma validate_file_path_Ok (file_path : string) (must_exist : bool)
  (allowed : list string) (base_dir : option string) (path : string) :
  Security.validate_file_path os file_path must_exist allowed base_dir
  = Security.Ok path
  <-> Security.resolve os file_path = Security.Ok path
      /\ (must_exist = true
          -> Security.path_exists os path = Security.Ok true)
      /\ Security.member ".." (Security.parts os file_path) = false
      /\ Security.check_base os path base_dir = None
      /\ (allowed = []
          \/ Security.member (Security.lower os (Security.suffix os path))
                             allowed = true).
Proof.
  unfold Security.validate_file_path.
  destruct (Security.resolve os file_path) as [p|e].
  2:{ split; [|intros (H & _); discriminate].
      destruct (_ || _); discriminate. }
  split.
  - destruct must_exist.
    + destruct (Security.path_exists os p) as [[|]|e] eqn:Ex; try discriminate.
      destruct (Security.member ".." (Security.parts os file_path));
        [discriminate|].
      destruct (Security.check_base os p base_dir) eqn:Eb; [discriminate|].
      destruct allowed as [|a al].
      * intros [= <-]. repeat split; auto.
      * destruct (Security.member _ (a :: al)) eqn:Ea; [|discriminate].
        intros [= <-]. repeat split; auto.
    + destruct (Security.member ".." (Security.parts os file_path));
        [discriminate|].
      destruct (Security.check_base os p base_dir) eqn:Eb; [discriminate|].
      destruct allowed as [|a al].
      * intros [= <-]. repeat split; auto. discriminate.
      * destruct (Security.member _ (a :: al)) eqn:Ea; [|discriminate].
        intros [= <-]. repeat split; auto. discriminate.
  - intros ([= ->] & Hex & Hdots & Hb & Hext).
    assert ((if must_exist then Security.path_exists os path
             else Security.Ok true) = Security.Ok true) as ->.
    { destruct must_exist; [now apply Hex | reflexivity]. }
    rewrite Hdots, Hb.
    destruct allowed as [|a al]; [reflexivity|].
    destruct Hext as [Hext|Hext]; [discriminate | now rewrite Hext].
Qed.

(** X16. [validate_file_path] never returns a path for an input one of whose
    components is "..", whatever the other arguments are and whatever the
    input resolves to. *)
Theorem X16_parent_reference_never_accepted (file_path : string)
  (must_exist : bool) (allowed : list string) (base_dir : option string) :
  Security.member ".." (Security.parts os file_path) = true ->
  forall path,
    Security.validate_file_path os file_path must_exist allowed base_dir
    <> Security.Ok path.
Proof.
  intros Hdots path H. apply validate_file_path_Ok in H.
  destruct H as (_ & _ & Hno & _). congruence.
Qed.

(** X17. [validate_input_file] returns a path exactly when the input
    resolves to it, the file exists, no component of the input is "..", the
    lowercased suffix is one of the allowed extensions and the file is not
    larger than the limit; a file of exactly the limit passes.  Each of the
    three calls to the file system has to return for that: resolving the
    path, testing that it exists, reading its size. *)
Theorem X17_input_file_accepted_iff (file_path : string) (a : string)
  (allowed : list string) (max_size_bytes : Z) (path : string) :
  Security.validate_input_file os file_path (a :: allowed) max_size_bytes
  = Security.Ok path
  <-> Security.resolve os file_path = Security.Ok path
      /\ Security.path_exists os path = Security.Ok true
      /\ Security.member ".." (Security.parts os file_path) = false
      /\ Security.member (Security.lower os (Security.suffix os path))
                         (a :: allowed) = true
      /\ exists size,
           Security.stat_size os path = Security.Ok size
           /\ (size <= max_size_bytes)%Z.
Proof.
  unfold Security.validate_input_file. split.
  - destruct (Security.validate_file_path os file_path true (a :: allowed) None)
      as [p|e] eqn:E; [|discriminate].
    apply validate_file_path_Ok in E.
    destruct E as (Hr & Hex & Hdots & _ & Hext).
    unfold Security.check_file_size. rewrite (Hex eq_refl).
    destruct (Security.stat_size os p) as [size|e] eqn:Es; [|discriminate].
    destruct (Z.gtb_spec size max_size_bytes); [discriminate|].
    intros [= <-]. repeat split; auto.
    + destruct Hext as [Hext|Hext]; [discriminate | exact Hext].
    + exists size. split; [exact Es | lia].
  - intros (Hr & Hex & Hdots & Hext & size & Hs & Hsize).
    assert (Security.validate_file_path os file_path true (a :: allowed) None
            = Security.Ok path) as ->.
    { apply validate_file_path_Ok. repeat split; auto. }
    unfold Security.check_file_size. rewrite Hex, Hs.
    destruct (Z.gtb_spec size max_size_bytes); [lia | reflexivity].
Qed.

(** X18. For an input file that does not exist, that is, when the path
    resolves and the test for existence returns false, the error is the
    [FileNotFoundError] naming the path as given, whatever else is wrong
    with the path: a ".." component or a wrong extension is not reported
    for a file that is not there.  The two calls before that report can
    raise themselves.  When the test for existence raises (a name that is
    too long, a directory that may not be searched), its exception is what
    the caller gets.  When resolving raises, the caller gets a
    [PathTraversalError] for an [OSError] or a [RuntimeError], and the
    exception itself otherwise (the [ValueError] for a NUL byte). *)
Theorem X18_missing_file_reported_first (file_path : string)
  (allowed : list string) (max_size_bytes : Z) :
  (forall path,
     Security.resolve os file_path = Security.Ok path ->
     Security.path_exists os path = Security.Ok false ->
     Security.validate_input_file os file_path allowed max_size_bytes
     = Security.Err
         (Security.FileNotFoundError ("File not found: " +:+ file_path)))
  /\ (forall path e,
        Security.resolve os file_path = Security.Ok path ->
        Security.path_exists os path = Security.Err e ->
        Security.validate_input_file os file_path allowed max_size_bytes
        = Security.Err e)
  /\ (forall e,
        Security.resolve os file_path = Security.Err e ->
        Security.validate_input_file os file_path allowed max_size_bytes
        = Security.Err
            (if Security.is_os_error e || Security.is_runtime_error e
             then Security.PathTraversalError
                    ("Invalid path: " +:+ Security.str e)
             else e)).
Proof.
  unfold Security.validate_input_file, Security.validate_file_path.
  split; [|split].
  - intros path Hr He. now rewrite Hr, He.
  - intros path e Hr He. now rewrite Hr, He.
  - intros e Hr. rewrite Hr. now destruct (_ || _).
Qed.

(** X19. What the two validators used on the command line raise is caught
    by [main] of [extract_template_structure.py], which has clauses for
    [SecurityError] with its two subclasses, [FileNotFoundError] and
    [ValueError], unless it is an exception that the test for existence,
    the read of the size or the creation of the output directory raised
    and that the validators let through.  An [OSError] or a [RuntimeError]
    of [resolve] does not get out: it is turned into a
    [PathTraversalError]. *)
Theorem X19_validators_raise_what_main_catches (file_path : string)
  (allowed : list string) (max_size_bytes : Z) (e : Security.exn) :
  Security.validate_input_file os file_path allowed max_size_bytes
    = Security.Err e
  \/ Security.validate_output_file os file_path allowed = Security.Err e ->
  Security.caught_by_main e = true
  \/ exists path,
       Security.resolve os file_path = Security.Ok path
       /\ (Security.path_exists os path = Security.Err e
           \/ Security.stat_size os path = Security.Err e
           \/ Security.mkdir_parent os path = Security.Err e).
Proof.
  assert (forall must_exist e',
            Security.validate_file_path os file_path must_exist allowed None
            = Security.Err e' ->
            Security.caught_by_main e' = true
            \/ exists path,
                 Security.resolve os file_path = Security.Ok path
                 /\ Security.path_exists os path = Security.Err e') as Hpath.
  { intros must_exist e'. unfold Security.validate_file_path.
    destruct (Security.resolve os file_path) as [p|er].
    2:{ destruct er; cbn; intros [= <-]; now left. }
    destruct must_exist.
    - destruct (Security.path_exists os p) as [[|]|ex] eqn:Ex.
      + destruct (Security.member ".." (Security.parts os file_path));
          [intros [= <-]; now left|].
        cbn [Security.check_base].
        destruct allowed as [|a al]; [discriminate|].
        destruct (Security.member _ (a :: al)); [discriminate|].
        intros [= <-]. now left.
      + intros [= <-]. now left.
      + intros [= <-]. right. now exists p.
    - destruct (Security.member ".." (Security.parts os file_path));
        [intros [= <-]; now left|].
      cbn [Security.check_base].
      destruct allowed as [|a al]; [discriminate|].
      destruct (Security.member _ (a :: al)); [discriminate|].
      intros [= <-]. now left. }
  intros [H|H].
  - unfold Security.validate_input_file in H.
    destruct (Security.validate_file_path os file_path true allowed None)
      as [p|e'] eqn:E.
    + apply validate_file_path_Ok in E. destruct E as (Hr & _).
      unfold Security.check_file_size in H.
      destruct (Security.path_exists os p) as [[|]|ex] eqn:Ex.
      * destruct (Security.stat_size os p) as [size|es] eqn:Es.
        -- destruct (size >? max_size_bytes)%Z; [|discriminate].
           injection H as <-. now left.
        -- injection H as <-. right. exists p. auto.
      * discriminate.
      * injection H as <-. right. exists p. auto.
    + injection H as <-.
      destruct (Hpath true e' E) as [Hc|(p & Hr & Hx)]; [now left|].
      right. exists p. auto.
  - unfold Security.validate_output_file in H.
    destruct (Security.validate_file_path os file_path false allowed None)
      as [p|e'] eqn:E.
    + apply validate_file_path_Ok in E. destruct E as (Hr & _).
      destruct (Security.mkdir_parent os p) as [|em] eqn:Em; [discriminate|].
      destruct (Security.is_os_error em) eqn:Eo.
      * injection H as <-. now left.
      * injection H as <-. right. exists p. auto.
    + injection H as <-.
      destruct (Hpath false e' E) as [Hc|(p & Hr & Hx)]; [now left|].
      right. exists p. auto.
Qed.

End PathValidation.

Lemma X16_dotdot_witness :
  Security.member ".." (Security.parts Security.example_platform
                                       "/in/../etc/deck.pptx") = true
  /\ forall path,
       Security.validate_file_path Security.example_platform
         "/in/../etc/deck.pptx" false [".pptx"] None
       <> Security.Ok path.
Proof.
  split; [reflexivity|].
  apply (X16_parent_reference_never_accepted Security.example_platform
           "/in/../etc/deck.pptx" false [".pptx"] None).
  reflexivity.
Defined.

(** A file of exactly 100 MB is accepted. *)
Lemma X17_hundred_megabytes_witness :
  Security.validate_input_file Security.example_platform "/in/deck.pptx"
    [".pptx"] Security.MAX_FILE_SIZE_BYTES
  = Security.Ok "/in/deck.pptx"
  /\ Security.stat_size Security.example_platform "/in/deck.pptx"
     = Security.Ok 104857600%Z.
Proof.
  split; [|reflexivity].
  apply (X17_input_file_accepted_iff Security.example_platform).
  repeat split. exists Security.MAX_FILE_SIZE_BYTES.
  split; [reflexivity | apply Z.le_refl].
Defined.

(** A missing file with a ".." component and the wrong extension; and a
    name that is too long, for which the [OSError] of the test for
    existence gets out. *)
Lemma X18_missing_file_witness :
  Security.resolve Security.example_platform "/in/../gone.txt"
  = Security.Ok "/in/../gone.txt"
  /\ Security.path_exists Security.example_platform "/in/../gone.txt"
     = Security.Ok false
  /\ Security.validate_input_file Security.example_platform "/in/../gone.txt"
       [".pptx"] Security.MAX_FILE_SIZE_BYTES
     = Security.Err
         (Security.FileNotFoundError "File not found: /in/../gone.txt")
  /\ Security.validate_input_file Security.example_platform "/in/too_long.pptx"
       [".pptx"] Security.MAX_FILE_SIZE_BYTES
     = Security.Err
         (Security.OSError
            "[Errno 36] File name too long: '/in/too_long.pptx'").
Proof.
  split; [reflexivity|]. split; [reflexivity|]. split.
  - apply (proj1 (X18_missing_file_reported_first Security.example_platform
                    "/in/../gone.txt" [".pptx"] Security.MAX_FILE_SIZE_BYTES)
             "/in/../gone.txt"); reflexivity.
  - reflexivity.
Defined.

(** A file of a byte more than 100 MB: the [FileSizeError] is caught. *)
Lemma X19_too_large_witness :
  (Security.validate_input_file Security.example_platform "/in/big.pptx"
     [".pptx"] Security.MAX_FILE_SIZE_BYTES
   = Security.Err
       (Security.FileSizeError
          "File too large: 100.00MB exceeds limit of 100.00MB")
   \/ Security.validate_output_file Security.example_platform "/in/big.pptx"
        [".pptx"]
      = Security.Err
          (Security.FileSizeError
             "File too large: 100.00MB exceeds limit of 100.00MB"))
  /\ (Security.caught_by_main
        (Security.FileSizeError
           "File too large: 100.00MB exceeds limit of 100.00MB") = true
      \/ exists path,
           Security.resolve Security.example_platform "/in/big.pptx"
           = Security.Ok path
           /\ (Security.path_exists Security.example_platform path
               = Security.Err
                   (Security.FileSizeError
                      "File too large: 100.00MB exceeds limit of 100.00MB")
               \/ Security.stat_size Security.example_platform path
                  = Security.Err
                      (Security.FileSizeError
                         "File too large: 100.00MB exceeds limit of 100.00MB")
               \/ Security.mkdir_parent Security.example_platform path
                  = Security.Err
                      (Security.FileSizeError
                         "File too large: 100.00MB exceeds limit of 100.00MB"))).
Proof.
  assert (Security.validate_input_file Security.example_platform "/in/big.pptx"
            [".pptx"] Security.MAX_FILE_SIZE_BYTES
          = Security.Err
              (Security.FileSizeError
                 "File too large: 100.00MB exceeds limit of 100.00MB")) as H
    by reflexivity.
  split; [left; exact H|].
  exact (X19_validators_raise_what_main_catches Security.example_platform
           "/in/big.pptx" [".pptx"] Security.MAX_FILE_SIZE_BYTES _ (or_introl H)).
Defined.

(** The [OSError] of a name that is too long is not caught by [main]: it
    comes from the test for existence. *)
Example too_long_name_escapes_main :
  Security.validate_input_file Security.example_platform "/in/too_long.pptx"
    [".pptx"] Security.MAX_FILE_SIZE_BYTES
  = Security.Err
      (Security.OSError "[Errno 36] File name too long: '/in/too_long.pptx'")
  /\ Security.caught_by_main
       (Security.OSError "[Errno 36] File name too long: '/in/too_long.pptx'")
     = false.
Proof. split; reflexivity. Qed.

(** The sizes in the message are formatted with two decimals. *)
Example file_size_message :
  Security.megabytes 104857601 = "100.00"
  /\ Security.megabytes 1572864 = "1.50"
  /\ Security.megabytes 5242 = "0.00"
  /\ Security.megabytes 5243 = "0.01".
Proof. repeat split; reflexivity. Qed.
